(** * python_tools: the cron harness, its alert channels and the retry decorator

    A shallow embedding of
      - [bi/utils/retry.py]            (the [retry] decorator),
      - [bi/cron/alerts/base.py]       ([AlertSystem]),
      - [bi/cron/alerts/dataloop.py]   ([DataLoopAlertSystem]),
      - [bi/cron/alerts/slack.py]      ([SlackAlertSystem]),
      - [bi/cron/base.py]              ([CronBase]: alert fan-out, [run],
                                        email, databases, file checks),
      - [py_utils/csv_cleaner.py]      ([CSVCleaner]: paths and date fields),
    followed by the properties of the specification that concern them.

    Python code is embedded as computations over an explicit world: a
    computation takes the world, and gives back what it observably did (a
    log), the new world, and either a value or a raised exception. *)

From Stdlib Require Import ZArith Lia Ascii.
From stdpp Require Import base list strings pretty.

Set Warnings "-register-all".

Local Open Scope string_scope.
Local Open Scope list_scope.

(** ** Python values and exceptions *)

(** The values that travel through the alert code: [None], booleans,
    integers, strings, lists and dictionaries with string keys (kept in
    insertion order, as Python's [dict] iterates). *)
Inductive pyval : Type :=
| PNone
| PBool (b : bool)
| PInt (n : Z)
| PStr (s : string)
| PList (l : list pyval)
| PDict (d : list (string * pyval)).

(** An exception object: the name of its class, the names of the classes it
    derives from, and [str(e)].  [sys.exit(code)] raises [SystemExit], which
    derives from [BaseException] only. *)
Inductive exn : Type :=
| Exc (type : string) (bases : list string) (msg : string)
| SystemExit (code : Z).

Definition exc_type (e : exn) : string :=
  match e with
  | Exc t _ _ => t
  | SystemExit _ => "SystemExit"
  end.

Definition exc_bases (e : exn) : list string :=
  match e with
  | Exc _ bs _ => bs
  | SystemExit _ => ["BaseException"]
  end.

Definition Z_to_string (n : Z) : string :=
  match n with
  | Z0 => "0"
  | Zpos p => pretty (Npos p)
  | Zneg p => "-" +:+ pretty (Npos p)
  end.

Definition exc_str (e : exn) : string :=
  match e with
  | Exc _ _ m => m
  | SystemExit c => Z_to_string c
  end.

(** [isinstance(e, cls)]. *)
Definition isinstance (e : exn) (cls : string) : bool :=
  bool_decide (cls = exc_type e) || bool_decide (cls ∈ exc_bases e).

(** [isinstance(e, (cls1, ..., clsn))], which is also what
    [except (cls1, ..., clsn)] tests. *)
Definition isinstance_any (e : exn) (classes : list string) : bool :=
  existsb (isinstance e) classes.

Definition std_bases : list string := ["Exception"; "BaseException"].

Definition TypeError (m : string) : exn := Exc "TypeError" std_bases m.
Definition ValueError (m : string) : exn := Exc "ValueError" std_bases m.
Definition AttributeError (m : string) : exn := Exc "AttributeError" std_bases m.
Definition KeyError (k : string) : exn :=
  Exc "KeyError" ("LookupError" :: std_bases) ("'" +:+ k +:+ "'").

(** Modelled from the spec: the class [CronException] of
    [bi/cron/exception.py], which is not among the sources.  The
    specification has it as the delivery error a channel fails with; it is
    taken to derive from [Exception], as an error of the job does. *)
Definition CronException (m : string) : exn := Exc "CronException" std_bases m.

(** The outcome of a call: a value, or a raised exception. *)
Inductive res (A : Type) : Type :=
| Ok (a : A)
| Raise (e : exn).
Arguments Ok {A} a.
Arguments Raise {A} e.

(** ** Computations *)

Module Eff.
Section Eff.
Context {World : Type}.

(** A computation logging events of type [E] and returning an [A]. *)
Definition M (E A : Type) : Type := World -> list E * World * res A.

Definition ret {E A} (a : A) : M E A := fun w => ([], w, Ok a).

Definition raise {E A} (e : exn) : M E A := fun w => ([], w, Raise e).

Definition tell {E} (ev : E) : M E unit := fun w => ([ev], w, Ok tt).

Definition bind {E A B} (m : M E A) (k : A -> M E B) : M E B :=
  fun w =>
    match m w with
    | (l1, w1, Ok a) =>
        match k a w1 with
        | (l2, w2, r) => (l1 ++ l2, w2, r)
        end
    | (l1, w1, Raise e) => (l1, w1, Raise e)
    end.

(** A call into the outside world that logs nothing by itself. *)
Definition call {E A} (f : World -> World * res A) : M E A :=
  fun w => match f w with (w1, r) => ([], w1, r) end.

(** [try: m  except classes as e: h e]. *)
Definition try_except {E A} (m : M E A) (classes : list string)
    (h : exn -> M E A) : M E A :=
  fun w =>
    match m w with
    | (l1, w1, Raise e) =>
        if isinstance_any e classes then
          match h e w1 with
          | (l2, w2, r) => (l1 ++ l2, w2, r)
          end
        else (l1, w1, Raise e)
    | out => out
    end.

(** Run [m], translating its log. *)
Definition relog {E1 E2 A} (f : E1 -> E2) (m : M E1 A) : M E2 A :=
  fun w => match m w with (l, w1, r) => (f <$> l, w1, r) end.
End Eff.
End Eff.
Import Eff.

Notation "'let*' x ':=' m 'in' k" := (bind m (fun x => k))
  (at level 10, x name, m at level 100, k at level 200).
Notation "m ';;;' k" := (bind m (fun _ => k))
  (at level 100, k at level 200, right associativity).

(** ** bi/utils/retry.py *)

(** [time.sleep] belongs to Python's library, not to the repository: the
    embedding is parametric in it.  A call takes the length and the world,
    and either returns, some time later, or raises (a negative length, a
    length too large for the clock of the machine, an interrupt).  Lengths
    are integers here, as [delay] and [backoff] are. *)
Class Clock (World : Type) : Type := {
  time_sleep : Z -> World -> World * res unit;
}.

Module Retry.

(** What the wrapper itself does, in order: an attempt of the wrapped
    function (with the exception it raised, if any), a call of the
    callback with its three arguments, a call of [time.sleep] with its
    argument. *)
Inductive event : Type :=
| Attempt (raised : option exn)
| Callback (e : exn) (remaining_tries next_delay : Z)
| Sleep (seconds : Z).

Section Retry.
Context {World V : Type} `{!Clock World}.

(** The arguments of [retry], and the decorated function with its
    arguments applied. *)
Variable exceptions_to_retry : list string.
Variable exception_callback :
  option (exn -> Z -> Z -> World -> World * res unit).
Variables tries delay backoff : Z.
Variable f : World -> World * res V.

(** [if exception_callback: exception_callback(e, remaining_tries, next_delay)] *)
Definition call_callback (e : exn) (remaining_tries next_delay : Z)
  : @M World event unit :=
  match exception_callback with
  | Some cb =>
      tell (Callback e remaining_tries next_delay) ;;;
      call (cb e remaining_tries next_delay)
  | None => ret tt
  end.

(** [raise last_exception]; raising [None] is a [TypeError]. *)
Definition raise_last (last_exception : option exn) : @M World event V :=
  match last_exception with
  | Some e => raise e
  | None => raise (TypeError "exceptions must derive from BaseException")
  end.

(** The [while remaining_tries > 0] loop.  [remaining_tries] only ever
    decreases by one, so the loop is a recursion on it. *)
Fixpoint while_remaining (remaining_tries : nat) (next_delay : Z)
    (last_exception : option exn) : @M World event V :=
  match remaining_tries with
  | O => raise_last last_exception
  | S remaining' =>
      fun w =>
        match f w with
        | (w1, Ok v) => ([Attempt None], w1, Ok v)
        | (w1, Raise e) =>
            if isinstance_any e exceptions_to_retry then
              (tell (Attempt (Some e)) ;;;
               call_callback e (Z.of_nat remaining_tries) next_delay ;;;
               (tell (Sleep next_delay) ;;; call (time_sleep next_delay)) ;;;
               while_remaining remaining' (next_delay * backoff)%Z (Some e)) w1
            else ([Attempt (Some e)], w1, Raise e)
        end
  end.

Definition f_retry : @M World event V :=
  while_remaining (Z.to_nat tries) delay None.
End Retry.

(** Projections of a log. *)
Definition attempts (l : list event) : list (option exn) :=
  omap (fun ev => match ev with Attempt r => Some r | _ => None end) l.

Definition sleeps (l : list event) : list Z :=
  omap (fun ev => match ev with Sleep d => Some d | _ => None end) l.

Definition callbacks (l : list event) : list (exn * Z * Z) :=
  omap (fun ev => match ev with Callback e r d => Some (e, r, d) | _ => None end) l.

Definition without_callbacks (l : list event) : list event :=
  omap (fun ev => match ev with Callback _ _ _ => None | _ => Some ev end) l.

(** *** The situations the specification describes *)

Section Situations.
Context {World V : Type} `{!Clock World}.
Variable exceptions_to_retry : list string.
Variable exception_callback :
  option (exn -> Z -> Z -> World -> World * res unit).
Variable backoff : Z.
Variable f : World -> World * res V.

(** The callback, if there is one, is called in [w1] and returns normally,
    leaving [w2]. *)
Definition after_callback (e : exn) (remaining_tries next_delay : Z)
    (w1 w2 : World) : Prop :=
  match exception_callback with
  | Some cb => cb e remaining_tries next_delay w1 = (w2, Ok tt)
  | None => w2 = w1
  end.

(** One turn of the loop that fails and is retried: called in [w], the
    wrapped function raises [e], an exception the decorator retries on;
    the callback, if any, returns; [time.sleep(next_delay)] returns, in
    [w']. *)
Definition failed_turn (remaining_tries next_delay : Z) (w : World) (e : exn)
    (w' : World) : Prop :=
  exists w1 w2,
    f w = (w1, Raise e) /\
    isinstance_any e exceptions_to_retry = true /\
    after_callback e remaining_tries next_delay w1 w2 /\
    time_sleep next_delay w2 = (w', Ok tt).

(** What the log shows of the callback after a failed attempt. *)
Definition callback_log (e : exn) (remaining_tries next_delay : Z)
  : list event :=
  match exception_callback with
  | Some _ => [Callback e remaining_tries next_delay]
  | None => []
  end.

(** The log of a run of failed attempts raising [es], the first of them
    with [next_delay] to sleep. *)
Fixpoint failing_log (es : list exn) (next_delay : Z) : list event :=
  match es with
  | [] => []
  | e :: es' =>
      Attempt (Some e)
        :: callback_log e (Z.of_nat (length es)) next_delay
        ++ Sleep next_delay
        :: failing_log es' (next_delay * backoff)%Z
  end.
End Situations.

End Retry.

(** ** Small pieces of Python's data model *)

(** [d[key]] on a dictionary kept as an association list. *)
Fixpoint dict_get {V : Type} (d : list (string * V)) (key : string) : option V :=
  match d with
  | [] => None
  | (k, v) :: d' => if bool_decide (k = key) then Some v else dict_get d' key
  end.

(** [d[key] = v]: an existing key keeps its place, a new one goes last. *)
Fixpoint dict_set {V : Type} (d : list (string * V)) (key : string) (v : V)
  : list (string * V) :=
  match d with
  | [] => [(key, v)]
  | (k, x) :: d' =>
      if bool_decide (k = key) then (k, v) :: d' else (k, x) :: dict_set d' key v
  end.

(** The truth value of an object, as [if obj:] takes it. *)
Definition truthy (v : pyval) : bool :=
  match v with
  | PNone => false
  | PBool b => b
  | PInt n => negb (n =? 0)%Z
  | PStr s => negb (bool_decide (s = EmptyString))
  | PList l => negb (bool_decide (length l = 0%nat))
  | PDict d => negb (bool_decide (length d = 0%nat))
  end.

Definition type_name (v : pyval) : string :=
  match v with
  | PNone => "NoneType"
  | PBool _ => "bool"
  | PInt _ => "int"
  | PStr _ => "str"
  | PList _ => "list"
  | PDict _ => "dict"
  end.

(** The newline character, as a string. *)
Definition nl : string := String (Ascii.ascii_of_nat 10) EmptyString.

(** [sep.join(items)] once the items are known to be strings. *)
Fixpoint join (sep : string) (items : list string) : string :=
  match items with
  | [] => EmptyString
  | [s] => s
  | s :: rest => s +:+ sep +:+ join sep rest
  end.

(** The strings an iterable yields to [str.join], or the [TypeError] raised
    at the first item that is not a string. *)
Fixpoint str_items (i : nat) (items : list pyval) : res (list string) :=
  match items with
  | [] => Ok []
  | PStr s :: rest =>
      match str_items (S i) rest with
      | Ok ss => Ok (s :: ss)
      | Raise e => Raise e
      end
  | v :: _ =>
      Raise (TypeError ("sequence item " +:+ pretty i +:+ ": expected str instance, "
                        +:+ type_name v +:+ " found"))
  end.

Fixpoint chars (s : string) : list string :=
  match s with
  | EmptyString => []
  | String c s' => String c EmptyString :: chars s'
  end.

(** [sep.join(v)] for an arbitrary object [v]: a list yields its items, a
    string its characters, a dictionary its keys; nothing else is iterable. *)
Definition py_join (sep : string) (v : pyval) : res string :=
  match v with
  | PList l =>
      match str_items 0 l with
      | Ok ss => Ok (join sep ss)
      | Raise e => Raise e
      end
  | PStr s => Ok (join sep (chars s))
  | PDict d => Ok (join sep (fst <$> d))
  | _ => Raise (TypeError "can only join an iterable")
  end.

(** [v.keys()]: only dictionaries have the method. *)
Definition py_keys (v : pyval) : res (list string) :=
  match v with
  | PDict d => Ok (fst <$> d)
  | _ => Raise (AttributeError ("'" +:+ type_name v +:+ "' object has no attribute 'keys'"))
  end.

(** [v[key]] for a string key, on a dictionary. *)
Definition py_getitem (v : pyval) (key : string) : res pyval :=
  match v with
  | PDict d =>
      match dict_get d key with
      | Some x => Ok x
      | None => Raise (KeyError key)
      end
  | _ => Raise (TypeError ("'" +:+ type_name v +:+ "' object is not subscriptable"))
  end.

(** ** The collaborators outside the repository

    The [json] module, the MySQL driver, the HTTP client, [platform] and
    [traceback] are not part of the repository: the embedding is parametric
    in them.  Calls that touch the outside world take and return it. *)
Class Runtime (World : Type) : Type := {
  json_dumps : pyval -> string;
  json_loads : string -> res pyval;
  pymysql_connect : string -> string -> string -> string -> World -> World * res unit;
  cursor_execute : string -> list pyval -> World -> World * res Z;
  connection_commit : World -> World * res unit;
  requests_post : string -> pyval -> World -> World * res Z;
  platform_node : World -> string;
  platform_system : World -> string;
  format_traceback : exn -> list string;
}.

(** What a channel's delivery does to the outside world. *)
Inductive io_event : Type :=
| Connect (host user db password : string)
| Execute (query : string) (attributes : list pyval)
| Commit
| Post (endpoint : string) (json : pyval).

(** ** bi/cron/alerts/base.py *)

Module AlertSystem.

(** A call of a channel's delivery function [send_alert_internal], with
    its arguments. *)
Record delivery : Type := Delivery {
  d_klass : string;
  d_level : string;
  d_title : string;
  d_additional_data : string;
}.

(** What [send_alert] does: it calls the delivery function, which in turn
    acts on the outside world. *)
Inductive event : Type :=
| Internal (d : delivery)
| IO (ev : io_event).

Section AlertSystem.
Context {World : Type}.

(** An alert system object.  The subclasses differ in
    [send_alert_internal] only, which is a field here. *)
Record t : Type := Build {
  levels : list string;
  monitored_levels : list string;
  env_name : string;
  send_alert_internal :
    string -> string -> string -> string -> @M World io_event pyval;
}.

Definition default_levels : list string := ["SUCCESS"; "WARNING"; "FAILURE"].

(** [AlertSystem.__init__], for a subclass with the given delivery. *)
Definition init (env_name : string) (levels : list string)
    (internal : string -> string -> string -> string -> @M World io_event pyval)
  : t :=
  {| levels := levels;
     monitored_levels := levels;
     env_name := env_name;
     send_alert_internal := internal |}.

Definition set_monitored_levels (self : t) (new_levels : list string) : t :=
  {| levels := levels self;
     monitored_levels :=
       filter (fun level => level ∈ levels self) new_levels;
     env_name := env_name self;
     send_alert_internal := send_alert_internal self |}.

Definition send_alert (self : t) (klass level title additional_data : string)
  : @M World event pyval :=
  if negb (bool_decide (level ∈ levels self)) then ret PNone
  else if negb (bool_decide (level ∈ monitored_levels self)) then ret PNone
  else
    tell (Internal (Delivery klass level title additional_data)) ;;;
    relog IO (send_alert_internal self klass level title additional_data).
End AlertSystem.

Arguments t : clear implicits.

(** The invariant of an alert system: it only monitors levels it
    supports. *)
Definition monitors_supported {World} (self : t World) : Prop :=
  monitored_levels self ⊆ levels self.

(** The level passes both tests of [send_alert]. *)
Definition watches {World} (self : t World) (level : string) : bool :=
  bool_decide (level ∈ levels self) && bool_decide (level ∈ monitored_levels self).

(** The calls of the delivery function recorded in a log. *)
Definition deliveries (l : list event) : list delivery :=
  omap (fun ev => match ev with Internal d => Some d | IO _ => None end) l.

End AlertSystem.

(** ** bi/cron/alerts/dataloop.py *)

Module DataLoopAlertSystem.

(** The entries of [config_data] the class reads. *)
Record config : Type := Config {
  tablename : string;
  host : string;
  user : string;
  db : string;
  password : string;
}.

Definition status_codes : list (string * Z) :=
  [("SUCCESS", 0%Z); ("WARNING", 1%Z); ("FAILURE", 2%Z)].

(** The column list and the value list of the [INSERT] statement. *)
Definition columns : list string :=
  ["source"; "err_date"; "status"; "err_msg"; "err_additional"; "env"].

Definition values : list string :=
  ["%s"; "NOW()"; "%s"; "%s"; "%s"; "%s"].

(** The text of the statement, laid out as in the source. *)
Definition query (tablename : string) : string :=
  nl +:+ "            INSERT" +:+
  nl +:+ "                INTO " +:+ tablename +:+
  nl +:+ "                    ( " +:+ join ", " columns +:+ " )" +:+
  nl +:+ "                VALUES" +:+
  nl +:+ "                    ( " +:+ join ", " values +:+ " )" +:+
  nl +:+ "            ;" +:+
  nl +:+ "        ".

(** What a column of the new row receives: the next statement attribute
    for a [%s] placeholder, the server's clock for [NOW()]. *)
Inductive cell : Type :=
| Attribute (v : pyval)
| Now
| Unbound.

Fixpoint bind_values (values : list string) (attributes : list pyval)
  : list cell :=
  match values with
  | [] => []
  | v :: values' =>
      if bool_decide (v = "%s") then
        match attributes with
        | a :: attributes' => Attribute a :: bind_values values' attributes'
        | [] => Unbound :: bind_values values' []
        end
      else Now :: bind_values values' attributes
  end.

(** The row the statement inserts when run with [attributes]. *)
Definition inserted_row (attributes : list pyval) : list (string * cell) :=
  zip columns (bind_values values attributes).

(** The calls the channel makes to the database for one alert whose
    level has the given code. *)
Definition calls (env_name : string) (cfg : config)
    (klass title data : string) (code : Z) : list io_event :=
  [Connect (host cfg) (user cfg) (db cfg) (password cfg);
   Execute (query (tablename cfg))
     [PStr klass; PInt code; PStr title; PStr data; PStr env_name];
   Commit].

Section DataLoop.
Context `{Runtime World}.

Definition connect_to_database (cfg : config) : @M World io_event unit :=
  tell (Connect (host cfg) (user cfg) (db cfg) (password cfg)) ;;;
  call (pymysql_connect (host cfg) (user cfg) (db cfg) (password cfg)).

Definition send_alert_internal (env_name : string) (cfg : config)
    (klass level title additional_data : string) : @M World io_event pyval :=
  let query := query (tablename cfg) in
  match dict_get status_codes level with
  | None => raise (KeyError level)
  | Some code =>
      let attributes :=
        [PStr klass; PInt code; PStr title; PStr additional_data; PStr env_name] in
      connect_to_database cfg ;;;
      let* result := (tell (Execute query attributes) ;;;
                      call (cursor_execute query attributes)) in
      (tell Commit ;;; call connection_commit) ;;;
      ret (PInt result)
  end.

Definition init (env_name : string) (cfg : config) : AlertSystem.t World :=
  AlertSystem.init env_name AlertSystem.default_levels
    (send_alert_internal env_name cfg).
End DataLoop.

End DataLoopAlertSystem.

(** ** bi/cron/alerts/slack.py *)

Module SlackAlertSystem.

Record config : Type := Config {
  endpoint : string;
  username : string;
}.

Definition colors : list (string * string) :=
  [("SUCCESS", "good"); ("WARNING", "warning"); ("FAILURE", "danger")].

(** The dictionary [append_field] builds. *)
Definition field (field_name : string) (field_value : pyval) : pyval :=
  PDict [("title", PStr field_name); ("value", field_value); ("short", PBool true)].

Definition append_field (field_collection : list pyval) (field_name : string)
    (field_value : pyval) : list pyval :=
  field_collection ++ [field field_name field_value].

(** The loop over [additional_data.keys()]. *)
Fixpoint append_keys (fields : list pyval) (additional_data : list (string * pyval))
    (keys : list string) : list pyval :=
  match keys with
  | [] => fields
  | key :: keys' =>
      if negb (bool_decide (key = "traceback")) then
        match dict_get additional_data key with
        | Some v => append_keys (append_field fields key v) additional_data keys'
        | None => append_keys fields additional_data keys'
        end
      else append_keys fields additional_data keys'
  end.

(** The body posted for an alert whose data is a dictionary [d] with a
    traceback of [lines]: the three fields every message has, a field for
    each other key of [d], and the traceback as a fenced block of text. *)
Definition message (env_name : string) (cfg : config)
    (klass level title color : string) (d : list (string * pyval))
    (lines : list string) : pyval :=
  PDict
    [("username", PStr (username cfg));
     ("attachments",
      PList
        [PDict
           [("author_name", PStr (username cfg));
            ("title", PStr (level +:+ ": " +:+ title));
            ("color", PStr color);
            ("text", PStr ("```" +:+ join nl lines +:+ "```"));
            ("mrkdwn_in", PList [PStr "text"]);
            ("fields",
             PList
               ([field "source" (PStr klass); field "level" (PStr level);
                 field "env" (PStr env_name)]
                ++ ((fun kv => field kv.1 kv.2)
                      <$> filter (fun kv => kv.1 <> "traceback") d)))]])].

Section Slack.
Context `{Runtime World}.

(** The body of [if raw_additional_data: ...]: the fields and the message
    after it. *)
Definition add_additional_data (fields : list pyval) (msg : list (string * pyval))
    (raw_additional_data : string)
  : @M World io_event (list pyval * list (string * pyval)) :=
  if negb (bool_decide (raw_additional_data = EmptyString)) then
    let* additional_data := call (fun w => (w, json_loads raw_additional_data)) in
    if truthy additional_data then
      let* keys := call (fun w => (w, py_keys additional_data)) in
      let fields :=
        match additional_data with
        | PDict d => append_keys fields d keys
        | _ => fields
        end in
      let* traceback := call (fun w => (w, py_getitem additional_data "traceback")) in
      let* preformatted := call (fun w => (w, py_join nl traceback)) in
      let msg := dict_set msg "text" (PStr ("```" +:+ preformatted +:+ "```")) in
      let msg := dict_set msg "mrkdwn_in" (PList [PStr "text"]) in
      ret (fields, msg)
    else ret (fields, msg)
  else ret (fields, msg).

Definition send_alert_internal (env_name : string) (cfg : config)
    (klass level title raw_additional_data : string) : @M World io_event pyval :=
  let msg := dict_set [] "author_name" (PStr (username cfg)) in
  let msg := dict_set msg "title" (PStr (level +:+ ": " +:+ title)) in
  match dict_get colors level with
  | None => raise (KeyError level)
  | Some color =>
      let msg := dict_set msg "color" (PStr color) in
      let fields := append_field [] "source" (PStr klass) in
      let fields := append_field fields "level" (PStr level) in
      let fields := append_field fields "env" (PStr env_name) in
      let* fm := add_additional_data fields msg raw_additional_data in
      let msg := dict_set (snd fm) "fields" (PList (fst fm)) in
      let wrapper := dict_set [] "username" (PStr (username cfg)) in
      let wrapper := dict_set wrapper "attachments" (PList [PDict msg]) in
      let* status_code := (tell (Post (endpoint cfg) (PDict wrapper)) ;;;
                           call (requests_post (endpoint cfg) (PDict wrapper))) in
      if negb (status_code =? 200)%Z
      then raise (CronException "Failure sending Slack Alert.")
      else ret PNone
  end.

Definition init (env_name : string) (cfg : config) : AlertSystem.t World :=
  AlertSystem.set_monitored_levels
    (AlertSystem.init env_name AlertSystem.default_levels
       (send_alert_internal env_name cfg))
    ["WARNING"; "FAILURE"].
End Slack.

End SlackAlertSystem.

(** ** bi/cron/base.py *)

Module CronBase.

(** What the job object does, in order: a call of [send_alert] with its
    arguments, what a registered alert system does under it (tagged with
    the name it is registered under), the call of [cron_process] by
    [run]. *)
Inductive event : Type :=
| Dispatch (level title : string) (additional_data : pyval)
| Channel (name : string) (ev : AlertSystem.event)
| CronProcess.

(** [d[key] = f(d[key])] for a key that is present. *)
Fixpoint dict_alter {V : Type} (f : V -> V) (key : string) (d : list (string * V))
  : list (string * V) :=
  match d with
  | [] => []
  | (k, v) :: d' =>
      if bool_decide (k = key) then (k, f v) :: d' else (k, v) :: dict_alter f key d'
  end.

Section CronBase.
Context `{Runtime World}.

(** The part of the job object the alert code reads and writes. *)
Record t : Type := Build {
  class_name : string;
  env_name : string;
  alert_systems : list (string * AlertSystem.t World);
}.

Definition with_alert_systems (self : t)
    (systems : list (string * AlertSystem.t World)) : t :=
  {| class_name := class_name self;
     env_name := env_name self;
     alert_systems := systems |}.

Definition add_alert_system (self : t) (system_name : string)
    (alert_obj : AlertSystem.t World) : t :=
  with_alert_systems self (dict_set (alert_systems self) system_name alert_obj).

Definition set_alert_levels (self : t) (alert_system : string)
    (monitored_levels : list string) : t :=
  if bool_decide (alert_system ∈ fst <$> alert_systems self) then
    with_alert_systems self
      (dict_alter (fun system => AlertSystem.set_monitored_levels system monitored_levels)
         alert_system (alert_systems self))
  else self.

(** [setup_bi_alerts] and [setup_slack_alerts]: a channel is registered
    when the configuration has its entry. *)
Definition setup_bi_alerts (self : t)
    (bi_alerts : option DataLoopAlertSystem.config) : t :=
  match bi_alerts with
  | Some cfg =>
      add_alert_system self "bi_alerts" (DataLoopAlertSystem.init (env_name self) cfg)
  | None => self
  end.

Definition setup_slack_alerts (self : t)
    (slack : option SlackAlertSystem.config) : t :=
  match slack with
  | Some cfg =>
      add_alert_system self "slack" (SlackAlertSystem.init (env_name self) cfg)
  | None => self
  end.

(** The alert part of [__init__]. *)
Definition init (class_name env_name : string)
    (bi_alerts : option DataLoopAlertSystem.config)
    (slack : option SlackAlertSystem.config) : t :=
  let self := {| class_name := class_name; env_name := env_name;
                 alert_systems := [] |} in
  let self := setup_bi_alerts self bi_alerts in
  setup_slack_alerts self slack.

Definition build_descriptive : string := "CronBase processing".

(** Methods run on the job object and the outside world. *)
Definition state : Type := t * World.

Definition get_self {E} : @M state E t :=
  fun st => ([], st, Ok (fst st)).

Definition lift_world {E A} (m : @M World E A) : @M state E A :=
  fun st =>
    match m (snd st) with
    | (l, w, r) => (l, (fst st, w), r)
    end.

(** The dictionary [build_error_output] builds for the exception being
    handled, on the machine the job runs on. *)
Definition error_output (e : exn) (w : World) : pyval :=
  let alert_data := dict_set [] "type" (PStr (exc_type e)) in
  let alert_data := dict_set alert_data "value" (PStr (exc_str e)) in
  let alert_data := dict_set alert_data "host" (PStr (platform_node w)) in
  let alert_data := dict_set alert_data "os" (PStr (platform_system w)) in
  let alert_data :=
    dict_set alert_data "traceback" (PList (PStr <$> format_traceback e)) in
  PDict alert_data.

Definition build_error_output (e : exn) : @M state event pyval :=
  fun st => ([], st, Ok (error_output e (snd st))).

(** The [for system in self.alert_systems.values()] loop. *)
Fixpoint for_each_system (systems : list (string * AlertSystem.t World))
    (klass level full_title additional_data : string) : @M World event unit :=
  match systems with
  | [] => ret tt
  | (name, system) :: systems' =>
      relog (Channel name)
        (AlertSystem.send_alert system klass level full_title additional_data) ;;;
      for_each_system systems' klass level full_title additional_data
  end.

(** [if not isinstance(additional_data, str):
       additional_data = json.dumps(additional_data)] *)
Definition ensure_string (additional_data : pyval) : string :=
  match additional_data with
  | PStr s => s
  | _ => json_dumps additional_data
  end.

Definition send_alert (level title : string) (additional_data : pyval)
  : @M state event unit :=
  tell (Dispatch level title additional_data) ;;;
  let* self := get_self in
  let full_title := build_descriptive +:+ ": " +:+ title in
  let additional_data := ensure_string additional_data in
  lift_world
    (for_each_system (alert_systems self) (class_name self) level full_title
       additional_data).

(** The call a system's delivery function receives for an alert. *)
Definition delivery_of (self : t) (level title : string) (additional_data : pyval)
  : AlertSystem.delivery :=
  AlertSystem.Delivery (class_name self) level
    ("CronBase processing: " +:+ title) (ensure_string additional_data).

Definition sys_exit {E A} (code : Z) : @M state E A := raise (SystemExit code).

(** The body of the [except Exception:] clause of [run]. *)
Definition on_exception (e : exn) : @M state event unit :=
  let* alert_data := build_error_output e in
  send_alert "FAILURE" "Failure during Job" alert_data ;;;
  sys_exit 1%Z.

(** [run], for a job whose [cron_process] is the given method.  The
    method runs on the job object and the outside world like the others:
    what it logs is what it does through the job object, the alerts it
    sends with [send_alert] among it. *)
Definition run (cron_process : @M state event unit) : @M state event unit :=
  try_except
    (send_alert "SUCCESS" "Job START" PNone ;;;
     (tell CronProcess ;;; cron_process) ;;;
     send_alert "SUCCESS" "Job FINAL" PNone ;;;
     sys_exit 0%Z)
    ["Exception"]
    on_exception.

(** How [run] ends once an exception [e] has been raised in its [try]
    block, with [l] logged so far: the clause runs for an [Exception],
    anything else leaves [run]. *)
Definition except_Exception (l : list event) (st : state) (e : exn)
  : list event * state * res unit :=
  if isinstance_any e ["Exception"] then
    match on_exception e st with
    | (l', st', r) => (l ++ l', st', r)
    end
  else (l, st, Raise e).

End CronBase.

Arguments t World : clear implicits.
Arguments state World : clear implicits.

(** The status the process exits with when a call ends in [SystemExit]. *)
Definition exit_status {A} (r : res A) : option Z :=
  match r with
  | Raise (SystemExit code) => Some code
  | _ => None
  end.

(** The delivery calls an alert is due, system by system in the order of
    the dictionary: one for each system that watches its level. *)
Fixpoint deliveries_due {World} (systems : list (string * AlertSystem.t World))
    (d : AlertSystem.delivery) : list (string * AlertSystem.delivery) :=
  match systems with
  | [] => []
  | (name, system) :: systems' =>
      (if AlertSystem.watches system (AlertSystem.d_level d) then [(name, d)] else [])
      ++ deliveries_due systems' d
  end.

(** The alerts sent through [send_alert], in order. *)
Definition dispatched (l : list event) : list (string * string * pyval) :=
  omap (fun ev => match ev with
                  | Dispatch level title data => Some (level, title, data)
                  | _ => None
                  end) l.

(** The calls of the delivery function of the alert system registered
    under [name], in order. *)
Definition delivered_to (name : string) (l : list event)
  : list AlertSystem.delivery :=
  omap (fun ev => match ev with
                  | Channel n (AlertSystem.Internal d) =>
                      if bool_decide (n = name) then Some d else None
                  | _ => None
                  end) l.

(** All the calls of a delivery function, with the name of the system. *)
Definition delivered (l : list event) : list (string * AlertSystem.delivery) :=
  omap (fun ev => match ev with
                  | Channel n (AlertSystem.Internal d) => Some (n, d)
                  | _ => None
                  end) l.

End CronBase.

(** ** A runtime to run the embedding on

    A small, executable stand-in for the collaborators: a JSON encoder and
    decoder for ASCII text without floating-point numbers, a database that
    can be down, a webhook that answers with a fixed status.  The concrete
    runs below use it; the general theorems hold for every [Runtime]. *)

Module Sim.

Local Open Scope char_scope.

Definition dquote : Ascii.ascii := Ascii.ascii_of_nat 34.

Fixpoint escape (s : string) : string :=
  match s with
  | EmptyString => EmptyString
  | String c s' =>
      let rest := escape s' in
      if bool_decide (c = dquote) then String "\" (String dquote rest)
      else if bool_decide (c = "\") then String "\" (String "\" rest)
      else if bool_decide (c = Ascii.ascii_of_nat 10) then String "\" (String "n" rest)
      else if bool_decide (c = Ascii.ascii_of_nat 13) then String "\" (String "r" rest)
      else if bool_decide (c = Ascii.ascii_of_nat 9) then String "\" (String "t" rest)
      else String c rest
  end.

Definition quote (s : string) : string :=
  String dquote (escape s +:+ String dquote EmptyString).

Local Open Scope string_scope.

(** [json.dumps] with its default separators. *)
Fixpoint dumps (v : pyval) : string :=
  match v with
  | PNone => "null"
  | PBool true => "true"
  | PBool false => "false"
  | PInt n => Z_to_string n
  | PStr s => quote s
  | PList l => "[" +:+ join ", " (map dumps l) +:+ "]"
  | PDict d =>
      "{" +:+ join ", " (map (fun kv => quote (fst kv) +:+ ": " +:+ dumps (snd kv)) d)
      +:+ "}"
  end.

Local Open Scope char_scope.

Fixpoint skip_ws (s : string) : string :=
  match s with
  | String c s' =>
      if bool_decide (c = " ") || bool_decide (c = Ascii.ascii_of_nat 10)
         || bool_decide (c = Ascii.ascii_of_nat 13) || bool_decide (c = Ascii.ascii_of_nat 9)
      then skip_ws s' else s
  | EmptyString => s
  end.

(** The text of a string literal after its opening quote, and the rest. *)
Fixpoint parse_string (s : string) : option (string * string) :=
  match s with
  | EmptyString => None
  | String "\" (String c rest) =>
      let unescaped :=
        if bool_decide (c = "n") then Some (Ascii.ascii_of_nat 10)
        else if bool_decide (c = "r") then Some (Ascii.ascii_of_nat 13)
        else if bool_decide (c = "t") then Some (Ascii.ascii_of_nat 9)
        else if bool_decide (c = dquote) || bool_decide (c = "\") || bool_decide (c = "/")
        then Some c else None in
      match unescaped, parse_string rest with
      | Some c', Some (text, rest') => Some (String c' text, rest')
      | _, _ => None
      end
  | String c rest =>
      if bool_decide (c = dquote) then Some (EmptyString, rest)
      else
        match parse_string rest with
        | Some (text, rest') => Some (String c text, rest')
        | None => None
        end
  end.

(** A whole string literal, opening quote included. *)
Definition parse_literal (s : string) : option (string * string) :=
  match s with
  | String c rest => if bool_decide (c = dquote) then parse_string rest else None
  | EmptyString => None
  end.

Definition digit (c : Ascii.ascii) : option Z :=
  let n := Z.of_nat (Ascii.nat_of_ascii c) in
  if (48 <=? n)%Z && (n <=? 57)%Z then Some (n - 48)%Z else None.

Fixpoint parse_digits (acc : Z) (s : string) : Z * string :=
  match s with
  | String c s' =>
      match digit c with
      | Some d => parse_digits (10 * acc + d)%Z s'
      | None => (acc, s)
      end
  | EmptyString => (acc, s)
  end.

Definition starts_with_digit (s : string) : bool :=
  match s with
  | String c _ => bool_decide (is_Some (digit c))
  | EmptyString => false
  end.

Fixpoint parse_value (fuel : nat) (s : string) : option (pyval * string) :=
  match fuel with
  | O => None
  | S fuel' =>
      match skip_ws s with
      | String "n" (String "u" (String "l" (String "l" rest))) => Some (PNone, rest)
      | String "t" (String "r" (String "u" (String "e" rest))) => Some (PBool true, rest)
      | String "f" (String "a" (String "l" (String "s" (String "e" rest)))) =>
          Some (PBool false, rest)
      | String "[" rest =>
          match skip_ws rest with
          | String "]" rest' => Some (PList [], rest')
          | items =>
              match parse_items fuel' items with
              | Some (l, rest') => Some (PList l, rest')
              | None => None
              end
          end
      | String "{" rest =>
          match skip_ws rest with
          | String "}" rest' => Some (PDict [], rest')
          | members =>
              match parse_members fuel' [] members with
              | Some (d, rest') => Some (PDict d, rest')
              | None => None
              end
          end
      | String "-" rest =>
          if starts_with_digit rest then
            match parse_digits 0 rest with (n, rest') => Some (PInt (- n), rest') end
          else None
      | other =>
          if starts_with_digit other then
            match parse_digits 0 other with (n, rest') => Some (PInt n, rest') end
          else
            match parse_literal other with
            | Some (text, rest') => Some (PStr text, rest')
            | None => None
            end
      end
  end
with parse_items (fuel : nat) (s : string) : option (list pyval * string) :=
  match fuel with
  | O => None
  | S fuel' =>
      match parse_value fuel' s with
      | Some (v, rest) =>
          match skip_ws rest with
          | String "]" rest' => Some ([v], rest')
          | String "," rest' =>
              match parse_items fuel' rest' with
              | Some (l, rest'') => Some (v :: l, rest'')
              | None => None
              end
          | _ => None
          end
      | None => None
      end
  end
with parse_members (fuel : nat) (acc : list (string * pyval)) (s : string)
  : option (list (string * pyval) * string) :=
  match fuel with
  | O => None
  | S fuel' =>
      match parse_literal (skip_ws s) with
      | Some (key, rest1) =>
          match skip_ws rest1 with
          | String ":" rest2 =>
              match parse_value fuel' rest2 with
              | Some (v, rest3) =>
                  match skip_ws rest3 with
                  | String "}" rest4 => Some (dict_set acc key v, rest4)
                  | String "," rest4 => parse_members fuel' (dict_set acc key v) rest4
                  | _ => None
                  end
              | None => None
              end
          | _ => None
          end
      | None => None
      end
  end.

Local Open Scope string_scope.

Definition JSONDecodeError : exn :=
  Exc "JSONDecodeError" ("ValueError" :: std_bases) "Expecting value".

(** [json.loads]. *)
Definition loads (s : string) : res pyval :=
  match parse_value (2 * String.length s + 2) s with
  | Some (v, rest) =>
      if bool_decide (skip_ws rest = EmptyString) then Ok v else Raise JSONDecodeError
  | None => Raise JSONDecodeError
  end.

(** The outside world: whether the database server can be reached, the
    status the webhook answers with, the statements executed but not yet
    committed, the committed ones, and the bodies posted. *)
Record world : Type := World {
  db_down : bool;
  webhook_status : Z;
  pending : list (string * list pyval);
  rows : list (string * list pyval);
  posts : list (string * pyval);
}.

Definition OperationalError : exn :=
  Exc "OperationalError" ("DatabaseError" :: "Error" :: std_bases)
    "(2003, 'Can not connect to MySQL server')".

Definition connect (host user db password : string) (w : world)
  : world * res unit :=
  if db_down w then (w, Raise OperationalError) else (w, Ok tt).

Definition execute (query : string) (attributes : list pyval) (w : world)
  : world * res Z :=
  ({| db_down := db_down w; webhook_status := webhook_status w;
      pending := pending w ++ [(query, attributes)];
      rows := rows w; posts := posts w |}, Ok 1%Z).

Definition commit (w : world) : world * res unit :=
  ({| db_down := db_down w; webhook_status := webhook_status w;
      pending := [];
      rows := rows w ++ pending w; posts := posts w |}, Ok tt).

Definition post (endpoint : string) (body : pyval) (w : world) : world * res Z :=
  ({| db_down := db_down w; webhook_status := webhook_status w;
      pending := pending w;
      rows := rows w; posts := posts w ++ [(endpoint, body)] |},
   Ok (webhook_status w)).

#[global] Instance runtime : Runtime world := {|
  json_dumps := dumps;
  json_loads := loads;
  pymysql_connect := connect;
  cursor_execute := execute;
  connection_commit := commit;
  requests_post := post;
  platform_node := fun _ => "cron01";
  platform_system := fun _ => "Linux";
  format_traceback := fun e => ["  File job.py, line 7, in cron_process" +:+ nl];
|}.

(** A world where everything works. *)
Definition healthy : world :=
  {| db_down := false; webhook_status := 200%Z;
     pending := []; rows := []; posts := [] |}.

(** The database server goes away. *)
Definition lose_database (w : world) : world :=
  {| db_down := true; webhook_status := webhook_status w;
     pending := pending w; rows := rows w; posts := posts w |}.

(** A clock: how CPython's [time.sleep] answers an integer at once.  A
    length whose nanoseconds do not fit in 64 bits is an [OverflowError],
    another negative length a [ValueError]; any other length is taken to be
    slept through (an operating system may still refuse a length of
    centuries). *)
Definition OverflowError (m : string) : exn :=
  Exc "OverflowError" ("ArithmeticError" :: std_bases) m.

Definition sleep_answer (seconds : Z) : res unit :=
  if ((seconds <? -9223372036) || (9223372036 <? seconds))%Z
  then Raise (OverflowError "timestamp too large to convert to C _PyTime_t")
  else if (seconds <? 0)%Z
  then Raise (ValueError "sleep length must be non-negative")
  else Ok tt.

#[global] Instance clock : Clock world := {|
  time_sleep := fun seconds w => (w, sleep_answer seconds);
|}.

(** An operation that finds the database down at every call, and a
    callback that only takes note. *)
Definition always_down (w : world) : world * res pyval :=
  (w, Raise OperationalError).

Definition note (e : exn) (remaining_tries next_delay : Z) (w : world)
  : world * res unit :=
  (w, Ok tt).

(** An operation that trips over a missing key. *)
Definition missing_key (w : world) : world * res pyval :=
  (w, Raise (KeyError "tablename")).

Definition bi_alerts : DataLoopAlertSystem.config :=
  DataLoopAlertSystem.Config "alerts" "db.internal" "cron" "bi" "secret".

Definition slack : SlackAlertSystem.config :=
  SlackAlertSystem.Config "https://hooks.example/T0" "cronbot".

(** A job object with both channels configured. *)
Definition job : CronBase.t world :=
  CronBase.init "NightlyLoad" "prod" (Some bi_alerts) (Some slack).

(** Three job bodies that send no alert: one that does its work, one
    during which the database server goes away, one that fails. *)
Definition work : @M (CronBase.state world) CronBase.event unit :=
  ret tt.

Definition work_losing_database : @M (CronBase.state world) CronBase.event unit :=
  call (fun st => ((fst st, lose_database (snd st)), Ok tt)).

Definition work_failing : @M (CronBase.state world) CronBase.event unit :=
  raise (Exc "X" std_bases "boom").

(** A body that sends an alert of its own before it returns. *)
Definition work_warning : @M (CronBase.state world) CronBase.event unit :=
  CronBase.send_alert "WARNING" "Row count dropped" PNone.
End Sim.

(** ** More of bi/utils/retry.py: runs of the loop *)

Module RetryRuns.

Section RetryRuns.
Context {World V : Type} `{!Clock World}.
Variable exceptions_to_retry : list string.
Variable exception_callback :
  option (exn -> Z -> Z -> World -> World * res unit).
Variable backoff : Z.
Variable f : World -> World * res V.

(** [retried n d w es l w']: starting in [w] with [n] tries remaining and
    [d] to sleep next, the loop makes [length es] turns that each fail and
    are retried; [es] are the exceptions the wrapped function raised, [l]
    is what is logged and [w'] the world the next turn starts in, the one
    the last [time.sleep] returned in. *)
Inductive retried : nat -> Z -> World -> list exn -> list Retry.event -> World -> Prop :=
| retried_none n d w : retried n d w [] [] w
| retried_again n d w w1 e es l w' :
    Retry.failed_turn exceptions_to_retry exception_callback f
      (Z.of_nat (S n)) d w e w1 ->
    retried n (d * backoff)%Z w1 es l w' ->
    retried (S n) d w (e :: es)
      (Retry.Attempt (Some e)
         :: Retry.callback_log exception_callback e (Z.of_nat (S n)) d
         ++ Retry.Sleep d :: l) w'.

(** The delays of [n] successive sleeps, the first one of [d]. *)
Fixpoint delays (n : nat) (d : Z) : list Z :=
  match n with
  | O => []
  | S n' => d :: delays n' (d * backoff)%Z
  end.

(** What holds of every outcome of the loop entered in [w] with [n] tries
    and [d] to sleep next: the function has been called at most [n] times,
    there is no sleep and no call of the callback without a failed attempt
    before it, and a value is returned only by the attempt made last, after
    turns that all failed and were retried, fewer than [n] of them. *)
Definition within_tries (n : nat) (d : Z) (w : World)
    (out : list Retry.event * World * res V) : Prop :=
  (length (Retry.attempts out.1.1) <= n)%nat /\
  (length (Retry.sleeps out.1.1) <= length (Retry.attempts out.1.1))%nat /\
  (length (Retry.callbacks out.1.1) <= length (Retry.attempts out.1.1))%nat /\
  (forall v, out.2 = Ok v ->
     exists es l w0,
       retried n d w es l w0 /\
       (length es < n)%nat /\
       f w0 = (out.1.2, Ok v) /\
       out.1.1 = l ++ [Retry.Attempt None]).

End RetryRuns.

(** A world that only counts the calls made so far, with the clock of
    [Sim]; an operation that fails on the first two calls and returns 7 on
    the third, and a callback that fails. *)
#[global] Instance clock : Clock nat := {|
  time_sleep := fun seconds calls => (calls, Sim.sleep_answer seconds);
|}.

Definition twice_then_7 (calls : nat) : nat * res Z :=
  if (calls <? 2)%nat
  then (S calls, Raise (Exc "TimeoutError" ("OSError" :: std_bases) "timed out"))
  else (S calls, Ok 7%Z).

Definition always_timeout (calls : nat) : nat * res Z :=
  (S calls, Raise (Exc "TimeoutError" ("OSError" :: std_bases) "timed out")).

Definition failing_callback (e : exn) (remaining_tries next_delay : Z) (calls : nat)
  : nat * res unit :=
  (calls, Raise (Exc "RuntimeError" std_bases "pager is down")).

End RetryRuns.

(** ** More of bi/cron/alerts/slack.py: the plain message *)

Module SlackMessages.

(** The body posted for an alert without data to show: the three fields
    every message has, and no block of text. *)
Definition plain_message (env_name : string) (cfg : SlackAlertSystem.config)
    (klass level title color : string) : pyval :=
  PDict
    [("username", PStr (SlackAlertSystem.username cfg));
     ("attachments",
      PList
        [PDict
           [("author_name", PStr (SlackAlertSystem.username cfg));
            ("title", PStr (level +:+ ": " +:+ title));
            ("color", PStr color);
            ("fields",
             PList
               [SlackAlertSystem.field "source" (PStr klass);
                SlackAlertSystem.field "level" (PStr level);
                SlackAlertSystem.field "env" (PStr env_name)])]])].

(** How the delivery ends once the endpoint has answered, or failed to. *)
Definition after_post (answer : res Z) : res pyval :=
  match answer with
  | Ok status_code =>
      if (status_code =? 200)%Z then Ok PNone
      else Raise (CronException "Failure sending Slack Alert.")
  | Raise e => Raise e
  end.

End SlackMessages.

(** ** More job bodies to run *)

Module Jobs.

(** A body that sends an alert of its own and then ends the process
    itself, with [sys.exit(3)]. *)
Definition work_exiting : @M (CronBase.state Sim.world) CronBase.event unit :=
  CronBase.send_alert "WARNING" "Nothing to load" PNone ;;;
  CronBase.sys_exit 3%Z.

(** A job object with the webhook channel only. *)
Definition slack_only : CronBase.t Sim.world :=
  CronBase.init "NightlyLoad" "prod" None (Some Sim.slack).

End Jobs.

(** ** bi/cron/base.py: email *)

Module Mail.

(** The entries of [config['mozmail']]. *)
Record config : Type := Config {
  from_user_id : pyval;
  email_type : pyval;
  access_id : pyval;
  secret : string;
  endpoint : string;
}.

(** [key in kwargs]. *)
Definition has_key (kwargs : list (string * pyval)) (key : string) : bool :=
  bool_decide (key ∈ kwargs.*1).

Definition not_provided (arg : string) : exn :=
  ValueError ("'" +:+ arg +:+ "' expected but not provided in arguments.").

Definition no_body : exn :=
  ValueError "'text_body' or 'html_body' expected but neither provided in arguments.".

(** The loop [for arg in required_args]: the first argument that is not
    given, if any. *)
Fixpoint first_missing (required_args : list string) (kwargs : list (string * pyval))
  : option string :=
  match required_args with
  | [] => None
  | arg :: required_args' =>
      if negb (has_key kwargs arg) then Some arg
      else first_missing required_args' kwargs
  end.

(** [content[key] = kwargs[source]], with the [KeyError] of a key that is
    not there. *)
Definition copy_item (kwargs content : list (string * pyval)) (key source : string)
  : res (list (string * pyval)) :=
  match dict_get kwargs source with
  | Some v => Ok (dict_set content key v)
  | None => Raise (KeyError source)
  end.

Definition build_email_content (mozmail_config : config)
    (kwargs : list (string * pyval)) : res (list (string * pyval)) :=
  match first_missing ["to"; "subject"] kwargs with
  | Some arg => Raise (not_provided arg)
  | None =>
      let has_body := false in
      let has_body := if has_key kwargs "text_body" then true else has_body in
      let has_body := if has_key kwargs "html_body" then true else has_body in
      if negb has_body then Raise no_body
      else
        let content := kwargs in
        let content := dict_set content "user_id" (from_user_id mozmail_config) in
        match copy_item kwargs content "to_address" "to" with
        | Raise e => Raise e
        | Ok content =>
            match copy_item kwargs content "subject" "subject" with
            | Raise e => Raise e
            | Ok content =>
                let content := dict_set content "type" (email_type mozmail_config) in
                match
                  (if has_key kwargs "text_body"
                   then copy_item kwargs content "plaintext" "text_body"
                   else Ok content)
                with
                | Raise e => Raise e
                | Ok content =>
                    if has_key kwargs "html_body"
                    then copy_item kwargs content "html" "html_body"
                    else Ok content
                end
            end
        end
  end.

(** The keys [build_email_content] writes. *)
Definition written : list string :=
  ["user_id"; "to_address"; "subject"; "type"; "plaintext"; "html"].

End Mail.

(** ** bi/cron/base.py: sending the email *)

(** The collaborators of [send_email] outside the repository: the clock,
    the HMAC-SHA1 digest of a message under a key, Base64-encoded (with the
    [UnicodeEncodeError] of a key that is not ASCII), [quote_plus], the HTTP
    client together with the decoding of the answer ([requests.post(...)]
    followed by [response.json()]), and [str] on a value. *)
Class MailRuntime (World : Type) : Type := {
  time_time : World -> World * pyval;
  hmac_sha1_b64 : string -> string -> res string;
  quote_plus : string -> string;
  post_and_decode : string -> pyval -> list (string * string) -> World -> World * res pyval;
  str_of : pyval -> string;
}.

Module Mailer.

(** What [send_email] does to the outside world. *)
Inductive event : Type :=
| MailPost (endpoint : string) (json : pyval) (headers : list (string * string)).

Fixpoint is_prefix (p s : string) : bool :=
  match p, s with
  | EmptyString, _ => true
  | String a p', String b s' => bool_decide (a = b) && is_prefix p' s'
  | String _ _, EmptyString => false
  end.

Fixpoint is_substring (p s : string) : bool :=
  is_prefix p s ||
  match s with
  | EmptyString => false
  | String _ s' => is_substring p s'
  end.

(** [key in obj], for a string [key]. *)
Definition py_contains (obj : pyval) (key : string) : res bool :=
  match obj with
  | PDict d => Ok (bool_decide (key ∈ d.*1))
  | PList l =>
      Ok (existsb (fun v => match v with
                            | PStr s => bool_decide (s = key)
                            | _ => false
                            end) l)
  | PStr s => Ok (is_substring key s)
  | _ => Raise (TypeError ("argument of type '" +:+ type_name obj +:+ "' is not iterable"))
  end.

(** [obj[key]], for a string [key]. *)
Definition py_item (obj : pyval) (key : string) : res pyval :=
  match obj with
  | PDict d =>
      match dict_get d key with
      | Some v => Ok v
      | None => Raise (KeyError key)
      end
  | PList _ => Raise (TypeError "list indices must be integers or slices, not str")
  | PStr _ => Raise (TypeError "string indices must be integers")
  | _ => Raise (TypeError ("'" +:+ type_name obj +:+ "' object is not subscriptable"))
  end.

Definition IndexError (m : string) : exn :=
  Exc "IndexError" ("LookupError" :: std_bases) m.

(** [obj[0]]. *)
Definition py_first (obj : pyval) : res pyval :=
  match obj with
  | PList (v :: _) => Ok v
  | PList [] => Raise (IndexError "list index out of range")
  | PStr (String c _) => Ok (PStr (String c EmptyString))
  | PStr EmptyString => Raise (IndexError "string index out of range")
  | PDict _ => Raise (Exc "KeyError" ("LookupError" :: std_bases) "0")
  | _ => Raise (TypeError ("'" +:+ type_name obj +:+ "' object is not subscriptable"))
  end.

(** [v != 'ok']. *)
Definition not_ok (v : pyval) : bool :=
  match v with
  | PStr s => negb (bool_decide (s = "ok"))
  | _ => true
  end.

Section Mailer.
Context `{Runtime World} `{MailRuntime World}.

(** ["{}".format(v)]. *)
Definition format_value (v : pyval) : string :=
  match v with
  | PStr s => s
  | _ => str_of v
  end.

Definition build_email_signature (text secret : string) (urlencode : bool)
  : res string :=
  match hmac_sha1_b64 secret text with
  | Ok signature => Ok (if urlencode then quote_plus signature else signature)
  | Raise e => Raise e
  end.

(** A computation that does not touch the world. *)
Definition pure {A} (r : res A) : @M World event A := call (fun w => (w, r)).

Definition send_email (mozmail_config : Mail.config) (kwargs : list (string * pyval))
  : @M World event pyval :=
  let* email_content := pure (Mail.build_email_content mozmail_config kwargs) in
  let payload := dict_set [] "messages" (PList [PDict email_content]) in
  let payload := dict_set payload "access_id" (Mail.access_id mozmail_config) in
  let* now := call (fun w => match time_time w with (w1, t) => (w1, Ok t) end) in
  let payload := dict_set payload "expires" now in
  let payload_json := json_dumps (PDict payload) in
  let* signature :=
    pure (build_email_signature payload_json (Mail.secret mozmail_config) true) in
  let request_headers := dict_set [] "X-Mozmail" signature in
  let request_headers := dict_set request_headers "Content-Type" "application/json" in
  let request_headers := dict_set request_headers "Accept" "application/json" in
  let* parsed_response :=
    (tell (MailPost (Mail.endpoint mozmail_config) (PDict payload) request_headers) ;;;
     call (post_and_decode (Mail.endpoint mozmail_config) (PDict payload)
             request_headers)) in
  let* has_messages := pure (py_contains parsed_response "messages") in
  if has_messages : bool then
    let* messages := pure (py_item parsed_response "messages") in
    let* first := pure (py_first messages) in
    if not_ok first
    then raise (CronException ("Unable to send email: " +:+ format_value first))
    else ret parsed_response
  else ret parsed_response.

(** The payload and the headers [send_email] posts for a content, at a
    time and with a signature. *)
Definition payload (mozmail_config : Mail.config) (email_content : list (string * pyval))
    (now : pyval) : pyval :=
  PDict [("messages", PList [PDict email_content]);
         ("access_id", Mail.access_id mozmail_config);
         ("expires", now)].

Definition headers (signature : string) : list (string * string) :=
  [("X-Mozmail", signature); ("Content-Type", "application/json");
   ("Accept", "application/json")].

(** How [send_email] ends on an answer that is a JSON object. *)
Definition checked (d : list (string * pyval)) : res pyval :=
  match dict_get d "messages" with
  | None => Ok (PDict d)
  | Some messages =>
      match py_first messages with
      | Ok first =>
          if not_ok first
          then Raise (CronException ("Unable to send email: " +:+ format_value first))
          else Ok (PDict d)
      | Raise e => Raise e
      end
  end.
End Mailer.

End Mailer.

(** ** Sample email arguments *)

Module Mails.

Definition mozmail : Mail.config :=
  Mail.Config (PInt 42) (PStr "transactional") (PStr "bi-cron") "s3cret"
    "https://mail.example/v1/send".

(** A complete request, in which the caller also tries to choose the
    sender. *)
Definition report : list (string * pyval) :=
  [("to", PStr "ops@example.org"); ("subject", PStr "Nightly load");
   ("text_body", PStr "All rows loaded."); ("user_id", PInt 7);
   ("campaign", PStr "nightly")].

(** A request without a body. *)
Definition no_body : list (string * pyval) :=
  [("to", PStr "ops@example.org"); ("subject", PStr "Nightly load")].

(** A mail service that accepts a message while the webhook status of the
    simulated world is 200, and refuses it otherwise. *)
Definition answer (endpoint : string) (body : pyval)
    (headers : list (string * string)) (w : Sim.world) : Sim.world * res pyval :=
  (w, Ok (PDict [("messages",
                  PList [PStr (if (Sim.webhook_status w =? 200)%Z
                               then "ok" else "quota exceeded")])])).

#[global] Instance runtime : MailRuntime Sim.world := {|
  time_time := fun w => (w, PInt 1700000000);
  hmac_sha1_b64 := fun secret text => Ok "c2lnbmF0dXJl";
  quote_plus := fun text => text;
  post_and_decode := answer;
  str_of := Sim.dumps;
|}.

(** The world in which the mail service refuses. *)
Definition refusing : Sim.world :=
  {| Sim.db_down := false; Sim.webhook_status := 429%Z;
     Sim.pending := []; Sim.rows := []; Sim.posts := [] |}.

End Mails.

(** ** bi/cron/base.py: the connections to databases *)

(** The MySQL driver as the job object uses it: opening a connection gives
    a handle, on which statements are run, results fetched, and which is
    closed. *)
Class DbRuntime (World : Type) : Type := {
  db_connect : string -> string -> string -> string -> World -> World * res nat;
  db_close : nat -> World -> World * res unit;
  db_run : nat -> string -> list pyval -> World -> World * res Z;
  db_fetchall : nat -> World -> World * res pyval;
}.

Module Database.

(** An entry of [config['mysql']]. *)
Record settings : Type := Settings {
  host : string;
  user : string;
  db : string;
  password : string;
}.

Inductive event : Type :=
| Connected (to : settings)
| Closed (connection : nat)
| Ran (connection : nat) (statement : string) (params : list pyval)
| Fetched (connection : nat).

(** [del d[key]] for a key that is present. *)
Fixpoint dict_del {V : Type} (d : list (string * V)) (key : string)
  : list (string * V) :=
  match d with
  | [] => []
  | (k, v) :: d' => if bool_decide (k = key) then d' else (k, v) :: dict_del d' key
  end.

(** The part of the job object the database methods read and write. *)
Record t : Type := Build {
  config_mysql : list (string * settings);
  connections : list (string * nat);
}.

Definition with_connections (self : t) (connections : list (string * nat)) : t :=
  {| config_mysql := config_mysql self; connections := connections |}.

Section Database.
Context `{DbRuntime World}.

(** A method returns the job object as it leaves it, with its result. *)
Definition connect_to_database (self : t) (database_name : string)
  : @M World event (t * nat) :=
  match dict_get (config_mysql self) database_name with
  | None => raise (KeyError database_name)
  | Some original_config =>
      let* new_connection :=
        (tell (Connected original_config) ;;;
         call (db_connect (host original_config) (user original_config)
                 (db original_config) (password original_config))) in
      ret (with_connections self
             (dict_set (connections self) database_name new_connection),
           new_connection)
  end.

Definition close_db_connection (self : t) (database_name : string)
  : @M World event (t * unit) :=
  match dict_get (connections self) database_name with
  | None => raise (KeyError database_name)
  | Some connection =>
      (tell (Closed connection) ;;; call (db_close connection)) ;;;
      ret (with_connections self (dict_del (connections self) database_name), tt)
  end.

Definition db_create_cursor (self : t) (database_name : string)
  : @M World event nat :=
  match dict_get (connections self) database_name with
  | None => raise (KeyError database_name)
  | Some connection => ret connection
  end.

Definition db_execute (self : t) (database_name statement : string)
    (params : list pyval) : @M World event Z :=
  let* cursor := db_create_cursor self database_name in
  tell (Ran cursor statement params) ;;;
  call (db_run cursor statement params).

Definition db_query (self : t) (database_name query : string)
    (params : list pyval) : @M World event pyval :=
  let* cursor := db_create_cursor self database_name in
  (tell (Ran cursor query params) ;;; call (db_run cursor query params)) ;;;
  tell (Fetched cursor) ;;;
  call (db_fetchall cursor).
End Database.

End Database.

(** A database server for the examples: handles are given out in order,
    and every call succeeds. *)
Module Databases.

Definition connect (host user db password : string) (next : nat) : nat * res nat :=
  (S next, Ok next).

#[global] Instance runtime : DbRuntime nat := {|
  db_connect := connect;
  db_close := fun connection next => (next, Ok tt);
  db_run := fun connection statement params next => (next, Ok 1%Z);
  db_fetchall := fun connection next => (next, Ok (PList []));
|}.

Definition job : Database.t :=
  Database.Build
    [("warehouse", Database.Settings "db.internal" "cron" "dw" "secret")] [].

End Databases.

(** ** bi/cron/base.py: checks on the file system; py_utils/csv_cleaner.py *)

(** The file system, as [os] and [os.path] show it. *)
Class FsRuntime (World : Type) : Type := {
  os_path_islink : string -> World -> bool;
  os_path_realpath : string -> World -> string;
  os_rename : string -> string -> World -> World * res unit;
}.

(** [str.casefold], and [datetime.strptime(date, input_format)] followed by
    [strftime(output_format)], with the [ValueError] of a date that does
    not match. *)
Class TextRuntime : Type := {
  str_casefold : string -> string;
  datetime_reformat : string -> string -> string -> res string;
}.

Module Files.

Inductive event : Type :=
| Renamed (source destination : string).

Section Files.
Context `{FsRuntime World}.

Definition ensure_symlink_exists (symlink_path file_path : string)
  : @M World event unit :=
  fun w =>
    if negb (os_path_islink symlink_path w
             || negb (bool_decide (os_path_realpath symlink_path w
                                   = os_path_realpath file_path w)))
    then raise (CronException
                  ("Path " +:+ symlink_path
                   +:+ " is not a symlink or does not point where expected.")) w
    else ret tt w.
End Files.

End Files.

Module CSVCleaner.

Definition slash : Ascii.ascii := Ascii.ascii_of_nat 47.

(** [s.split('/')]. *)
Fixpoint split_slash (s : string) : list string :=
  match s with
  | EmptyString => [EmptyString]
  | String c s' =>
      if bool_decide (c = slash) then EmptyString :: split_slash s'
      else
        match split_slash s' with
        | part :: parts => String c part :: parts
        | [] => [String c EmptyString]
        end
  end.

(** No character of [s] is a slash. *)
Fixpoint slash_free (s : string) : bool :=
  match s with
  | EmptyString => true
  | String c s' => negb (bool_decide (c = slash)) && slash_free s'
  end.

(** A cleaner object. *)
Record t : Type := Build {
  input_filename : string;
  fieldnames : list string;
  has_header : bool;
  file_name : string;
  working_dir : string;
  temp_filename : string;
}.

(** [CSVCleaner.__init__]. *)
Definition init (filepath : string) (fieldnames : list string) (header : bool) : t :=
  let file_name := List.last (split_slash filepath) EmptyString in
  let working_dir := join "/" (removelast (split_slash filepath)) +:+ "/" in
  {| input_filename := filepath;
     fieldnames := fieldnames;
     has_header := header;
     file_name := file_name;
     working_dir := working_dir;
     temp_filename := working_dir +:+ "CSVCleaners_temp.csv" |}.

Section CSVCleaner.
Context `{FsRuntime World} `{TextRuntime}.

Definition clean_up (self : t) : @M World Files.event unit :=
  tell (Files.Renamed (working_dir self +:+ temp_filename self)
          (working_dir self +:+ file_name self)) ;;;
  call (os_rename (working_dir self +:+ temp_filename self)
          (working_dir self +:+ file_name self)).

Definition convert_datetime (date input_format output_format : string) : res string :=
  datetime_reformat date input_format output_format.

Definition process_date_field (input_dict : list (string * pyval))
    (field input_format output_format : string) : res (list (string * pyval)) :=
  let output_dict := input_dict in
  match dict_get output_dict field with
  | None => Raise (KeyError field)
  | Some PNone => Ok output_dict
  | Some (PStr date) =>
      if bool_decide (str_casefold date = "null") then Ok output_dict
      else
        match convert_datetime date input_format output_format with
        | Ok converted => Ok (dict_set output_dict field (PStr converted))
        | Raise e => Raise e
        end
  | Some v =>
      Raise (AttributeError
               ("'" +:+ type_name v +:+ "' object has no attribute 'casefold'"))
  end.
End CSVCleaner.

End CSVCleaner.

(** A file system and a text library for the examples: a link named
    current, real paths that are the paths themselves, renames that
    succeed; lower-casing of the letters N, U and L, and a date conversion
    that knows one date. *)
Module Disk.

#[global] Instance files : FsRuntime unit := {|
  os_path_islink := fun path w => bool_decide (path = "/data/current");
  os_path_realpath := fun path w =>
    if bool_decide (path = "/data/current") then "/data/2019-12-30" else path;
  os_rename := fun source destination w => (w, Ok tt);
|}.

Definition lower (c : Ascii.ascii) : Ascii.ascii :=
  if bool_decide (c = "N"%char) then "n"%char
  else if bool_decide (c = "U"%char) then "u"%char
  else if bool_decide (c = "L"%char) then "l"%char
  else c.

Fixpoint casefold (s : string) : string :=
  match s with
  | EmptyString => EmptyString
  | String c s' => String (lower c) (casefold s')
  end.

#[global] Instance text : TextRuntime := {|
  str_casefold := casefold;
  datetime_reformat := fun date input_format output_format =>
    if bool_decide (date = "31/12/2019") then Ok "2019-12-31"
    else Raise (ValueError "time data does not match format");
|}.

Definition row : list (string * pyval) :=
  [("id", PStr "17"); ("shipped", PStr "31/12/2019"); ("returned", PStr "NULL")].

End Disk.

(** * Properties *)

(** Closes a decidable goal about concrete data by evaluating it. *)
Ltac by_evaluation :=
  match goal with
  | |- ?P => refine (@bool_decide_unpack P _ _); vm_compute; exact I
  end.

(** ** The retry decorator *)

Section RetryFacts.
Context {World V : Type} `{!Clock World}.
Variable exceptions_to_retry : list string.
Variable exception_callback : option (exn -> Z -> Z -> World -> World * res unit).
Variable backoff : Z.
Variable f : World -> World * res V.

Local Abbreviation loop :=
  (Retry.while_remaining exceptions_to_retry exception_callback backoff f).
Local Abbreviation failed_turn :=
  (Retry.failed_turn exceptions_to_retry exception_callback f).
Local Abbreviation callback_log := (Retry.callback_log exception_callback).
Local Abbreviation failing_log := (Retry.failing_log exception_callback backoff).
Local Abbreviation retried :=
  (RetryRuns.retried exceptions_to_retry exception_callback backoff f).

(** The exception the loop has in hand after the turns that raised [es]. *)
Local Abbreviation last_of es last_exception :=
  (match last es with Some e => Some e | None => last_exception end).

(** A non-retried exception ends the loop at once. *)
Lemma while_remaining_propagates n next_delay last_exception w w1 e :
  f w = (w1, Raise e) ->
  isinstance_any e exceptions_to_retry = false ->
  loop (S n) next_delay last_exception w = ([Retry.Attempt (Some e)], w1, Raise e).
Proof.
  intros Hf Hno. simpl. rewrite Hf, Hno. reflexivity.
Qed.

(** A success ends the loop at once. *)
Lemma while_remaining_returns n next_delay last_exception w w1 v :
  f w = (w1, Ok v) ->
  loop (S n) next_delay last_exception w = ([Retry.Attempt None], w1, Ok v).
Proof.
  intros Hf. simpl. rewrite Hf. reflexivity.
Qed.

(** One failed, retried turn: the callback, the sleep, and the loop again
    with one try less and the delay multiplied. *)
Lemma while_remaining_retries n next_delay last_exception w e w' :
  failed_turn (Z.of_nat (S n)) next_delay w e w' ->
  loop (S n) next_delay last_exception w =
    match loop n (next_delay * backoff)%Z (Some e) w' with
    | (l, w3, r) =>
        (Retry.Attempt (Some e)
           :: callback_log e (Z.of_nat (S n)) next_delay
           ++ Retry.Sleep next_delay :: l, w3, r)
    end.
Proof.
  intros (w1 & w2 & Hf & Hyes & Hcb & Hsleep).
  cbn [Retry.while_remaining]. rewrite Hf, Hyes.
  unfold Retry.call_callback, Retry.callback_log, Retry.after_callback in *.
  destruct exception_callback as [cb|].
  - unfold bind, tell, call. rewrite Hcb, Hsleep.
    destruct (Retry.while_remaining _ _ _ _ n _ _ w') as [[l w3] r].
    reflexivity.
  - subst w2. unfold bind, tell, call, ret. rewrite Hsleep.
    destruct (Retry.while_remaining _ _ _ _ n _ _ w') as [[l w3] r].
    reflexivity.
Qed.

(** After turns that fail and are retried, the loop goes on from where they
    leave it. *)
Lemma while_remaining_after_retried n d w es l w' last_exception :
  retried n d w es l w' ->
  loop n d last_exception w =
    match loop (n - length es) (d * backoff ^ Z.of_nat (length es))%Z
            (last_of es last_exception) w' with
    | (l2, w2, r) => (l ++ l2, w2, r)
    end.
Proof.
  intros Hrun. revert last_exception.
  induction Hrun as [n d w | n d w w1 e es l w' Hturn Hrun IH];
    intros last_exception.
  - simpl. rewrite Nat.sub_0_r, Z.mul_1_r.
    destruct (loop n d last_exception w) as [[l2 w2] r]. reflexivity.
  - assert (Hpow : (d * backoff * backoff ^ Z.of_nat (length es)
                    = d * backoff ^ Z.of_nat (length (e :: es)))%Z).
    { cbn [length]. rewrite Nat2Z.inj_succ, Z.pow_succ_r by lia. ring. }
    assert (Hlast : last_of es (Some e) = last_of (e :: es) last_exception).
    { rewrite last_cons. destruct (last es); reflexivity. }
    specialize (IH (Some e)). rewrite Hpow, Hlast in IH.
    change (S n - length (e :: es))%nat with (n - length es)%nat.
    rewrite (while_remaining_retries n d last_exception w e w1 Hturn), IH.
    destruct (Retry.while_remaining _ _ _ _ (n - length es) _ _ w')
      as [[l2 w3] r].
    rewrite <- app_comm_cons, <- app_assoc. reflexivity.
Qed.

(** What the log of such turns shows. *)
Lemma retried_log n d w es l w' :
  retried n d w es l w' ->
  Retry.attempts l = Some <$> es /\
  Retry.sleeps l = RetryRuns.delays backoff (length es) d /\
  length (Retry.callbacks l) =
    match exception_callback with Some _ => length es | None => 0%nat end.
Proof.
  induction 1 as [n d w | n d w w1 e es l w' Hturn Hrun (IHa & IHs & IHc)].
  - destruct exception_callback; repeat split; reflexivity.
  - unfold Retry.callback_log, Retry.attempts, Retry.sleeps, Retry.callbacks in *.
    destruct exception_callback; cbn; rewrite ?IHa, ?IHs, ?IHc;
      repeat split; reflexivity.
Qed.

(** When every turn fails and is retried, the loop ends by raising the
    exception of the last attempt, in the world the last sleep left. *)
Lemma while_remaining_all_fail n d w es l w' last_exception :
  retried n d w es l w' ->
  length es = n ->
  loop n d last_exception w =
    (l, w', snd (Retry.raise_last (V := V) (last_of es last_exception) w')).
Proof.
  intros Hrun Hlen.
  rewrite (while_remaining_after_retried n d w es l w' last_exception Hrun).
  rewrite Hlen, Nat.sub_diag. simpl.
  destruct (last_of es last_exception); simpl; rewrite app_nil_r; reflexivity.
Qed.

(** Three turns in a row. *)
Lemma retried_three delay w e1 w1 e2 w2 e3 w3 :
  failed_turn 3 delay w e1 w1 ->
  failed_turn 2 (delay * backoff) w1 e2 w2 ->
  failed_turn 1 (delay * backoff * backoff) w2 e3 w3 ->
  retried 3 delay w [e1; e2; e3] (failing_log [e1; e2; e3] delay) w3.
Proof.
  intros H1 H2 H3.
  apply RetryRuns.retried_again with (w1 := w1); [exact H1|].
  apply RetryRuns.retried_again with (w1 := w2); [exact H2|].
  apply RetryRuns.retried_again with (w1 := w3); [exact H3|].
  apply RetryRuns.retried_none.
Qed.
End RetryFacts.

(** C2, as the code has it.  The operation is decorated with [tries=3,
    delay=1, backoff=2], and each of the three turns of the loop fails and
    is retried: the operation raises a retried exception, the callback, if
    there is one, returns, and [time.sleep] returns.  Then the operation has
    been called three times, in the worlds the sleeps left; the decorator
    has slept 1, 2 and 4 seconds, once after each failed attempt, the last
    one included; and the call ends by raising the very exception the third
    attempt raised. *)
Theorem retry_three_tries_all_fail {World V : Type} `{!Clock World}
    (exceptions_to_retry : list string)
    (exception_callback : option (exn -> Z -> Z -> World -> World * res unit))
    (f : World -> World * res V) (w w1 w2 w3 : World) (e1 e2 e3 : exn) :
  Retry.failed_turn exceptions_to_retry exception_callback f 3 1 w e1 w1 ->
  Retry.failed_turn exceptions_to_retry exception_callback f 2 2 w1 e2 w2 ->
  Retry.failed_turn exceptions_to_retry exception_callback f 1 4 w2 e3 w3 ->
  Retry.f_retry exceptions_to_retry exception_callback 3 1 2 f w =
    (Retry.Attempt (Some e1) :: Retry.callback_log exception_callback e1 3 1
       ++ Retry.Sleep 1
       :: Retry.Attempt (Some e2) :: Retry.callback_log exception_callback e2 2 2
       ++ Retry.Sleep 2
       :: Retry.Attempt (Some e3) :: Retry.callback_log exception_callback e3 1 4
       ++ [Retry.Sleep 4],
     w3, Raise e3) /\
  Retry.attempts
    (Retry.f_retry exceptions_to_retry exception_callback 3 1 2 f w).1.1
    = [Some e1; Some e2; Some e3] /\
  Retry.sleeps
    (Retry.f_retry exceptions_to_retry exception_callback 3 1 2 f w).1.1
    = [1; 2; 4]%Z /\
  Retry.without_callbacks
    (Retry.f_retry exceptions_to_retry exception_callback 3 1 2 f w).1.1 =
    [Retry.Attempt (Some e1); Retry.Sleep 1;
     Retry.Attempt (Some e2); Retry.Sleep 2;
     Retry.Attempt (Some e3); Retry.Sleep 4].
Proof.
  intros H1 H2 H3.
  pose proof (retried_three exceptions_to_retry exception_callback 2 f
                1 w e1 w1 e2 w2 e3 w3 H1 H2 H3) as Hrun.
  unfold Retry.f_retry. change (Z.to_nat 3) with 3%nat.
  rewrite (while_remaining_all_fail _ _ _ _ _ _ _ _ _ _ None Hrun eq_refl).
  unfold Retry.failing_log, Retry.callback_log.
  destruct exception_callback; repeat split; reflexivity.
Qed.

Lemma retry_three_tries_all_fail_witness :
  Retry.attempts
    (Retry.f_retry ["DatabaseError"] (Some Sim.note) 3 1 2
       Sim.always_down Sim.healthy).1.1
    = [Some Sim.OperationalError; Some Sim.OperationalError; Some Sim.OperationalError] /\
  Retry.sleeps
    (Retry.f_retry ["DatabaseError"] (Some Sim.note) 3 1 2
       Sim.always_down Sim.healthy).1.1
    = [1; 2; 4]%Z /\
  (Retry.f_retry ["DatabaseError"] (Some Sim.note) 3 1 2
     Sim.always_down Sim.healthy).2 = Raise Sim.OperationalError.
Proof.
  assert (Hturn : forall r d,
    Sim.sleep_answer d = Ok tt ->
    Retry.failed_turn ["DatabaseError"] (Some Sim.note) Sim.always_down
      r d Sim.healthy Sim.OperationalError Sim.healthy).
  { intros r d E. exists Sim.healthy, Sim.healthy. simpl. rewrite E.
    repeat split; reflexivity. }
  destruct (retry_three_tries_all_fail ["DatabaseError"] (Some Sim.note)
              Sim.always_down Sim.healthy Sim.healthy Sim.healthy Sim.healthy
              Sim.OperationalError Sim.OperationalError Sim.OperationalError)
    as (Hrun & Ha & Hs & _); [apply Hturn; reflexivity ..|].
  split; [exact Ha|]. split; [exact Hs|]. rewrite Hrun. reflexivity.
Defined.

(** C2, as the specification words it, fails: an operation that raises a
    retried exception at every call, decorated with [tries=3, delay=1,
    backoff=2] and a callback that raises, is called once, not three times;
    the decorator does not sleep, and the call ends by the exception of the
    callback, not by the one of the operation. *)
Lemma retry_three_tries_counterexample :
  (forall calls,
     exists e, (RetryRuns.always_timeout calls).2 = Raise e /\
               isinstance_any e ["OSError"] = true) /\
  Retry.f_retry ["OSError"] (Some RetryRuns.failing_callback) 3 1 2
    RetryRuns.always_timeout 0%nat
  = ([Retry.Attempt (Some (Exc "TimeoutError" ("OSError" :: std_bases) "timed out"));
      Retry.Callback (Exc "TimeoutError" ("OSError" :: std_bases) "timed out") 3 1],
     1%nat, Raise (Exc "RuntimeError" std_bases "pager is down")) /\
  length (Retry.attempts
            (Retry.f_retry ["OSError"] (Some RetryRuns.failing_callback) 3 1 2
               RetryRuns.always_timeout 0%nat).1.1) <> 3%nat /\
  Retry.sleeps
    (Retry.f_retry ["OSError"] (Some RetryRuns.failing_callback) 3 1 2
       RetryRuns.always_timeout 0%nat).1.1 <> [1; 2; 4]%Z.
Proof.
  split; [intros calls; eexists; split; reflexivity|].
  split; [reflexivity|].
  split; vm_compute; discriminate.
Qed.

(** C3, as the code has it.  With [tries=3] and a callback, when each of
    the three turns of the loop fails and is retried (the operation raises
    a retried exception, the callback returns, [time.sleep] returns), the
    callback is called three times: after each failed attempt and before
    the sleep that follows it, with the exception just raised, the tries
    remaining (3, 2, 1) and the delay about to be slept.  So it is called
    before the second and the third attempt, once more after the third,
    and never before the first. *)
Theorem retry_callback_after_each_failure {World V : Type} `{!Clock World}
    (exceptions_to_retry : list string)
    (cb : exn -> Z -> Z -> World -> World * res unit)
    (delay backoff : Z) (f : World -> World * res V) (w w1 w2 w3 : World)
    (e1 e2 e3 : exn) :
  Retry.failed_turn exceptions_to_retry (Some cb) f 3 delay w e1 w1 ->
  Retry.failed_turn exceptions_to_retry (Some cb) f 2 (delay * backoff) w1 e2 w2 ->
  Retry.failed_turn exceptions_to_retry (Some cb) f 1 (delay * backoff * backoff)
    w2 e3 w3 ->
  Retry.f_retry exceptions_to_retry (Some cb) 3 delay backoff f w =
    ([Retry.Attempt (Some e1); Retry.Callback e1 3 delay; Retry.Sleep delay;
      Retry.Attempt (Some e2); Retry.Callback e2 2 (delay * backoff);
      Retry.Sleep (delay * backoff);
      Retry.Attempt (Some e3); Retry.Callback e3 1 (delay * backoff * backoff);
      Retry.Sleep (delay * backoff * backoff)],
     w3, Raise e3) /\
  Retry.callbacks
    (Retry.f_retry exceptions_to_retry (Some cb) 3 delay backoff f w).1.1 =
    [(e1, 3%Z, delay); (e2, 2%Z, (delay * backoff)%Z);
     (e3, 1%Z, (delay * backoff * backoff)%Z)].
Proof.
  intros H1 H2 H3.
  pose proof (retried_three exceptions_to_retry (Some cb) backoff f
                delay w e1 w1 e2 w2 e3 w3 H1 H2 H3) as Hrun.
  unfold Retry.f_retry. change (Z.to_nat 3) with 3%nat.
  rewrite (while_remaining_all_fail _ _ _ _ _ _ _ _ _ _ None Hrun eq_refl).
  split; reflexivity.
Qed.

Lemma retry_callback_after_each_failure_witness :
  Retry.callbacks
    (Retry.f_retry ["DatabaseError"] (Some Sim.note) 3 1 2
       Sim.always_down Sim.healthy).1.1 =
    [(Sim.OperationalError, 3%Z, 1%Z); (Sim.OperationalError, 2%Z, (1 * 2)%Z);
     (Sim.OperationalError, 1%Z, (1 * 2 * 2)%Z)].
Proof.
  assert (Hturn : forall r d,
    Sim.sleep_answer d = Ok tt ->
    Retry.failed_turn ["DatabaseError"] (Some Sim.note) Sim.always_down
      r d Sim.healthy Sim.OperationalError Sim.healthy).
  { intros r d E. exists Sim.healthy, Sim.healthy. simpl. rewrite E.
    repeat split; reflexivity. }
  apply (retry_callback_after_each_failure ["DatabaseError"] Sim.note 1 2
           Sim.always_down Sim.healthy Sim.healthy Sim.healthy Sim.healthy
           Sim.OperationalError Sim.OperationalError Sim.OperationalError);
    apply Hturn; reflexivity.
Defined.

(** C3, as the specification words it, fails: with [tries=3, delay=1,
    backoff=2] and an operation that always fails, the callback is called
    three times, not twice. *)
Lemma retry_callback_twice_counterexample :
  Retry.callbacks
    (Retry.f_retry ["DatabaseError"] (Some Sim.note) 3 1 2
       Sim.always_down Sim.healthy).1.1
  = [(Sim.OperationalError, 3%Z, 1%Z); (Sim.OperationalError, 2%Z, 2%Z);
     (Sim.OperationalError, 1%Z, 4%Z)] /\
  length (Retry.callbacks
            (Retry.f_retry ["DatabaseError"] (Some Sim.note) 3 1 2
               Sim.always_down Sim.healthy).1.1) <> 2%nat.
Proof.
  split; [reflexivity | vm_compute; discriminate].
Qed.

(** C7.  An exception the decorator does not retry on leaves the wrapper as
    soon as it is raised, at whatever turn of the loop: the log ends with
    the attempt that raised it, so there is no callback, no sleep and no
    further attempt after it.  In particular, raised at the first attempt,
    it is all the wrapper does. *)
Theorem retry_nonmatching_propagates {World V : Type} `{!Clock World}
    (exceptions_to_retry : list string)
    (exception_callback : option (exn -> Z -> Z -> World -> World * res unit))
    (tries delay backoff : Z) (f : World -> World * res V) (w w1 : World) (e : exn) :
  f w = (w1, Raise e) ->
  isinstance_any e exceptions_to_retry = false ->
  (forall remaining next_delay last_exception,
     Retry.while_remaining exceptions_to_retry exception_callback backoff f
       (S remaining) next_delay last_exception w
     = ([Retry.Attempt (Some e)], w1, Raise e)) /\
  ((0 < tries)%Z ->
   Retry.f_retry exceptions_to_retry exception_callback tries delay backoff f w
   = ([Retry.Attempt (Some e)], w1, Raise e)).
Proof.
  intros Hf Hno. split.
  - intros n d last. apply while_remaining_propagates; assumption.
  - intros Htries. unfold Retry.f_retry.
    destruct (Z.to_nat tries) as [|n] eqn:E; [lia|].
    apply while_remaining_propagates; assumption.
Qed.

Lemma retry_nonmatching_propagates_witness :
  Retry.f_retry ["DatabaseError"] (Some Sim.note) 3 1 2 Sim.missing_key Sim.healthy
  = ([Retry.Attempt (Some (KeyError "tablename"))], Sim.healthy,
     Raise (KeyError "tablename")).
Proof.
  apply (retry_nonmatching_propagates ["DatabaseError"] (Some Sim.note) 3 1 2
           Sim.missing_key Sim.healthy Sim.healthy (KeyError "tablename")).
  - reflexivity.
  - reflexivity.
  - lia.
Defined.

(** ** Filtering and fan-out of alerts *)

Section AlertFacts.
Context `{Runtime World}.

Lemma watches_true (system : AlertSystem.t World) level :
  AlertSystem.watches system level = true <->
  level ∈ AlertSystem.levels system /\ level ∈ AlertSystem.monitored_levels system.
Proof.
  unfold AlertSystem.watches.
  rewrite andb_true_iff, !bool_decide_eq_true. reflexivity.
Qed.

Lemma watches_false (system : AlertSystem.t World) level :
  AlertSystem.watches system level = false <->
  level ∉ AlertSystem.levels system \/ level ∉ AlertSystem.monitored_levels system.
Proof.
  unfold AlertSystem.watches.
  rewrite andb_false_iff, !bool_decide_eq_false. reflexivity.
Qed.

(** A level that is not watched: [send_alert] returns at once. *)
Lemma send_alert_filtered (system : AlertSystem.t World) klass level title data w :
  AlertSystem.watches system level = false ->
  AlertSystem.send_alert system klass level title data w = ([], w, Ok PNone).
Proof.
  unfold AlertSystem.watches, AlertSystem.send_alert.
  destruct (bool_decide (level ∈ AlertSystem.levels system)); simpl; [|reflexivity].
  intros ->. reflexivity.
Qed.

(** A watched level: the delivery function is called, once, and what it
    does and returns is what [send_alert] does and returns. *)
Lemma send_alert_delivers (system : AlertSystem.t World) klass level title data w :
  AlertSystem.watches system level = true ->
  AlertSystem.send_alert system klass level title data w =
    match AlertSystem.send_alert_internal system klass level title data w with
    | (l, w', r) =>
        (AlertSystem.Internal (AlertSystem.Delivery klass level title data)
           :: (AlertSystem.IO <$> l), w', r)
    end.
Proof.
  unfold AlertSystem.watches, AlertSystem.send_alert.
  intros [-> ->]%andb_true_iff. simpl.
  unfold bind, tell, relog.
  destruct (AlertSystem.send_alert_internal system klass level title data w)
    as [[l w'] r].
  reflexivity.
Qed.

Lemma deliveries_IO (l : list io_event) :
  AlertSystem.deliveries (AlertSystem.IO <$> l) = [].
Proof.
  induction l as [|ev l IH]; [reflexivity|]. simpl. exact IH.
Qed.

(** The delivery calls of one [send_alert]. *)
Lemma send_alert_deliveries (system : AlertSystem.t World) klass level title data w :
  AlertSystem.deliveries (AlertSystem.send_alert system klass level title data w).1.1 =
    if AlertSystem.watches system level
    then [AlertSystem.Delivery klass level title data] else [].
Proof.
  destruct (AlertSystem.watches system level) eqn:E.
  - rewrite send_alert_delivers by assumption.
    destruct (AlertSystem.send_alert_internal system klass level title data w)
      as [[l w'] r].
    simpl. unfold AlertSystem.deliveries at 1. simpl.
    fold (AlertSystem.deliveries (AlertSystem.IO <$> l)).
    rewrite deliveries_IO. reflexivity.
  - rewrite send_alert_filtered by assumption. reflexivity.
Qed.

(** A system that raises was called: only the delivery function raises. *)
Lemma send_alert_raises_watches (system : AlertSystem.t World) klass level title data w e :
  (AlertSystem.send_alert system klass level title data w).2 = Raise e ->
  AlertSystem.watches system level = true.
Proof.
  destruct (AlertSystem.watches system level) eqn:E; [reflexivity|].
  rewrite send_alert_filtered by assumption. discriminate.
Qed.

Lemma delivered_app (l1 l2 : list CronBase.event) :
  CronBase.delivered (l1 ++ l2) = CronBase.delivered l1 ++ CronBase.delivered l2.
Proof. apply omap_app. Qed.

Lemma delivered_to_app name (l1 l2 : list CronBase.event) :
  CronBase.delivered_to name (l1 ++ l2) =
  CronBase.delivered_to name l1 ++ CronBase.delivered_to name l2.
Proof. apply omap_app. Qed.

Lemma dispatched_app (l1 l2 : list CronBase.event) :
  CronBase.dispatched (l1 ++ l2) = CronBase.dispatched l1 ++ CronBase.dispatched l2.
Proof. apply omap_app. Qed.

Lemma delivered_Channel name (l : list AlertSystem.event) :
  CronBase.delivered (CronBase.Channel name <$> l) =
  (fun d => (name, d)) <$> AlertSystem.deliveries l.
Proof.
  induction l as [|[d|ev] l IH]; simpl; [reflexivity| |exact IH].
  unfold CronBase.delivered, AlertSystem.deliveries in *. simpl. f_equal. exact IH.
Qed.

Lemma delivered_to_Channel name (l : list AlertSystem.event) :
  CronBase.delivered_to name (CronBase.Channel name <$> l) = AlertSystem.deliveries l.
Proof.
  induction l as [|[d|ev] l IH]; simpl; [reflexivity| |exact IH].
  unfold CronBase.delivered_to, AlertSystem.deliveries in *. simpl.
  rewrite bool_decide_eq_true_2 by reflexivity. f_equal. exact IH.
Qed.

Lemma delivered_to_Channel_other name n (l : list AlertSystem.event) :
  n <> name ->
  CronBase.delivered_to name (CronBase.Channel n <$> l) = [].
Proof.
  intros Hne. induction l as [|[d|ev] l IH]; simpl; [reflexivity| |exact IH].
  unfold CronBase.delivered_to in *. simpl.
  rewrite bool_decide_eq_false_2 by assumption. exact IH.
Qed.

Lemma dispatched_Channel name (l : list AlertSystem.event) :
  CronBase.dispatched (CronBase.Channel name <$> l) = [].
Proof.
  induction l as [|ev l IH]; [reflexivity|]. simpl. exact IH.
Qed.
End AlertFacts.

Section FanOutFacts.
Context `{Runtime World}.
Implicit Types systems pre post : list (string * AlertSystem.t World).

Lemma for_each_system_cons name (system : AlertSystem.t World) systems
    klass level title data w :
  CronBase.for_each_system ((name, system) :: systems) klass level title data w =
    match AlertSystem.send_alert system klass level title data w with
    | (l1, w1, Ok _) =>
        match CronBase.for_each_system systems klass level title data w1 with
        | (l2, w2, r) => ((CronBase.Channel name <$> l1) ++ l2, w2, r)
        end
    | (l1, w1, Raise e) => (CronBase.Channel name <$> l1, w1, Raise e)
    end.
Proof.
  cbn [CronBase.for_each_system]. unfold bind, relog.
  destruct (AlertSystem.send_alert system klass level title data w) as [[l1 w1] [v|e]];
    reflexivity.
Qed.

Lemma for_each_system_app pre post klass level title data w :
  CronBase.for_each_system (pre ++ post) klass level title data w =
    match CronBase.for_each_system pre klass level title data w with
    | (l1, w1, Ok _) =>
        match CronBase.for_each_system post klass level title data w1 with
        | (l2, w2, r) => (l1 ++ l2, w2, r)
        end
    | (l1, w1, Raise e) => (l1, w1, Raise e)
    end.
Proof.
  revert w. induction pre as [|[name system] pre IH]; intros w.
  - simpl. destruct (CronBase.for_each_system post klass level title data w)
      as [[l2 w2] r]. reflexivity.
  - rewrite <- app_comm_cons, !for_each_system_cons.
    destruct (AlertSystem.send_alert system klass level title data w)
      as [[l1 w1] [v|e]]; [|reflexivity].
    rewrite IH.
    destruct (CronBase.for_each_system pre klass level title data w1)
      as [[l2 w2] [[]|e]]; [|reflexivity].
    destruct (CronBase.for_each_system post klass level title data w2)
      as [[l3 w3] r].
    rewrite app_assoc. reflexivity.
Qed.

(** The loop only sends alerts: it dispatches nothing by itself. *)
Lemma for_each_system_dispatched systems klass level title data w :
  CronBase.dispatched (CronBase.for_each_system systems klass level title data w).1.1 = [].
Proof.
  revert w. induction systems as [|[name system] systems IH]; intros w; [reflexivity|].
  rewrite for_each_system_cons.
  destruct (AlertSystem.send_alert system klass level title data w)
    as [[l1 w1] [v|e]]; simpl.
  - specialize (IH w1).
    destruct (CronBase.for_each_system systems klass level title data w1)
      as [[l2 w2] r]. simpl in *.
    rewrite dispatched_app, dispatched_Channel, IH. reflexivity.
  - apply dispatched_Channel.
Qed.

(** A name that is not registered receives nothing. *)
Lemma for_each_system_not_registered name systems klass level title data w :
  name ∉ systems.*1 ->
  CronBase.delivered_to name
    (CronBase.for_each_system systems klass level title data w).1.1 = [].
Proof.
  revert w. induction systems as [|[n system] systems IH]; intros w Hnot; [reflexivity|].
  rewrite fmap_cons in Hnot. apply not_elem_of_cons in Hnot as [Hne Hnot].
  simpl in Hne.
  rewrite for_each_system_cons.
  destruct (AlertSystem.send_alert system klass level title data w)
    as [[l1 w1] [v|e]]; simpl.
  - specialize (IH w1 Hnot).
    destruct (CronBase.for_each_system systems klass level title data w1)
      as [[l2 w2] r]. simpl in *.
    rewrite delivered_to_app, IH, app_nil_r.
    apply delivered_to_Channel_other. congruence.
  - apply delivered_to_Channel_other. congruence.
Qed.

(** When the loop completes, every system that watches the level has been
    called, in the order of the dictionary. *)
Lemma for_each_system_completes systems klass level title data w l w' :
  CronBase.for_each_system systems klass level title data w = (l, w', Ok tt) ->
  CronBase.delivered l =
    CronBase.deliveries_due systems (AlertSystem.Delivery klass level title data).
Proof.
  revert w l. induction systems as [|[name system] systems IH]; intros w l.
  - intros [= <- _]. reflexivity.
  - rewrite for_each_system_cons.
    pose proof (send_alert_deliveries system klass level title data w) as Hd.
    destruct (AlertSystem.send_alert system klass level title data w)
      as [[l1 w1] [v|e]]; [|discriminate].
    destruct (CronBase.for_each_system systems klass level title data w1)
      as [[l2 w2] r] eqn:E.
    intros [= <- <- ->]. simpl in Hd.
    rewrite delivered_app, delivered_Channel, Hd, (IH _ _ E).
    cbn [CronBase.deliveries_due AlertSystem.d_level].
    destruct (AlertSystem.watches system level); reflexivity.
Qed.

(** In every case, the systems called are those watching the level among
    the first so many of the dictionary, in its order. *)
Lemma for_each_system_in_order systems klass level title data w :
  exists n,
    CronBase.delivered (CronBase.for_each_system systems klass level title data w).1.1 =
      CronBase.deliveries_due (take n systems)
        (AlertSystem.Delivery klass level title data).
Proof.
  revert w. induction systems as [|[name system] systems IH]; intros w.
  - exists 0%nat. reflexivity.
  - rewrite for_each_system_cons.
    pose proof (send_alert_deliveries system klass level title data w) as Hd.
    destruct (AlertSystem.send_alert system klass level title data w)
      as [[l1 w1] [v|e]]; simpl in Hd.
    + destruct (IH w1) as [n Hn].
      destruct (CronBase.for_each_system systems klass level title data w1)
        as [[l2 w2] r]. simpl in Hn.
      exists (S n). simpl.
      rewrite delivered_app, delivered_Channel, Hd, Hn.
      destruct (AlertSystem.watches system level); reflexivity.
    + exists 1%nat. simpl. rewrite delivered_Channel, Hd, ?take_0.
      destruct (AlertSystem.watches system level); reflexivity.
Qed.

(** [CronBase.send_alert] is the loop over the registered systems, with
    the title prefixed and the data made a string. *)
Lemma send_alert_unfold (self : CronBase.t World) level title data w :
  CronBase.send_alert level title data (self, w) =
    match CronBase.for_each_system (CronBase.alert_systems self)
            (CronBase.class_name self) level ("CronBase processing: " +:+ title)
            (CronBase.ensure_string data) w with
    | (l, w', r) => (CronBase.Dispatch level title data :: l, (self, w'), r)
    end.
Proof.
  unfold CronBase.send_alert, bind, tell, CronBase.get_self, CronBase.lift_world.
  simpl.
  destruct (CronBase.for_each_system _ _ _ _ _ w) as [[l w'] r].
  reflexivity.
Qed.

(** One call of [send_alert] is one dispatched alert, and leaves the job
    object as it was. *)
Lemma send_alert_dispatched level title data (st : CronBase.state World) :
  CronBase.dispatched (CronBase.send_alert level title data st).1.1 =
    [(level, title, data)] /\
  (CronBase.send_alert level title data st).1.2.1 = st.1.
Proof.
  destruct st as [self w]. rewrite send_alert_unfold.
  pose proof (for_each_system_dispatched (CronBase.alert_systems self)
                (CronBase.class_name self) level ("CronBase processing: " +:+ title)
                (CronBase.ensure_string data) w) as Hd.
  destruct (CronBase.for_each_system _ _ _ _ _ w) as [[l w'] r].
  simpl in *. unfold CronBase.dispatched in *. simpl. rewrite Hd.
  split; reflexivity.
Qed.
End FanOutFacts.

Section DispatchFacts.
Context `{Runtime World}.
Implicit Types systems pre post : list (string * AlertSystem.t World).

Lemma deliveries_due_app pre post d :
  CronBase.deliveries_due (pre ++ post) d =
  CronBase.deliveries_due pre d ++ CronBase.deliveries_due post d.
Proof.
  induction pre as [|[n system] pre IH]; [reflexivity|].
  simpl. rewrite IH, app_assoc. reflexivity.
Qed.


(** A name registered for the first time goes after those already there. *)
Lemma dict_set_new {V} (d : list (string * V)) key v :
  key ∉ d.*1 -> dict_set d key v = d ++ [(key, v)].
Proof.
  induction d as [|[k x] d IH]; intros Hnot; [reflexivity|].
  rewrite fmap_cons in Hnot. apply not_elem_of_cons in Hnot as [Hne Hnot].
  simpl in *. rewrite bool_decide_eq_false_2 by congruence.
  rewrite IH by exact Hnot. reflexivity.
Qed.

Lemma add_alert_system_last (self : CronBase.t World) name alert_obj :
  name ∉ (CronBase.alert_systems self).*1 ->
  CronBase.alert_systems (CronBase.add_alert_system self name alert_obj) =
  CronBase.alert_systems self ++ [(name, alert_obj)].
Proof. intros Hnot. simpl. apply dict_set_new. exact Hnot. Qed.

(** The delivery calls of a dispatch follow the order of the dictionary. *)
Lemma send_alert_in_order (self : CronBase.t World) level title data w :
  exists n,
    CronBase.delivered (CronBase.send_alert level title data (self, w)).1.1 =
      CronBase.deliveries_due (take n (CronBase.alert_systems self))
        (CronBase.delivery_of self level title data).
Proof.
  rewrite send_alert_unfold.
  destruct (for_each_system_in_order (CronBase.alert_systems self)
              (CronBase.class_name self) level ("CronBase processing: " +:+ title)
              (CronBase.ensure_string data) w) as [n Hn].
  exists n.
  destruct (CronBase.for_each_system _ _ _ _ _ w) as [[l w'] r].
  exact Hn.
Qed.
End DispatchFacts.

(** C1, as the code has it.  For every call of [CronBase.send_alert] and
    every system registered under a name of its own: when the level of the
    alert is not supported or not monitored by the system, its delivery
    function is not called; when the level is both supported and monitored,
    and no system registered before it raised while the alert was sent to
    it, its delivery function is called exactly once.  The filter of one
    system by itself, [AlertSystem.send_alert], calls the delivery function
    once for a supported and monitored level and never otherwise. *)
Theorem dispatch_delivery_count `{Runtime World} (self : CronBase.t World)
    (pre post : list (string * AlertSystem.t World)) (name : string)
    (system : AlertSystem.t World) (level title : string) (data : pyval) (w : World) :
  CronBase.alert_systems self = pre ++ (name, system) :: post ->
  name ∉ pre.*1 ->
  name ∉ post.*1 ->
  (level ∉ AlertSystem.levels system \/ level ∉ AlertSystem.monitored_levels system ->
   CronBase.delivered_to name
     (CronBase.send_alert level title data (self, w)).1.1 = []) /\
  (level ∈ AlertSystem.levels system ->
   level ∈ AlertSystem.monitored_levels system ->
   (CronBase.for_each_system pre (CronBase.class_name self) level
      ("CronBase processing: " +:+ title) (CronBase.ensure_string data) w).2 = Ok tt ->
   CronBase.delivered_to name
     (CronBase.send_alert level title data (self, w)).1.1
   = [CronBase.delivery_of self level title data]) /\
  (forall klass title' data' w',
     AlertSystem.deliveries
       (AlertSystem.send_alert system klass level title' data' w').1.1 =
     if bool_decide (level ∈ AlertSystem.levels system)
        && bool_decide (level ∈ AlertSystem.monitored_levels system)
     then [AlertSystem.Delivery klass level title' data'] else []).
Proof.
  intros Hsys Hpre Hpost.
  assert (Hlog : forall l1 w1,
    CronBase.for_each_system pre (CronBase.class_name self) level
      ("CronBase processing: " +:+ title) (CronBase.ensure_string data) w
    = (l1, w1, Ok tt) ->
    CronBase.delivered_to name
      (CronBase.send_alert level title data (self, w)).1.1 =
    if AlertSystem.watches system level
    then [CronBase.delivery_of self level title data] else []).
  { intros l1 w1 Epre.
    pose proof (for_each_system_not_registered name pre (CronBase.class_name self)
                  level ("CronBase processing: " +:+ title)
                  (CronBase.ensure_string data) w Hpre) as Hl1.
    rewrite send_alert_unfold, Hsys, for_each_system_app, Epre.
    rewrite Epre in Hl1. simpl in Hl1.
    rewrite for_each_system_cons.
    pose proof (send_alert_deliveries system (CronBase.class_name self) level
                  ("CronBase processing: " +:+ title)
                  (CronBase.ensure_string data) w1) as Hd.
    destruct (AlertSystem.send_alert system _ _ _ _ w1) as [[l2 w2] [v|e]];
      simpl in Hd.
    - pose proof (for_each_system_not_registered name post (CronBase.class_name self)
                    level ("CronBase processing: " +:+ title)
                    (CronBase.ensure_string data) w2 Hpost) as Hl3.
      destruct (CronBase.for_each_system post _ _ _ _ w2) as [[l3 w3] r].
      simpl in *.
      change (CronBase.Dispatch level title data :: l1 ++ (CronBase.Channel name <$> l2) ++ l3)
        with ([CronBase.Dispatch level title data] ++ l1 ++ (CronBase.Channel name <$> l2) ++ l3).
      rewrite !delivered_to_app, Hl1, Hl3, delivered_to_Channel, Hd, app_nil_r.
      reflexivity.
    - simpl.
      change (CronBase.Dispatch level title data :: l1 ++ (CronBase.Channel name <$> l2))
        with ([CronBase.Dispatch level title data] ++ l1 ++ (CronBase.Channel name <$> l2)).
      rewrite !delivered_to_app, Hl1, delivered_to_Channel, Hd.
      reflexivity. }
  split; [|split].
  - intros Hout. apply watches_false in Hout.
    pose proof (for_each_system_not_registered name pre (CronBase.class_name self)
                  level ("CronBase processing: " +:+ title)
                  (CronBase.ensure_string data) w Hpre) as Hl1.
    destruct (CronBase.for_each_system pre (CronBase.class_name self) level
                ("CronBase processing: " +:+ title) (CronBase.ensure_string data) w)
      as [[l1 w1] [[]|e]] eqn:Epre.
    + rewrite (Hlog l1 w1 eq_refl), Hout. reflexivity.
    + rewrite send_alert_unfold, Hsys, for_each_system_app, Epre. simpl in *.
      exact Hl1.
  - intros Hin1 Hin2 Hok.
    destruct (CronBase.for_each_system pre (CronBase.class_name self) level
                ("CronBase processing: " +:+ title) (CronBase.ensure_string data) w)
      as [[l1 w1] [[]|e]] eqn:Epre; [|discriminate Hok].
    rewrite (Hlog l1 w1 eq_refl).
    assert (AlertSystem.watches system level = true) as -> by (apply watches_true; auto).
    reflexivity.
  - intros klass title' data' w'. apply send_alert_deliveries.
Qed.

Lemma dispatch_delivery_count_witness :
  CronBase.delivered_to "slack"
    (CronBase.send_alert "FAILURE" "Row count dropped" PNone (Sim.job, Sim.healthy)).1.1
  = [CronBase.delivery_of Sim.job "FAILURE" "Row count dropped" PNone].
Proof.
  destruct (dispatch_delivery_count Sim.job
              [("bi_alerts", DataLoopAlertSystem.init "prod" Sim.bi_alerts)] []
              "slack" (SlackAlertSystem.init "prod" Sim.slack)
              "FAILURE" "Row count dropped" PNone Sim.healthy)
    as (_ & Honce & _).
  - reflexivity.
  - by_evaluation.
  - by_evaluation.
  - apply Honce.
    + by_evaluation.
    + by_evaluation.
    + reflexivity.
Defined.

(** C1, as the specification words it, fails.  The job has the database
    channel registered first and the webhook channel second; the webhook
    channel supports and monitors FAILURE.  With the database down, the
    database channel raises, and the delivery function of the webhook
    channel is not called at all for the FAILURE alert. *)
Lemma dispatch_delivers_once_counterexample :
  CronBase.alert_systems Sim.job =
    [("bi_alerts", DataLoopAlertSystem.init "prod" Sim.bi_alerts);
     ("slack", SlackAlertSystem.init "prod" Sim.slack)] /\
  "FAILURE" ∈ AlertSystem.levels (SlackAlertSystem.init "prod" Sim.slack) /\
  "FAILURE" ∈ AlertSystem.monitored_levels (SlackAlertSystem.init "prod" Sim.slack) /\
  CronBase.delivered_to "slack"
    (CronBase.send_alert "FAILURE" "Row count dropped" PNone
       (Sim.job, Sim.lose_database Sim.healthy)).1.1 = [] /\
  (CronBase.send_alert "FAILURE" "Row count dropped" PNone
     (Sim.job, Sim.lose_database Sim.healthy)).2 = Raise Sim.OperationalError.
Proof.
  split; [reflexivity|].
  split; [by_evaluation|].
  split; [by_evaluation|].
  split; reflexivity.
Qed.



(** C8.  The systems are sent an alert in the order of the dictionary, which
    is the order in which their names were first registered: a system
    registered under a new name goes last.  When the
    systems before one have been served and that one raises, the exception
    leaves [send_alert] as it is, the delivery calls made are those due to
    the systems up to and including the failing one, and nothing at all is
    done for the systems registered after it. *)
Theorem fan_out_stops_at_failure `{Runtime World} (self : CronBase.t World)
    (pre post : list (string * AlertSystem.t World)) (name : string)
    (system : AlertSystem.t World) (level title : string) (data : pyval)
    (w w1 w2 : World) (l1 : list CronBase.event) (l2 : list AlertSystem.event)
    (e : exn) :
  CronBase.alert_systems self = pre ++ (name, system) :: post ->
  CronBase.for_each_system pre (CronBase.class_name self) level
    ("CronBase processing: " +:+ title) (CronBase.ensure_string data) w
  = (l1, w1, Ok tt) ->
  AlertSystem.send_alert system (CronBase.class_name self) level
    ("CronBase processing: " +:+ title) (CronBase.ensure_string data) w1
  = (l2, w2, Raise e) ->
  CronBase.send_alert level title data (self, w) =
    (CronBase.Dispatch level title data :: l1 ++ (CronBase.Channel name <$> l2),
     (self, w2), Raise e) /\
  CronBase.delivered
    (CronBase.Dispatch level title data :: l1 ++ (CronBase.Channel name <$> l2))
  = CronBase.deliveries_due (pre ++ [(name, system)])
      (CronBase.delivery_of self level title data) /\
  (forall w0, exists n,
     CronBase.delivered (CronBase.send_alert level title data (self, w0)).1.1 =
     CronBase.deliveries_due (take n (CronBase.alert_systems self))
       (CronBase.delivery_of self level title data)) /\
  (forall name' alert_obj,
     name' ∉ (CronBase.alert_systems self).*1 ->
     CronBase.alert_systems (CronBase.add_alert_system self name' alert_obj) =
     CronBase.alert_systems self ++ [(name', alert_obj)]).
Proof.
  intros Hsys Hpre Hfail. split; [|split; [|split]]; [| | |apply add_alert_system_last].
  - rewrite send_alert_unfold, Hsys, for_each_system_app, Hpre,
      for_each_system_cons, Hfail. reflexivity.
  - pose proof (for_each_system_completes _ _ _ _ _ _ _ _ Hpre) as Hl1.
    pose proof (send_alert_deliveries system (CronBase.class_name self) level
                  ("CronBase processing: " +:+ title)
                  (CronBase.ensure_string data) w1) as Hl2.
    assert (Hw : AlertSystem.watches system level = true).
    { eapply send_alert_raises_watches. rewrite Hfail. reflexivity. }
    rewrite Hfail, Hw in Hl2. simpl in Hl2.
    change (CronBase.Dispatch level title data :: l1 ++ (CronBase.Channel name <$> l2))
      with ([CronBase.Dispatch level title data] ++ l1 ++ (CronBase.Channel name <$> l2)).
    rewrite !delivered_app, Hl1, delivered_Channel, Hl2, deliveries_due_app.
    simpl. rewrite Hw. reflexivity.
  - intros w0. apply send_alert_in_order.
Qed.

Lemma fan_out_stops_at_failure_witness :
  CronBase.send_alert "FAILURE" "Row count dropped" PNone
    (Sim.job, Sim.lose_database Sim.healthy) =
    (CronBase.Dispatch "FAILURE" "Row count dropped" PNone
       :: [] ++ (CronBase.Channel "bi_alerts" <$>
                   [AlertSystem.Internal
                      (CronBase.delivery_of Sim.job "FAILURE" "Row count dropped" PNone);
                    AlertSystem.IO (Connect "db.internal" "cron" "bi" "secret")]),
     (Sim.job, Sim.lose_database Sim.healthy), Raise Sim.OperationalError).
Proof.
  apply (fan_out_stops_at_failure Sim.job []
           [("slack", SlackAlertSystem.init "prod" Sim.slack)]
           "bi_alerts" (DataLoopAlertSystem.init "prod" Sim.bi_alerts)
           "FAILURE" "Row count dropped" PNone
           (Sim.lose_database Sim.healthy) (Sim.lose_database Sim.healthy)
           (Sim.lose_database Sim.healthy)).
  - reflexivity.
  - reflexivity.
  - reflexivity.
Defined.

(** ** The life cycle of a job *)

Section RunFacts.
Context `{Runtime World}.

Lemma SystemExit_leaves_run code :
  isinstance_any (SystemExit code) ["Exception"] = false.
Proof. reflexivity. Qed.

(** The paths through [run]. *)
Lemma run_unfold (body : @M (CronBase.state World) CronBase.event unit)
    (st : CronBase.state World) :
  CronBase.run body st =
    match CronBase.send_alert "SUCCESS" "Job START" PNone st with
    | (l1, st1, Ok _) =>
        match body st1 with
        | (lb, st2, Ok _) =>
            match CronBase.send_alert "SUCCESS" "Job FINAL" PNone st2 with
            | (l3, st3, Ok _) =>
                (l1 ++ CronBase.CronProcess :: lb ++ l3, st3, Raise (SystemExit 0))
            | (l3, st3, Raise e) =>
                CronBase.except_Exception (l1 ++ CronBase.CronProcess :: lb ++ l3) st3 e
            end
        | (lb, st2, Raise e) =>
            CronBase.except_Exception (l1 ++ CronBase.CronProcess :: lb) st2 e
        end
    | (l1, st1, Raise e) => CronBase.except_Exception l1 st1 e
    end.
Proof.
  unfold CronBase.run, try_except, CronBase.except_Exception.
  unfold bind at 1.
  destruct (CronBase.send_alert "SUCCESS" "Job START" PNone st)
    as [[l1 st1] [[]|e]]; [|reflexivity].
  unfold bind at 1. unfold bind at 1. unfold tell.
  destruct (body st1) as [[lb st2] [[]|e]]; simpl.
  - unfold bind at 1.
    destruct (CronBase.send_alert "SUCCESS" "Job FINAL" PNone st2)
      as [[l3 st3] [[]|e]]; simpl.
    + rewrite app_nil_r. reflexivity.
    + reflexivity.
  - reflexivity.
Qed.

(** The [except] clause: one FAILURE alert carrying the error output, then
    [sys.exit(1)] unless sending the alert raised. *)
Lemma on_exception_unfold (e : exn) (st : CronBase.state World) :
  CronBase.on_exception e st =
    match CronBase.send_alert "FAILURE" "Failure during Job"
            (CronBase.error_output e st.2) st with
    | (l, st', Ok _) => (l, st', Raise (SystemExit 1))
    | (l, st', Raise e') => (l, st', Raise e')
    end.
Proof.
  unfold CronBase.on_exception, CronBase.build_error_output.
  unfold bind at 1. simpl. unfold bind at 1.
  destruct (CronBase.send_alert "FAILURE" "Failure during Job"
              (CronBase.error_output e st.2) st) as [[l st'] [[]|e']]; simpl.
  - rewrite app_nil_r. reflexivity.
  - reflexivity.
Qed.
End RunFacts.

Section LifecycleFacts.
Context `{Runtime World}.



End LifecycleFacts.

(** C4, as the code has it.  A run in which the alerts of the life cycle
    are sent without an exception.  When the body returns, the alerts of
    the run are "Job START", those the body sent itself, then "Job FINAL",
    the first and the last at level SUCCESS, and [run] exits with status 0.
    When the body raises an [Exception] [e], they are "Job START", those
    the body sent, then "Failure during Job" at level FAILURE, whose data
    holds the name of the class of [e], [str(e)], the host, the operating
    system and the formatted stack frames, and [run] exits with status 1.
    For a body that sends no alert these are the only two alerts of the
    run. *)
Theorem run_lifecycle `{Runtime World}
    (body : @M (CronBase.state World) CronBase.event unit)
    (st st1 : CronBase.state World) (l1 : list CronBase.event) :
  CronBase.send_alert "SUCCESS" "Job START" PNone st = (l1, st1, Ok tt) ->
  (forall lb st2 l3 st3,
     body st1 = (lb, st2, Ok tt) ->
     CronBase.send_alert "SUCCESS" "Job FINAL" PNone st2 = (l3, st3, Ok tt) ->
     CronBase.run body st
       = (l1 ++ CronBase.CronProcess :: lb ++ l3, st3, Raise (SystemExit 0)) /\
     CronBase.dispatched (CronBase.run body st).1.1 =
       ("SUCCESS", "Job START", PNone)
         :: CronBase.dispatched lb ++ [("SUCCESS", "Job FINAL", PNone)] /\
     (CronBase.dispatched lb = [] ->
      CronBase.dispatched (CronBase.run body st).1.1 =
        [("SUCCESS", "Job START", PNone); ("SUCCESS", "Job FINAL", PNone)]) /\
     CronBase.exit_status (CronBase.run body st).2 = Some 0%Z) /\
  (forall lb st2 e l3 st3,
     body st1 = (lb, st2, Raise e) ->
     isinstance e "Exception" = true ->
     CronBase.send_alert "FAILURE" "Failure during Job"
       (CronBase.error_output e st2.2) st2 = (l3, st3, Ok tt) ->
     CronBase.run body st
       = (l1 ++ CronBase.CronProcess :: lb ++ l3, st3, Raise (SystemExit 1)) /\
     CronBase.dispatched (CronBase.run body st).1.1 =
       ("SUCCESS", "Job START", PNone)
         :: CronBase.dispatched lb
         ++ [("FAILURE", "Failure during Job",
              PDict [("type", PStr (exc_type e)); ("value", PStr (exc_str e));
                     ("host", PStr (platform_node st2.2));
                     ("os", PStr (platform_system st2.2));
                     ("traceback", PList (PStr <$> format_traceback e))])] /\
     (CronBase.dispatched lb = [] ->
      CronBase.dispatched (CronBase.run body st).1.1 =
        [("SUCCESS", "Job START", PNone);
         ("FAILURE", "Failure during Job",
          PDict [("type", PStr (exc_type e)); ("value", PStr (exc_str e));
                 ("host", PStr (platform_node st2.2));
                 ("os", PStr (platform_system st2.2));
                 ("traceback", PList (PStr <$> format_traceback e))])]) /\
     CronBase.exit_status (CronBase.run body st).2 = Some 1%Z).
Proof.
  intros Hstart.
  pose proof (send_alert_dispatched "SUCCESS" "Job START" PNone st) as [Hd1 _].
  rewrite Hstart in Hd1. simpl in Hd1.
  assert (Hlog : forall lb l3 last,
            CronBase.dispatched l3 = [last] ->
            CronBase.dispatched (l1 ++ CronBase.CronProcess :: lb ++ l3)
            = ("SUCCESS", "Job START", PNone) :: CronBase.dispatched lb ++ [last]).
  { intros lb l3 last Hd3.
    change (l1 ++ CronBase.CronProcess :: lb ++ l3)
      with (l1 ++ [CronBase.CronProcess] ++ lb ++ l3).
    rewrite !dispatched_app, Hd1, Hd3. reflexivity. }
  split.
  - intros lb st2 l3 st3 Hbody Hfinal.
    pose proof (send_alert_dispatched "SUCCESS" "Job FINAL" PNone st2) as [Hd3 _].
    rewrite Hfinal in Hd3. simpl in Hd3.
    rewrite run_unfold, Hstart, Hbody, Hfinal. simpl.
    split; [reflexivity|]. rewrite (Hlog lb l3 _ Hd3).
    split; [reflexivity|]. split; [|reflexivity].
    intros ->. reflexivity.
  - intros lb st2 e l3 st3 Hbody Hexc Hfail.
    pose proof (send_alert_dispatched "FAILURE" "Failure during Job"
                  (CronBase.error_output e st2.2) st2) as [Hd3 _].
    rewrite Hfail in Hd3. simpl in Hd3.
    rewrite run_unfold, Hstart, Hbody.
    unfold CronBase.except_Exception.
    assert (isinstance_any e ["Exception"] = true) as ->
      by (simpl; rewrite Hexc; reflexivity).
    rewrite on_exception_unfold, Hfail. simpl.
    rewrite <- app_assoc. simpl.
    split; [reflexivity|]. rewrite (Hlog lb l3 _ Hd3).
    split; [reflexivity|]. split; [|reflexivity].
    intros ->. reflexivity.
Qed.

Lemma run_lifecycle_witness :
  (CronBase.dispatched (CronBase.run Sim.work (Sim.job, Sim.healthy)).1.1 =
     [("SUCCESS", "Job START", PNone); ("SUCCESS", "Job FINAL", PNone)] /\
   CronBase.exit_status (CronBase.run Sim.work (Sim.job, Sim.healthy)).2 = Some 0%Z) /\
  (CronBase.dispatched (CronBase.run Sim.work_warning (Sim.job, Sim.healthy)).1.1 =
     ("SUCCESS", "Job START", PNone)
       :: [("WARNING", "Row count dropped", PNone)]
       ++ [("SUCCESS", "Job FINAL", PNone)] /\
   CronBase.exit_status (CronBase.run Sim.work_warning (Sim.job, Sim.healthy)).2
     = Some 0%Z) /\
  (CronBase.dispatched (CronBase.run Sim.work_failing (Sim.job, Sim.healthy)).1.1 =
     [("SUCCESS", "Job START", PNone);
      ("FAILURE", "Failure during Job",
       PDict [("type", PStr "X"); ("value", PStr "boom");
              ("host", PStr "cron01"); ("os", PStr "Linux");
              ("traceback",
               PList [PStr ("  File job.py, line 7, in cron_process" +:+ nl)])])] /\
   CronBase.exit_status (CronBase.run Sim.work_failing (Sim.job, Sim.healthy)).2
     = Some 1%Z).
Proof.
  split; [|split].
  - destruct (run_lifecycle Sim.work (Sim.job, Sim.healthy)
                (CronBase.send_alert "SUCCESS" "Job START" PNone (Sim.job, Sim.healthy)).1.2
                (CronBase.send_alert "SUCCESS" "Job START" PNone (Sim.job, Sim.healthy)).1.1
                eq_refl) as [Hok _].
    destruct (Hok _ _ _ _ eq_refl eq_refl) as (_ & _ & Hd & Hx).
    split; [exact (Hd eq_refl) | exact Hx].
  - destruct (run_lifecycle Sim.work_warning (Sim.job, Sim.healthy)
                (CronBase.send_alert "SUCCESS" "Job START" PNone (Sim.job, Sim.healthy)).1.2
                (CronBase.send_alert "SUCCESS" "Job START" PNone (Sim.job, Sim.healthy)).1.1
                eq_refl) as [Hok _].
    destruct (Hok _ _ _ _ eq_refl eq_refl) as (_ & Hd & _ & Hx).
    split; [exact Hd | exact Hx].
  - destruct (run_lifecycle Sim.work_failing (Sim.job, Sim.healthy)
                (CronBase.send_alert "SUCCESS" "Job START" PNone (Sim.job, Sim.healthy)).1.2
                (CronBase.send_alert "SUCCESS" "Job START" PNone (Sim.job, Sim.healthy)).1.1
                eq_refl) as [_ Hko].
    destruct (Hko _ _ (Exc "X" std_bases "boom") _ _ eq_refl eq_refl eq_refl)
      as (_ & _ & Hd & Hx).
    split; [exact (Hd eq_refl) | exact Hx].
Defined.

(** C4, as the specification words it, fails.  The body sends no alert and
    returns normally, but the database server goes away while it runs:
    sending "Job FINAL" raises in the database channel, the [except] clause
    of [run] takes it for a failure of the job, and a third alert, "Failure
    during Job", is sent.  That one raises as well, so [run] ends with the
    exception of the database channel and not with exit status 0. *)
Lemma run_two_alerts_counterexample :
  (forall st, Sim.work_losing_database st
              = ([], (st.1, Sim.lose_database st.2), Ok tt)) /\
  CronBase.dispatched
    (CronBase.run Sim.work_losing_database (Sim.job, Sim.healthy)).1.1 =
    [("SUCCESS", "Job START", PNone); ("SUCCESS", "Job FINAL", PNone);
     ("FAILURE", "Failure during Job",
      CronBase.error_output Sim.OperationalError (Sim.lose_database Sim.healthy))] /\
  (CronBase.run Sim.work_losing_database (Sim.job, Sim.healthy)).2
    = Raise Sim.OperationalError /\
  CronBase.exit_status
    (CronBase.run Sim.work_losing_database (Sim.job, Sim.healthy)).2 <> Some 0%Z.
Proof.
  split; [intros st; reflexivity|].
  split; [vm_compute; reflexivity|].
  split; [vm_compute; reflexivity|].
  vm_compute. discriminate.
Qed.



(** ** Monitored levels *)

Section LevelFacts.
Context `{Runtime World}.

Lemma dict_get_Some_key {V} (d : list (string * V)) key v :
  dict_get d key = Some v -> key ∈ d.*1.
Proof.
  induction d as [|[k x] d IH]; simpl; [discriminate|].
  case_bool_decide as E.
  - intros _. subst k. left.
  - intros Hget. right. apply IH. exact Hget.
Qed.

Lemma dict_get_alter {V} (f : V -> V) (d : list (string * V)) key key' :
  dict_get (CronBase.dict_alter f key d) key' =
  if bool_decide (key = key') then f <$> dict_get d key' else dict_get d key'.
Proof.
  induction d as [|[k x] d IH]; simpl.
  - destruct (bool_decide (key = key')); reflexivity.
  - destruct (bool_decide (k = key)) eqn:E1; simpl.
    + apply bool_decide_eq_true in E1. subst k.
      destruct (bool_decide (key = key')); reflexivity.
    + apply bool_decide_eq_false in E1.
      destruct (bool_decide (k = key')) eqn:E2.
      * apply bool_decide_eq_true in E2. subst k.
        rewrite bool_decide_eq_false_2 by congruence. reflexivity.
      * exact IH.
Qed.

Lemma set_monitored_levels_supported (system : AlertSystem.t World) new_levels :
  AlertSystem.monitors_supported (AlertSystem.set_monitored_levels system new_levels).
Proof.
  intros level Hin. simpl in *. apply list_elem_of_filter in Hin as [Hin _]. exact Hin.
Qed.

Lemma init_supported env_name levels internal :
  AlertSystem.monitors_supported (World := World)
    (AlertSystem.init env_name levels internal).
Proof. intros level Hin. exact Hin. Qed.

(** Both channels are built monitoring only levels they support. *)
Lemma channels_built_supported env_name cfg1 cfg2 :
  AlertSystem.monitors_supported (DataLoopAlertSystem.init env_name cfg1) /\
  AlertSystem.monitors_supported (SlackAlertSystem.init env_name cfg2).
Proof.
  split; [apply init_supported | apply set_monitored_levels_supported].
Qed.

(** [set_alert_levels] keeps the invariant of every registered system. *)
Lemma set_alert_levels_supported (self : CronBase.t World) name new_levels :
  Forall (fun ns => AlertSystem.monitors_supported ns.2) (CronBase.alert_systems self) ->
  Forall (fun ns => AlertSystem.monitors_supported ns.2)
    (CronBase.alert_systems (CronBase.set_alert_levels self name new_levels)).
Proof.
  unfold CronBase.set_alert_levels. case_bool_decide as Hin; [clear Hin|auto]. simpl.
  induction (CronBase.alert_systems self) as [|[k x] d IH]; simpl; [auto|].
  intros Hall. apply Forall_cons in Hall as [Hx Hd]. simpl in Hx.
  destruct (bool_decide (k = name)); constructor; simpl.
  - apply set_monitored_levels_supported.
  - exact Hd.
  - exact Hx.
  - apply IH. exact Hd.
Qed.
End LevelFacts.

(** C5.  [set_monitored_levels] replaces the monitored levels by the
    requested levels that the system supports, in the order requested:
    a level is monitored afterwards exactly when it was requested and is
    supported, so the monitored levels are among the supported ones whatever
    the request; the supported levels do not change.  [set_alert_levels]
    does this to the system registered under the name, and leaves the job
    object as it is when no system has that name. *)
Theorem set_monitored_levels_intersects `{Runtime World} (system : AlertSystem.t World)
    (new_levels : list string) (self : CronBase.t World) (name : string) :
  AlertSystem.monitored_levels (AlertSystem.set_monitored_levels system new_levels)
    = filter (fun level => level ∈ AlertSystem.levels system) new_levels /\
  (forall level,
     level ∈ AlertSystem.monitored_levels (AlertSystem.set_monitored_levels system new_levels)
     <-> level ∈ new_levels /\ level ∈ AlertSystem.levels system) /\
  AlertSystem.levels (AlertSystem.set_monitored_levels system new_levels)
    = AlertSystem.levels system /\
  AlertSystem.monitored_levels (AlertSystem.set_monitored_levels system new_levels)
    ⊆ AlertSystem.levels (AlertSystem.set_monitored_levels system new_levels) /\
  (name ∉ (CronBase.alert_systems self).*1 ->
   CronBase.set_alert_levels self name new_levels = self) /\
  (forall registered,
     dict_get (CronBase.alert_systems self) name = Some registered ->
     dict_get (CronBase.alert_systems (CronBase.set_alert_levels self name new_levels)) name
     = Some (AlertSystem.set_monitored_levels registered new_levels)).
Proof.
  split; [reflexivity|]. split; [|split; [reflexivity|split; [|split]]].
  - intros level. simpl. rewrite list_elem_of_filter. tauto.
  - apply set_monitored_levels_supported.
  - intros Hnot. unfold CronBase.set_alert_levels.
    rewrite bool_decide_eq_false_2 by exact Hnot. reflexivity.
  - intros registered Hget. unfold CronBase.set_alert_levels.
    rewrite bool_decide_eq_true_2 by (eapply dict_get_Some_key; exact Hget).
    simpl. rewrite dict_get_alter, bool_decide_eq_true_2 by reflexivity.
    rewrite Hget. reflexivity.
Qed.

Lemma set_monitored_levels_intersects_witness :
  CronBase.set_alert_levels Sim.job "pager" ["FAILURE"; "CRITICAL"] = Sim.job /\
  AlertSystem.monitored_levels
    <$> dict_get (CronBase.alert_systems
                    (CronBase.set_alert_levels Sim.job "slack" ["FAILURE"; "CRITICAL"]))
          "slack"
  = Some ["FAILURE"].
Proof.
  split.
  - apply (set_monitored_levels_intersects (SlackAlertSystem.init "prod" Sim.slack)
             ["FAILURE"; "CRITICAL"] Sim.job "pager").
    by_evaluation.
  - destruct (set_monitored_levels_intersects (SlackAlertSystem.init "prod" Sim.slack)
                ["FAILURE"; "CRITICAL"] Sim.job "slack") as (_ & _ & _ & _ & _ & Hreg).
    rewrite (Hreg (SlackAlertSystem.init "prod" Sim.slack) eq_refl).
    reflexivity.
Defined.

(** ** The database channel *)

Section DataLoopFacts.
Context `{Runtime World}.

(** The levels the channel supports, with their codes. *)
Lemma status_codes_default level :
  level ∈ AlertSystem.default_levels ->
  exists code,
    dict_get DataLoopAlertSystem.status_codes level = Some code /\
    (level = "SUCCESS" -> code = 0%Z) /\
    (level = "WARNING" -> code = 1%Z) /\
    (level = "FAILURE" -> code = 2%Z).
Proof.
  intros Hlevel.
  assert (Hcases : level = "SUCCESS" \/ level = "WARNING" \/ level = "FAILURE").
  { unfold AlertSystem.default_levels in Hlevel.
    rewrite !elem_of_cons in Hlevel. rewrite elem_of_nil in Hlevel. tauto. }
  destruct Hcases as [-> | [-> | ->]].
  - exists 0%Z. repeat split; try reflexivity; discriminate.
  - exists 1%Z. repeat split; try reflexivity; discriminate.
  - exists 2%Z. repeat split; try reflexivity; discriminate.
Qed.

(** With the code of the level known, the channel connects, executes the
    statement and commits, stopping at the first call that raises. *)
Lemma dataloop_send env_name cfg klass level title data code w :
  dict_get DataLoopAlertSystem.status_codes level = Some code ->
  DataLoopAlertSystem.send_alert_internal env_name cfg klass level title data w =
    match pymysql_connect (DataLoopAlertSystem.host cfg) (DataLoopAlertSystem.user cfg)
            (DataLoopAlertSystem.db cfg) (DataLoopAlertSystem.password cfg) w with
    | (w1, Ok _) =>
        match cursor_execute (DataLoopAlertSystem.query (DataLoopAlertSystem.tablename cfg))
                [PStr klass; PInt code; PStr title; PStr data; PStr env_name] w1 with
        | (w2, Ok n) =>
            match connection_commit w2 with
            | (w3, Ok _) =>
                (DataLoopAlertSystem.calls env_name cfg klass title data code, w3,
                 Ok (PInt n))
            | (w3, Raise e) =>
                (DataLoopAlertSystem.calls env_name cfg klass title data code, w3,
                 Raise e)
            end
        | (w2, Raise e) =>
            (take 2 (DataLoopAlertSystem.calls env_name cfg klass title data code), w2,
             Raise e)
        end
    | (w1, Raise e) =>
        (take 1 (DataLoopAlertSystem.calls env_name cfg klass title data code), w1,
         Raise e)
    end.
Proof.
  intros Hcode. unfold DataLoopAlertSystem.send_alert_internal. rewrite Hcode.
  unfold DataLoopAlertSystem.connect_to_database, DataLoopAlertSystem.calls.
  unfold bind, tell, call, ret. simpl.
  destruct (pymysql_connect _ _ _ _ w) as [w1 [[]|e1]]; simpl; [|reflexivity].
  destruct (cursor_execute _ _ w1) as [w2 [n|e2]]; simpl; [|reflexivity].
  destruct (connection_commit w2) as [w3 [[]|e3]]; reflexivity.
Qed.
End DataLoopFacts.

(** C9.  An alert the database channel delivers has one of the levels the
    channel supports, SUCCESS, WARNING or FAILURE, with the code 0, 1 or 2.
    Once the connection is made, the channel executes its [INSERT]
    statement, with that code among the attributes; when the statement and
    the commit succeed as well, these three calls are all it does and it
    returns the row count of the statement.  Whatever happens, a statement
    the channel executes is that [INSERT], which names the columns source,
    err_date, status, err_msg, err_additional and env, and the row it
    inserts holds the code of the level in the status column, next to the
    source, the server's clock, the title, the data and the environment. *)
Theorem dataloop_row_status `{Runtime World} (env_name : string)
    (cfg : DataLoopAlertSystem.config) (klass level title data : string) (w : World) :
  level ∈ AlertSystem.default_levels ->
  exists code,
    dict_get DataLoopAlertSystem.status_codes level = Some code /\
    (level = "SUCCESS" -> code = 0%Z) /\
    (level = "WARNING" -> code = 1%Z) /\
    (level = "FAILURE" -> code = 2%Z) /\
    (forall w1,
       pymysql_connect (DataLoopAlertSystem.host cfg) (DataLoopAlertSystem.user cfg)
         (DataLoopAlertSystem.db cfg) (DataLoopAlertSystem.password cfg) w
         = (w1, Ok tt) ->
       exists rest,
         (DataLoopAlertSystem.send_alert_internal env_name cfg klass level title data w).1.1
         = Connect (DataLoopAlertSystem.host cfg) (DataLoopAlertSystem.user cfg)
             (DataLoopAlertSystem.db cfg) (DataLoopAlertSystem.password cfg)
           :: Execute (DataLoopAlertSystem.query (DataLoopAlertSystem.tablename cfg))
                [PStr klass; PInt code; PStr title; PStr data; PStr env_name]
           :: rest) /\
    (forall w1 w2 w3 n,
       pymysql_connect (DataLoopAlertSystem.host cfg) (DataLoopAlertSystem.user cfg)
         (DataLoopAlertSystem.db cfg) (DataLoopAlertSystem.password cfg) w
         = (w1, Ok tt) ->
       cursor_execute (DataLoopAlertSystem.query (DataLoopAlertSystem.tablename cfg))
         [PStr klass; PInt code; PStr title; PStr data; PStr env_name] w1
         = (w2, Ok n) ->
       connection_commit w2 = (w3, Ok tt) ->
       DataLoopAlertSystem.send_alert_internal env_name cfg klass level title data w
       = ([Connect (DataLoopAlertSystem.host cfg) (DataLoopAlertSystem.user cfg)
             (DataLoopAlertSystem.db cfg) (DataLoopAlertSystem.password cfg);
           Execute (DataLoopAlertSystem.query (DataLoopAlertSystem.tablename cfg))
             [PStr klass; PInt code; PStr title; PStr data; PStr env_name];
           Commit], w3, Ok (PInt n))) /\
    (forall q attributes,
       Execute q attributes
         ∈ (DataLoopAlertSystem.send_alert_internal env_name cfg klass level title data w).1.1 ->
       q = DataLoopAlertSystem.query (DataLoopAlertSystem.tablename cfg) /\
       DataLoopAlertSystem.inserted_row attributes =
         [("source", DataLoopAlertSystem.Attribute (PStr klass));
          ("err_date", DataLoopAlertSystem.Now);
          ("status", DataLoopAlertSystem.Attribute (PInt code));
          ("err_msg", DataLoopAlertSystem.Attribute (PStr title));
          ("err_additional", DataLoopAlertSystem.Attribute (PStr data));
          ("env", DataLoopAlertSystem.Attribute (PStr env_name))]).
Proof.
  intros Hlevel.
  destruct (status_codes_default level Hlevel) as (code & Hget & H0 & H1 & H2).
  exists code.
  split; [exact Hget|]. split; [exact H0|]. split; [exact H1|]. split; [exact H2|].
  rewrite (dataloop_send env_name cfg klass level title data code w Hget).
  unfold DataLoopAlertSystem.calls.
  split; [|split].
  - intros w1 ->.
    destruct (cursor_execute _ _ w1) as [w2 [n|e2]]; [|eexists; reflexivity].
    destruct (connection_commit w2) as [w3 [[]|e3]]; eexists; reflexivity.
  - intros w1 w2 w3 n -> -> ->. reflexivity.
  - intros q attributes Hin.
    assert (Hex : Execute q attributes
                    ∈ [Connect (DataLoopAlertSystem.host cfg) (DataLoopAlertSystem.user cfg)
                         (DataLoopAlertSystem.db cfg) (DataLoopAlertSystem.password cfg);
                       Execute (DataLoopAlertSystem.query (DataLoopAlertSystem.tablename cfg))
                         [PStr klass; PInt code; PStr title; PStr data; PStr env_name];
                       Commit]).
    { destruct (pymysql_connect _ _ _ _ w) as [w1 [[]|e1]].
      - destruct (cursor_execute _ _ w1) as [w2 [n|e2]].
        + destruct (connection_commit w2) as [w3 [[]|e3]]; exact Hin.
        + simpl in Hin. rewrite !elem_of_cons in Hin. rewrite !elem_of_cons. tauto.
      - simpl in Hin. rewrite !elem_of_cons in Hin. rewrite !elem_of_cons. tauto. }
    rewrite !elem_of_cons, elem_of_nil in Hex.
    destruct Hex as [Hex | [Hex | [Hex | []]]]; try discriminate Hex.
    injection Hex as -> ->. split; reflexivity.
Qed.

Lemma dataloop_row_status_witness :
  Sim.rows
    (DataLoopAlertSystem.send_alert_internal "prod" Sim.bi_alerts "NightlyLoad"
       "SUCCESS" "CronBase processing: Job START" "null" Sim.healthy).1.2
  = [(DataLoopAlertSystem.query "alerts",
      [PStr "NightlyLoad"; PInt 0; PStr "CronBase processing: Job START";
       PStr "null"; PStr "prod"])] /\
  Sim.rows
    (DataLoopAlertSystem.send_alert_internal "prod" Sim.bi_alerts "NightlyLoad"
       "FAILURE" "CronBase processing: Failure during Job" "null" Sim.healthy).1.2
  = [(DataLoopAlertSystem.query "alerts",
      [PStr "NightlyLoad"; PInt 2; PStr "CronBase processing: Failure during Job";
       PStr "null"; PStr "prod"])].
Proof.
  split.
  - destruct (dataloop_row_status "prod" Sim.bi_alerts "NightlyLoad" "SUCCESS"
                "CronBase processing: Job START" "null" Sim.healthy)
      as (code & _ & Hsuccess & _ & _ & _ & Hsend & _); [by_evaluation|].
    rewrite (Hsuccess eq_refl) in Hsend.
    rewrite (Hsend _ _ _ _ eq_refl eq_refl eq_refl). reflexivity.
  - destruct (dataloop_row_status "prod" Sim.bi_alerts "NightlyLoad" "FAILURE"
                "CronBase processing: Failure during Job" "null" Sim.healthy)
      as (code & _ & _ & _ & Hfailure & _ & Hsend & _); [by_evaluation|].
    rewrite (Hfailure eq_refl) in Hsend.
    rewrite (Hsend _ _ _ _ eq_refl eq_refl eq_refl). reflexivity.
Defined.

(** ** The webhook channel *)

Section SlackFacts.
Context `{Runtime World}.

Lemma str_items_strings i (lines : list string) :
  str_items i (PStr <$> lines) = Ok lines.
Proof.
  revert i. induction lines as [|s lines IH]; intros i; [reflexivity|].
  simpl. rewrite IH. reflexivity.
Qed.

(** In a dictionary, looking up the key of an entry gives its value. *)
Lemma dict_get_entry {V} (d : list (string * V)) k v :
  NoDup d.*1 -> (k, v) ∈ d -> dict_get d k = Some v.
Proof.
  induction d as [|[k' v'] d IH]; intros Hnd Hin; [inversion Hin|].
  rewrite fmap_cons in Hnd. apply NoDup_cons in Hnd as [Hnotin Hnd].
  apply elem_of_cons in Hin as [Heq|Hin]; simpl.
  - injection Heq as -> ->. rewrite bool_decide_eq_true_2 by reflexivity. reflexivity.
  - case_bool_decide as E.
    + subst k'. exfalso. apply Hnotin.
      apply list_elem_of_fmap. exists (k, v). split; [reflexivity | exact Hin].
    + apply IH; assumption.
Qed.

(** The loop over the keys appends a field for each entry but the
    traceback. *)
Lemma append_keys_entries (d entries : list (string * pyval)) fields :
  (forall k v, (k, v) ∈ entries -> dict_get d k = Some v) ->
  SlackAlertSystem.append_keys fields d entries.*1 =
  fields ++ ((fun kv => SlackAlertSystem.field kv.1 kv.2)
               <$> filter (fun kv => kv.1 <> "traceback") entries).
Proof.
  revert fields. induction entries as [|[k v] entries IH]; intros fields Hget.
  - simpl. rewrite app_nil_r. reflexivity.
  - rewrite fmap_cons. cbn [SlackAlertSystem.append_keys fst].
    rewrite filter_cons. cbn [fst].
    assert (Hrest : forall k0 v0, (k0, v0) ∈ entries -> dict_get d k0 = Some v0)
      by (intros k0 v0 Hin; apply Hget; right; exact Hin).
    destruct (decide (k <> "traceback")) as [Hne|Heq].
    + rewrite bool_decide_eq_false_2 by exact Hne. simpl.
      rewrite (Hget k v) by left.
      rewrite IH by exact Hrest.
      unfold SlackAlertSystem.append_field. rewrite <- app_assoc. reflexivity.
    + assert (k = "traceback") as -> by (destruct (decide (k = "traceback")); tauto).
      rewrite bool_decide_eq_true_2 by reflexivity. simpl.
      apply IH. exact Hrest.
Qed.

(** A dictionary with a traceback of strings: the message is posted, with
    a field for every other key and the traceback as a fenced block. *)
Lemma slack_structured_payload env_name cfg klass level title raw color d lines w :
  raw <> EmptyString ->
  json_loads raw = Ok (PDict d) ->
  NoDup d.*1 ->
  dict_get d "traceback" = Some (PList (PStr <$> lines)) ->
  dict_get SlackAlertSystem.colors level = Some color ->
  (SlackAlertSystem.send_alert_internal env_name cfg klass level title raw w).1.1 =
    [Post (SlackAlertSystem.endpoint cfg)
       (SlackAlertSystem.message env_name cfg klass level title color d lines)].
Proof.
  intros Hraw Hloads Hnd Htb Hcolor.
  assert (Htruthy : truthy (PDict d) = true).
  { destruct d; [discriminate Htb | reflexivity]. }
  unfold SlackAlertSystem.send_alert_internal. rewrite Hcolor.
  unfold SlackAlertSystem.add_additional_data.
  rewrite bool_decide_eq_false_2 by exact Hraw. cbn [negb].
  unfold bind at 1. unfold bind at 1. unfold call at 1. rewrite Hloads.
  rewrite Htruthy.
  unfold bind at 1. unfold call at 1. cbn [py_keys].
  unfold bind at 1. unfold call at 1. cbn [py_getitem]. rewrite Htb.
  unfold bind at 1. unfold call at 1. cbn [py_join]. rewrite str_items_strings.
  unfold ret. cbn [fst snd].
  rewrite (append_keys_entries d d)
    by (intros k v Hin; apply dict_get_entry; assumption).
  unfold bind, tell, call.
  destruct (requests_post _ _ w) as [w1 [status|e]]; [|reflexivity].
  destruct (negb (status =? 200)%Z); reflexivity.
Qed.

(** The example of the specification. *)
Lemma slack_example_message env_name cfg klass level title raw color w :
  raw <> EmptyString ->
  json_loads raw =
    Ok (PDict [("traceback", PList [PStr "l1"; PStr "l2"]); ("foo", PStr "bar")]) ->
  dict_get SlackAlertSystem.colors level = Some color ->
  (SlackAlertSystem.send_alert_internal env_name cfg klass level title raw w).1.1 =
    [Post (SlackAlertSystem.endpoint cfg)
       (PDict
          [("username", PStr (SlackAlertSystem.username cfg));
           ("attachments",
            PList
              [PDict
                 [("author_name", PStr (SlackAlertSystem.username cfg));
                  ("title", PStr (level +:+ ": " +:+ title));
                  ("color", PStr color);
                  ("text", PStr ("```l1" +:+ nl +:+ "l2```"));
                  ("mrkdwn_in", PList [PStr "text"]);
                  ("fields",
                   PList
                     [SlackAlertSystem.field "source" (PStr klass);
                      SlackAlertSystem.field "level" (PStr level);
                      SlackAlertSystem.field "env" (PStr env_name);
                      SlackAlertSystem.field "foo" (PStr "bar")])]])])].
Proof.
  intros Hraw Hloads Hcolor.
  rewrite (slack_structured_payload env_name cfg klass level title raw color
             [("traceback", PList [PStr "l1"; PStr "l2"]); ("foo", PStr "bar")]
             ["l1"; "l2"] w Hraw Hloads); [reflexivity | | reflexivity | exact Hcolor].
  by_evaluation.
Qed.

(** A dictionary without a traceback: the lookup of the key raises before
    anything is posted. *)
Lemma slack_missing_traceback env_name cfg klass level title raw color d w :
  raw <> EmptyString ->
  json_loads raw = Ok (PDict d) ->
  d <> [] ->
  dict_get d "traceback" = None ->
  dict_get SlackAlertSystem.colors level = Some color ->
  SlackAlertSystem.send_alert_internal env_name cfg klass level title raw w =
    ([], w, Raise (KeyError "traceback")).
Proof.
  intros Hraw Hloads Hd Htb Hcolor.
  assert (Htruthy : truthy (PDict d) = true).
  { destruct d; [congruence | reflexivity]. }
  unfold SlackAlertSystem.send_alert_internal. rewrite Hcolor.
  unfold SlackAlertSystem.add_additional_data.
  rewrite bool_decide_eq_false_2 by exact Hraw. cbn [negb].
  unfold bind at 1. unfold bind at 1. unfold call at 1. rewrite Hloads.
  rewrite Htruthy.
  unfold bind at 1. unfold call at 1. cbn [py_keys].
  unfold bind at 1. unfold call at 1. cbn [py_getitem]. rewrite Htb.
  reflexivity.
Qed.
End SlackFacts.

(** C6 fails on the code for a payload without a traceback.  The data is
    the JSON text of the dictionary with the single key foo: the channel
    indexes the dictionary with 'traceback' whether or not the key is there,
    so the delivery raises [KeyError] and posts nothing, where the
    specification has a message with the field foo and no block of text. *)
Theorem slack_payload_without_traceback_raises :
  Sim.loads (Sim.dumps (PDict [("foo", PStr "bar")])) = Ok (PDict [("foo", PStr "bar")]) /\
  SlackAlertSystem.send_alert_internal "prod" Sim.slack "NightlyLoad" "WARNING"
    "CronBase processing: Row count dropped"
    (Sim.dumps (PDict [("foo", PStr "bar")])) Sim.healthy
  = ([], Sim.healthy, Raise (KeyError "traceback")).
Proof.
  split; vm_compute; reflexivity.
Qed.


(** * More properties of the code *)

(** ** The retry decorator, in general *)

Section RetryRunFacts.
Context {World V : Type} `{!Clock World}.
Variable exceptions_to_retry : list string.
Variable exception_callback : option (exn -> Z -> Z -> World -> World * res unit).
Variable backoff : Z.
Variable f : World -> World * res V.

Local Abbreviation loop :=
  (Retry.while_remaining exceptions_to_retry exception_callback backoff f).
Local Abbreviation retried :=
  (RetryRuns.retried exceptions_to_retry exception_callback backoff f).

(** Whatever the wrapped function, the callback and [time.sleep] do, the
    loop calls the function at most as many times as there are tries, and
    returns a value only from the attempt made last. *)
Lemma while_remaining_bounded n d last_exception w :
  RetryRuns.within_tries exceptions_to_retry exception_callback backoff f n d w
    (loop n d last_exception w).
Proof.
  assert (Hraised : forall (l : list Retry.event) (w0 w1 : World) (e : exn)
                           (k : nat) (d0 : Z),
    (length (Retry.attempts l) <= k)%nat ->
    (length (Retry.sleeps l) <= length (Retry.attempts l))%nat ->
    (length (Retry.callbacks l) <= length (Retry.attempts l))%nat ->
    RetryRuns.within_tries exceptions_to_retry exception_callback backoff f k d0 w0
      (l, w1, Raise e)).
  { intros l w0 w1 e k d0 Ha Hs Hc. unfold RetryRuns.within_tries. simpl.
    split; [exact Ha|]. split; [exact Hs|]. split; [exact Hc|].
    intros v Hv. discriminate Hv. }
  assert (Hnext : forall (k : nat) (d0 : Z) (w0 w1 : World) (e : exn)
                         (out : list Retry.event * World * res V),
    Retry.failed_turn exceptions_to_retry exception_callback f
      (Z.of_nat (S k)) d0 w0 e w1 ->
    RetryRuns.within_tries exceptions_to_retry exception_callback backoff f
      k (d0 * backoff)%Z w1 out ->
    RetryRuns.within_tries exceptions_to_retry exception_callback backoff f
      (S k) d0 w0
      (match out with
       | (l, w3, r) =>
           (Retry.Attempt (Some e)
              :: Retry.callback_log exception_callback e (Z.of_nat (S k)) d0
              ++ Retry.Sleep d0 :: l, w3, r)
       end)).
  { intros k d0 w0 w1 e [[l w3] r] Hturn (Ia & Is & Ic & Iok).
    set (pre := Retry.Attempt (Some e)
                  :: Retry.callback_log exception_callback e (Z.of_nat (S k)) d0
                  ++ [Retry.Sleep d0]).
    assert (Hpre : forall l',
              Retry.Attempt (Some e)
                :: Retry.callback_log exception_callback e (Z.of_nat (S k)) d0
                ++ Retry.Sleep d0 :: l' = pre ++ l').
    { intros l'. unfold pre. rewrite <- app_comm_cons, <- app_assoc. reflexivity. }
    assert (Hpa : length (Retry.attempts pre) = 1%nat)
      by (unfold pre, Retry.callback_log; destruct exception_callback; reflexivity).
    assert (Hps : length (Retry.sleeps pre) = 1%nat)
      by (unfold pre, Retry.callback_log; destruct exception_callback; reflexivity).
    assert (Hpc : (length (Retry.callbacks pre) <= 1)%nat)
      by (unfold pre, Retry.callback_log; destruct exception_callback; simpl; lia).
    unfold RetryRuns.within_tries in *. cbn [fst snd] in *.
    rewrite Hpre. unfold Retry.attempts, Retry.sleeps, Retry.callbacks in *.
    rewrite !omap_app, !length_app.
    split; [lia|]. split; [lia|]. split; [lia|].
    intros v Hv. destruct (Iok v Hv) as (es & l0 & w4 & Hrun & Hlen & Hf & Hl).
    exists (e :: es).
    exists (Retry.Attempt (Some e)
              :: Retry.callback_log exception_callback e (Z.of_nat (S k)) d0
              ++ Retry.Sleep d0 :: l0).
    exists w4.
    split; [apply RetryRuns.retried_again with (w1 := w1); assumption|].
    split; [simpl; lia|]. split; [exact Hf|].
    rewrite Hl, Hpre, app_assoc. reflexivity. }
  revert d last_exception w. induction n as [|n IH]; intros d last_exception w.
  - simpl. destruct last_exception; apply Hraised; simpl; lia.
  - cbn [Retry.while_remaining].
    destruct (f w) as [w1 [v|e]] eqn:Hf.
    + unfold RetryRuns.within_tries. simpl.
      split; [lia|]. split; [lia|]. split; [lia|].
      intros v0 [= <-]. exists [], [], w.
      split; [apply RetryRuns.retried_none|].
      split; [simpl; lia|]. split; [exact Hf | reflexivity].
    + destruct (isinstance_any e exceptions_to_retry) eqn:Hyes;
        [|apply Hraised; simpl; lia].
      unfold Retry.call_callback.
      destruct exception_callback as [cb|] eqn:Ecb.
      * unfold bind, tell, call, raise.
        destruct (cb e (Z.of_nat (S n)) d w1) as [w2 [[]|e']] eqn:Hcb;
          [|apply Hraised; simpl; lia].
        destruct (time_sleep d w2) as [w3 [[]|e']] eqn:Hsleep;
          [|apply Hraised; simpl; lia].
        specialize (IH (d * backoff)%Z (Some e) w3).
        assert (Hturn : Retry.failed_turn exceptions_to_retry (Some cb) f
                          (Z.of_nat (S n)) d w e w3).
        { exists w1, w2. repeat split; assumption. }
        pose proof (Hnext n d w w3 e _ Hturn IH) as Hout.
        destruct (Retry.while_remaining _ _ _ _ n _ _ w3) as [[l w4] r].
        exact Hout.
      * unfold bind, tell, call, ret, raise.
        destruct (time_sleep d w1) as [w3 [[]|e']] eqn:Hsleep;
          [|apply Hraised; simpl; lia].
        specialize (IH (d * backoff)%Z (Some e) w3).
        assert (Hturn : Retry.failed_turn exceptions_to_retry None f
                          (Z.of_nat (S n)) d w e w3).
        { exists w1, w1. repeat split; assumption. }
        pose proof (Hnext n d w w3 e _ Hturn IH) as Hout.
        destruct (Retry.while_remaining _ _ _ _ n _ _ w3) as [[l w4] r].
        exact Hout.
Qed.
End RetryRunFacts.

(** X1.  When the first turns of the loop fail and are retried (the
    function raises a retried exception, the callback, if any, returns,
    [time.sleep] returns) and the next attempt returns, within the tries
    allowed, the wrapper returns that value.  It has slept once after each
    failed attempt, with delays growing by the backoff, and has called the
    callback, if any, once per failed attempt; nothing follows the
    successful attempt. *)
Theorem retry_returns_after_failures {World V : Type} `{!Clock World}
    (exceptions_to_retry : list string)
    (exception_callback : option (exn -> Z -> Z -> World -> World * res unit))
    (tries delay backoff : Z) (f : World -> World * res V)
    (w w' w'' : World) (es : list exn) (l : list Retry.event) (v : V) :
  RetryRuns.retried exceptions_to_retry exception_callback backoff f
    (Z.to_nat tries) delay w es l w' ->
  f w' = (w'', Ok v) ->
  (length es < Z.to_nat tries)%nat ->
  Retry.f_retry exceptions_to_retry exception_callback tries delay backoff f w
    = (l ++ [Retry.Attempt None], w'', Ok v) /\
  Retry.attempts (l ++ [Retry.Attempt None]) = (Some <$> es) ++ [None] /\
  Retry.sleeps (l ++ [Retry.Attempt None]) = RetryRuns.delays backoff (length es) delay /\
  length (Retry.callbacks (l ++ [Retry.Attempt None])) =
    match exception_callback with Some _ => length es | None => 0%nat end.
Proof.
  intros Hrun Hf Hlt.
  destruct (retried_log _ _ _ _ _ _ _ _ _ _ Hrun) as (Ha & Hs & Hc).
  split.
  - unfold Retry.f_retry.
    rewrite (while_remaining_after_retried _ _ _ _ _ _ _ _ _ _ None Hrun).
    destruct (Z.to_nat tries - length es)%nat as [|k] eqn:E; [lia|].
    rewrite (while_remaining_returns _ _ _ _ _ _ _ _ _ _ Hf). reflexivity.
  - unfold Retry.attempts, Retry.sleeps, Retry.callbacks in *.
    rewrite !omap_app, Ha, Hs, length_app, Hc. simpl.
    rewrite app_nil_r, Nat.add_0_r. repeat split; reflexivity.
Qed.

Lemma retry_returns_after_failures_witness :
  Retry.f_retry ["OSError"] None 5 1 3 RetryRuns.twice_then_7 0%nat =
    ([Retry.Attempt (Some (Exc "TimeoutError" ("OSError" :: std_bases) "timed out"));
      Retry.Sleep 1;
      Retry.Attempt (Some (Exc "TimeoutError" ("OSError" :: std_bases) "timed out"));
      Retry.Sleep 3] ++ [Retry.Attempt None], 3%nat, Ok 7%Z).
Proof.
  refine (proj1 (retry_returns_after_failures ["OSError"] None 5 1 3
                   RetryRuns.twice_then_7 0%nat 2%nat 3%nat
                   [Exc "TimeoutError" ("OSError" :: std_bases) "timed out";
                    Exc "TimeoutError" ("OSError" :: std_bases) "timed out"]
                   _ 7%Z _ _ _)).
  - apply (RetryRuns.retried_again ["OSError"] None 3 RetryRuns.twice_then_7
             4 1%Z 0%nat 1%nat _ _ _ 2%nat);
      [exists 1%nat, 1%nat; repeat split; reflexivity|].
    apply (RetryRuns.retried_again ["OSError"] None 3 RetryRuns.twice_then_7
             3 (1 * 3)%Z 1%nat 2%nat _ [] [] 2%nat);
      [exists 2%nat, 2%nat; repeat split; reflexivity|].
    apply RetryRuns.retried_none.
  - reflexivity.
  - simpl. lia.
Defined.

(** X2.  When every turn of the loop fails and is retried (the function
    raises a retried exception, the callback, if any, returns, [time.sleep]
    returns), the wrapper has called the function once per try and slept
    after each attempt, the last one included, with delays [delay],
    [delay * backoff], ...; it raises the exception of the last attempt, in
    the world the last sleep left. *)
Theorem retry_all_tries_fail {World V : Type} `{!Clock World}
    (exceptions_to_retry : list string)
    (exception_callback : option (exn -> Z -> Z -> World -> World * res unit))
    (tries delay backoff : Z) (f : World -> World * res V) (w w' : World)
    (es : list exn) (l : list Retry.event) :
  RetryRuns.retried exceptions_to_retry exception_callback backoff f
    (Z.to_nat tries) delay w es l w' ->
  length es = Z.to_nat tries ->
  (0 < tries)%Z ->
  exists e,
    last es = Some e /\
    Retry.f_retry exceptions_to_retry exception_callback tries delay backoff f w
      = (l, w', Raise e) /\
    Retry.attempts l = Some <$> es /\
    Retry.sleeps l = RetryRuns.delays backoff (Z.to_nat tries) delay /\
    length (Retry.callbacks l) =
      match exception_callback with Some _ => Z.to_nat tries | None => 0%nat end.
Proof.
  intros Hrun Hlen Htries.
  destruct (retried_log _ _ _ _ _ _ _ _ _ _ Hrun) as (Ha & Hs & Hc).
  destruct (last es) as [e|] eqn:Hlast.
  - exists e. split; [reflexivity|]. split.
    + unfold Retry.f_retry.
      rewrite (while_remaining_all_fail _ _ _ _ _ _ _ _ _ _ None Hrun Hlen).
      rewrite Hlast. reflexivity.
    + rewrite <- Hlen. split; [exact Ha|]. split; [exact Hs | exact Hc].
  - apply last_None in Hlast. subst es. simpl in Hlen. lia.
Qed.

Lemma retry_all_tries_fail_witness :
  exists e,
    last [Exc "TimeoutError" ("OSError" :: std_bases) "timed out";
          Exc "TimeoutError" ("OSError" :: std_bases) "timed out"] = Some e /\
    Retry.f_retry ["OSError"] None 2 2 3 RetryRuns.always_timeout 0%nat
      = ([Retry.Attempt (Some (Exc "TimeoutError" ("OSError" :: std_bases) "timed out"));
          Retry.Sleep 2;
          Retry.Attempt (Some (Exc "TimeoutError" ("OSError" :: std_bases) "timed out"));
          Retry.Sleep (2 * 3)], 2%nat, Raise e).
Proof.
  destruct (retry_all_tries_fail ["OSError"] None 2 2 3 RetryRuns.always_timeout
              0%nat 2%nat
              [Exc "TimeoutError" ("OSError" :: std_bases) "timed out";
               Exc "TimeoutError" ("OSError" :: std_bases) "timed out"]
              [Retry.Attempt (Some (Exc "TimeoutError" ("OSError" :: std_bases) "timed out"));
               Retry.Sleep 2;
               Retry.Attempt (Some (Exc "TimeoutError" ("OSError" :: std_bases) "timed out"));
               Retry.Sleep (2 * 3)])
    as (e & Hlast & Hrun & _).
  - apply (RetryRuns.retried_again ["OSError"] None 3 RetryRuns.always_timeout
             1 2%Z 0%nat 1%nat _ _ _ 2%nat);
      [exists 1%nat, 1%nat; repeat split; reflexivity|].
    apply (RetryRuns.retried_again ["OSError"] None 3 RetryRuns.always_timeout
             0 (2 * 3)%Z 1%nat 2%nat _ [] [] 2%nat);
      [exists 2%nat, 2%nat; repeat split; reflexivity|].
    apply RetryRuns.retried_none.
  - reflexivity.
  - lia.
  - exists e. split; [exact Hlast | exact Hrun].
Defined.

(** X3.  With no tries to make ([tries] zero or negative) the wrapped
    function is not called at all, and the wrapper raises [TypeError], for
    there is no exception to raise again. *)
Theorem retry_without_tries {World V : Type} `{!Clock World}
    (exceptions_to_retry : list string)
    (exception_callback : option (exn -> Z -> Z -> World -> World * res unit))
    (tries delay backoff : Z) (f : World -> World * res V) (w : World) :
  (tries <= 0)%Z ->
  Retry.f_retry exceptions_to_retry exception_callback tries delay backoff f w
    = ([], w, Raise (TypeError "exceptions must derive from BaseException")).
Proof.
  intros Htries. unfold Retry.f_retry.
  replace (Z.to_nat tries) with 0%nat by lia. reflexivity.
Qed.

Lemma retry_without_tries_witness :
  Retry.f_retry ["OSError"] None 0 5 2 RetryRuns.twice_then_7 0%nat
    = ([], 0%nat, Raise (TypeError "exceptions must derive from BaseException")).
Proof.
  apply (retry_without_tries ["OSError"] None 0 5 2 RetryRuns.twice_then_7 0%nat).
  lia.
Defined.

(** X4.  When [time.sleep] raises, as it does for a negative delay, the
    first retried failure is the end: after the callback, the exception of
    [time.sleep] leaves the wrapper in place of the exception of the
    function, after a single attempt. *)
Theorem retry_sleep_raises {World V : Type} `{!Clock World}
    (exceptions_to_retry : list string)
    (exception_callback : option (exn -> Z -> Z -> World -> World * res unit))
    (tries delay backoff : Z) (f : World -> World * res V) (w w1 w2 w3 : World)
    (e e' : exn) :
  (0 < tries)%Z ->
  f w = (w1, Raise e) ->
  isinstance_any e exceptions_to_retry = true ->
  Retry.after_callback exception_callback e tries delay w1 w2 ->
  time_sleep delay w2 = (w3, Raise e') ->
  Retry.f_retry exceptions_to_retry exception_callback tries delay backoff f w
    = (Retry.Attempt (Some e) :: Retry.callback_log exception_callback e tries delay
         ++ [Retry.Sleep delay],
       w3, Raise e').
Proof.
  intros Htries Hf Hyes Hcb Hsleep. unfold Retry.f_retry.
  destruct (Z.to_nat tries) as [|n] eqn:E; [lia|].
  assert (Hn : Z.of_nat (S n) = tries) by lia.
  cbn [Retry.while_remaining]. rewrite Hf, Hyes, Hn.
  unfold Retry.call_callback, Retry.callback_log, Retry.after_callback in *.
  destruct exception_callback as [cb|].
  - unfold bind, tell, call, raise. rewrite Hcb, Hsleep. reflexivity.
  - subst w2. unfold bind, tell, call, ret. rewrite Hsleep. reflexivity.
Qed.

Lemma retry_sleep_raises_witness :
  Retry.f_retry ["OSError"] None 3 (-1) 2 RetryRuns.always_timeout 0%nat
    = (Retry.Attempt (Some (Exc "TimeoutError" ("OSError" :: std_bases) "timed out"))
         :: [] ++ [Retry.Sleep (-1)],
       1%nat, Raise (ValueError "sleep length must be non-negative")).
Proof.
  apply (retry_sleep_raises ["OSError"] None 3 (-1) 2 RetryRuns.always_timeout
           0%nat 1%nat 1%nat 1%nat).
  - lia.
  - reflexivity.
  - reflexivity.
  - reflexivity.
  - reflexivity.
Defined.

(** X5.  When the callback itself raises, its exception leaves the wrapper
    at once: there is no sleep and no further attempt, and the exception of
    the wrapped function is lost. *)
Theorem retry_callback_raises {World V : Type} `{!Clock World}
    (exceptions_to_retry : list string)
    (cb : exn -> Z -> Z -> World -> World * res unit)
    (tries delay backoff : Z) (f : World -> World * res V) (w w1 w2 : World)
    (e e' : exn) :
  (0 < tries)%Z ->
  f w = (w1, Raise e) ->
  isinstance_any e exceptions_to_retry = true ->
  cb e tries delay w1 = (w2, Raise e') ->
  Retry.f_retry exceptions_to_retry (Some cb) tries delay backoff f w
    = ([Retry.Attempt (Some e); Retry.Callback e tries delay], w2, Raise e').
Proof.
  intros Htries Hf Hyes Hcb. unfold Retry.f_retry.
  destruct (Z.to_nat tries) as [|n] eqn:E; [lia|].
  assert (Hn : Z.of_nat (S n) = tries) by lia.
  cbn [Retry.while_remaining]. rewrite Hf, Hyes, Hn.
  unfold Retry.call_callback, bind, tell, call. rewrite Hcb. reflexivity.
Qed.

Lemma retry_callback_raises_witness :
  Retry.f_retry ["OSError"] (Some RetryRuns.failing_callback) 3 1 2
    RetryRuns.always_timeout 0%nat
    = ([Retry.Attempt (Some (Exc "TimeoutError" ("OSError" :: std_bases) "timed out"));
        Retry.Callback (Exc "TimeoutError" ("OSError" :: std_bases) "timed out") 3 1],
       1%nat, Raise (Exc "RuntimeError" std_bases "pager is down")).
Proof.
  apply (retry_callback_raises ["OSError"] RetryRuns.failing_callback 3 1 2
           RetryRuns.always_timeout 0%nat 1%nat 1%nat).
  - lia.
  - reflexivity.
  - reflexivity.
  - reflexivity.
Defined.

(** X6.  Whatever the wrapped function, the callback and [time.sleep]
    do, the wrapper calls the function at most [tries] times and never
    sleeps or calls the callback more often than it has called the
    function.  It returns a value only when the function returned it at the
    last attempt made, after turns that all failed and were retried, fewer
    than [tries] of them: the log is theirs followed by that attempt, and
    the world is the one the function left. *)
Theorem retry_within_tries {World V : Type} `{!Clock World}
    (exceptions_to_retry : list string)
    (exception_callback : option (exn -> Z -> Z -> World -> World * res unit))
    (tries delay backoff : Z) (f : World -> World * res V) (w : World) :
  (length (Retry.attempts
     (Retry.f_retry exceptions_to_retry exception_callback tries delay backoff f w).1.1)
   <= Z.to_nat tries)%nat /\
  (length (Retry.sleeps
     (Retry.f_retry exceptions_to_retry exception_callback tries delay backoff f w).1.1)
   <= length (Retry.attempts
     (Retry.f_retry exceptions_to_retry exception_callback tries delay backoff f w).1.1))%nat /\
  (length (Retry.callbacks
     (Retry.f_retry exceptions_to_retry exception_callback tries delay backoff f w).1.1)
   <= length (Retry.attempts
     (Retry.f_retry exceptions_to_retry exception_callback tries delay backoff f w).1.1))%nat /\
  (forall v,
     (Retry.f_retry exceptions_to_retry exception_callback tries delay backoff f w).2 = Ok v ->
     exists es l w0,
       RetryRuns.retried exceptions_to_retry exception_callback backoff f
         (Z.to_nat tries) delay w es l w0 /\
       (length es < Z.to_nat tries)%nat /\
       f w0 =
         ((Retry.f_retry exceptions_to_retry exception_callback tries delay backoff f w).1.2,
          Ok v) /\
       (Retry.f_retry exceptions_to_retry exception_callback tries delay backoff f w).1.1
         = l ++ [Retry.Attempt None]).
Proof.
  apply (while_remaining_bounded exceptions_to_retry exception_callback backoff f
           (Z.to_nat tries) delay None w).
Qed.

(** ** Alert systems, in general *)

Section AlertSystemMore.
Context `{Runtime World}.

Lemma filter_supported_twice (levels a : list string) :
  filter (fun level => level ∈ levels) (filter (fun level => level ∈ levels) a)
  = filter (fun level => level ∈ levels) a.
Proof.
  induction a as [|x a IH]; [reflexivity|].
  rewrite filter_cons. destruct (decide (x ∈ levels)) as [Hin|Hout].
  - rewrite filter_cons, decide_True by exact Hin. rewrite IH. reflexivity.
  - exact IH.
Qed.

Lemma filter_supported_all (levels a : list string) :
  a ⊆ levels -> filter (fun level => level ∈ levels) a = a.
Proof.
  induction a as [|x a IH]; intros Hsub; [reflexivity|].
  rewrite filter_cons, decide_True by (apply Hsub; left).
  rewrite IH; [reflexivity|]. intros y Hy. apply Hsub. right. exact Hy.
Qed.

(** The data part of the webhook delivery touches nothing outside. *)
Lemma add_additional_data_pure fields msg raw w :
  exists r, SlackAlertSystem.add_additional_data fields msg raw w = ([], w, r).
Proof.
  unfold SlackAlertSystem.add_additional_data.
  destruct (negb (bool_decide (raw = EmptyString))); [|eexists; reflexivity].
  unfold bind, call, ret.
  destruct (json_loads raw) as [v|e]; [|eexists; reflexivity].
  destruct (truthy v); [|eexists; reflexivity].
  destruct (py_keys v) as [keys|e]; [|eexists; reflexivity].
  destruct (py_getitem v "traceback") as [tb|e]; [|eexists; reflexivity].
  destruct (py_join nl tb) as [text|e]; eexists; reflexivity.
Qed.
End AlertSystemMore.

(** X7.  Setting the monitored levels forgets what was monitored before:
    only the last request counts.  Setting them to what is monitored
    already changes nothing, and asking for all the supported levels
    monitors them all again. *)
Theorem set_monitored_levels_composes {World : Type} (system : AlertSystem.t World)
    (a b : list string) :
  AlertSystem.set_monitored_levels (AlertSystem.set_monitored_levels system a) b
    = AlertSystem.set_monitored_levels system b /\
  AlertSystem.set_monitored_levels (AlertSystem.set_monitored_levels system a)
    (AlertSystem.monitored_levels (AlertSystem.set_monitored_levels system a))
    = AlertSystem.set_monitored_levels system a /\
  AlertSystem.monitored_levels
    (AlertSystem.set_monitored_levels system (AlertSystem.levels system))
    = AlertSystem.levels system.
Proof.
  split; [reflexivity|]. split.
  - unfold AlertSystem.set_monitored_levels. simpl. f_equal.
    apply filter_supported_twice.
  - simpl. apply filter_supported_all. intros x Hx. exact Hx.
Qed.

(** X8.  As built, the webhook channel monitors WARNING and FAILURE only,
    so an alert at level SUCCESS sent to it posts nothing and leaves the
    world as it is; the database channel monitors the three levels. *)
Theorem channels_default_levels `{Runtime World} (env_name : string)
    (slack : SlackAlertSystem.config) (bi_alerts : DataLoopAlertSystem.config)
    (klass title data : string) (w : World) :
  AlertSystem.monitored_levels (SlackAlertSystem.init env_name slack)
    = ["WARNING"; "FAILURE"] /\
  AlertSystem.send_alert (SlackAlertSystem.init env_name slack)
    klass "SUCCESS" title data w = ([], w, Ok PNone) /\
  AlertSystem.monitored_levels (DataLoopAlertSystem.init env_name bi_alerts)
    = ["SUCCESS"; "WARNING"; "FAILURE"] /\
  (forall level,
     AlertSystem.watches (DataLoopAlertSystem.init env_name bi_alerts) level = true
     <-> level ∈ ["SUCCESS"; "WARNING"; "FAILURE"]).
Proof.
  split; [reflexivity|]. split; [reflexivity|]. split; [reflexivity|].
  intros level. rewrite watches_true. simpl.
  unfold AlertSystem.default_levels. tauto.
Qed.

(** X9.  A delivery of the webhook channel posts at most once.  Either it
    raises before posting and leaves the world untouched, or it posts one
    body, and then it returns [None] when the endpoint answers 200, raises
    [CronException] for any other status (201 and 204 included), and lets
    an exception of the HTTP client through. *)
Theorem slack_posts_at_most_once `{Runtime World} (env_name : string)
    (cfg : SlackAlertSystem.config) (klass level title raw : string) (w : World) :
  ((SlackAlertSystem.send_alert_internal env_name cfg klass level title raw w).1.1 = [] /\
   (SlackAlertSystem.send_alert_internal env_name cfg klass level title raw w).1.2 = w /\
   exists e,
     (SlackAlertSystem.send_alert_internal env_name cfg klass level title raw w).2
       = Raise e) \/
  (exists body,
     (SlackAlertSystem.send_alert_internal env_name cfg klass level title raw w).1.1
       = [Post (SlackAlertSystem.endpoint cfg) body] /\
     (SlackAlertSystem.send_alert_internal env_name cfg klass level title raw w).1.2
       = (requests_post (SlackAlertSystem.endpoint cfg) body w).1 /\
     (SlackAlertSystem.send_alert_internal env_name cfg klass level title raw w).2
       = SlackMessages.after_post
           (requests_post (SlackAlertSystem.endpoint cfg) body w).2).
Proof.
  remember (SlackAlertSystem.send_alert_internal env_name cfg klass level title raw w)
    as out eqn:Hout.
  unfold SlackAlertSystem.send_alert_internal in Hout.
  destruct (dict_get SlackAlertSystem.colors level) as [color|].
  2: { subst out. left. split; [reflexivity|]. split; [reflexivity|].
       eexists. reflexivity. }
  unfold bind at 1 in Hout.
  match type of Hout with
  | context [SlackAlertSystem.add_additional_data ?fs ?m raw w] =>
      destruct (add_additional_data_pure fs m raw w) as [[fm|e] Hdata];
      rewrite Hdata in Hout
  end.
  - right. unfold bind, tell, call in Hout. simpl in Hout.
    match type of Hout with
    | context [requests_post ?ep ?body w] =>
        exists body; destruct (requests_post ep body w) as [w2 [status|e]]
    end.
    + destruct (status =? 200)%Z eqn:E; subst out;
        unfold SlackMessages.after_post; simpl; rewrite E;
        repeat split; reflexivity.
    + subst out. repeat split; reflexivity.
  - subst out. left. split; [reflexivity|]. split; [reflexivity|].
    exists e. reflexivity.
Qed.

(** X10.  Data that is empty, or that parses to something false ([null],
    an empty object or list, zero, [false], an empty string), adds nothing
    to the message: the body posted has the three fields source, level and
    env, and no block of text. *)
Theorem slack_plain_message `{Runtime World} (env_name : string)
    (cfg : SlackAlertSystem.config) (klass level title raw color : string) (w : World) :
  dict_get SlackAlertSystem.colors level = Some color ->
  (raw = EmptyString \/ exists v, json_loads raw = Ok v /\ truthy v = false) ->
  (SlackAlertSystem.send_alert_internal env_name cfg klass level title raw w).1.1 =
    [Post (SlackAlertSystem.endpoint cfg)
       (SlackMessages.plain_message env_name cfg klass level title color)].
Proof.
  intros Hcolor Hdata.
  unfold SlackAlertSystem.send_alert_internal. rewrite Hcolor.
  unfold bind at 1.
  assert (Hadd : forall fields msg,
    SlackAlertSystem.add_additional_data fields msg raw w = ([], w, Ok (fields, msg))).
  { intros fields msg. unfold SlackAlertSystem.add_additional_data.
    destruct Hdata as [-> | (v & Hloads & Hfalse)]; [reflexivity|].
    destruct (negb (bool_decide (raw = EmptyString))); [|reflexivity].
    unfold bind, call. rewrite Hloads, Hfalse. reflexivity. }
  rewrite Hadd. unfold bind, tell, call. simpl.
  destruct (requests_post _ _ w) as [w1 [status|e]]; [|reflexivity].
  destruct (negb (status =? 200)%Z); reflexivity.
Qed.

Lemma slack_plain_message_witness :
  (SlackAlertSystem.send_alert_internal "prod" Sim.slack "NightlyLoad" "WARNING"
     "CronBase processing: Disk almost full" "null" Sim.healthy).1.1 =
    [Post "https://hooks.example/T0"
       (SlackMessages.plain_message "prod" Sim.slack "NightlyLoad" "WARNING"
          "CronBase processing: Disk almost full" "warning")].
Proof.
  apply (slack_plain_message "prod" Sim.slack "NightlyLoad" "WARNING"
           "CronBase processing: Disk almost full" "null" "warning" Sim.healthy).
  - reflexivity.
  - right. exists PNone. split; reflexivity.
Defined.

(** X11.  Data that is not empty must be the JSON text of a dictionary.
    When it is not JSON, the exception of [json.loads] leaves the delivery;
    when it parses to a true value that is not a dictionary, the delivery
    raises [AttributeError].  In both cases nothing is posted. *)
Theorem slack_rejects_other_data `{Runtime World} (env_name : string)
    (cfg : SlackAlertSystem.config) (klass level title raw color : string) (w : World) :
  dict_get SlackAlertSystem.colors level = Some color ->
  raw <> EmptyString ->
  (forall e,
     json_loads raw = Raise e ->
     SlackAlertSystem.send_alert_internal env_name cfg klass level title raw w
       = ([], w, Raise e)) /\
  (forall v,
     json_loads raw = Ok v ->
     truthy v = true ->
     (forall d, v <> PDict d) ->
     SlackAlertSystem.send_alert_internal env_name cfg klass level title raw w
       = ([], w,
          Raise (AttributeError
                   ("'" +:+ type_name v +:+ "' object has no attribute 'keys'")))).
Proof.
  intros Hcolor Hraw. split.
  - intros e Hloads.
    unfold SlackAlertSystem.send_alert_internal. rewrite Hcolor.
    unfold SlackAlertSystem.add_additional_data.
    rewrite bool_decide_eq_false_2 by exact Hraw. cbn [negb].
    unfold bind, call. rewrite Hloads. reflexivity.
  - intros v Hloads Htrue Hnot.
    unfold SlackAlertSystem.send_alert_internal. rewrite Hcolor.
    unfold SlackAlertSystem.add_additional_data.
    rewrite bool_decide_eq_false_2 by exact Hraw. cbn [negb].
    unfold bind, call. rewrite Hloads, Htrue.
    destruct v as [| | | | |d]; try reflexivity.
    exfalso. apply (Hnot d). reflexivity.
Qed.

Lemma slack_rejects_other_data_witness :
  SlackAlertSystem.send_alert_internal "prod" Sim.slack "NightlyLoad" "WARNING"
    "CronBase processing: Disk almost full" "disk is full" Sim.healthy
    = ([], Sim.healthy, Raise Sim.JSONDecodeError) /\
  SlackAlertSystem.send_alert_internal "prod" Sim.slack "NightlyLoad" "WARNING"
    "CronBase processing: Disk almost full" "[1, 2]" Sim.healthy
    = ([], Sim.healthy,
       Raise (AttributeError "'list' object has no attribute 'keys'")).
Proof.
  split.
  - apply (slack_rejects_other_data "prod" Sim.slack "NightlyLoad" "WARNING"
             "CronBase processing: Disk almost full" "disk is full" "warning"
             Sim.healthy); [reflexivity | discriminate | vm_compute; reflexivity].
  - destruct (slack_rejects_other_data "prod" Sim.slack "NightlyLoad" "WARNING"
                "CronBase processing: Disk almost full" "[1, 2]" "warning"
                Sim.healthy) as [_ Hlist]; [reflexivity | discriminate |].
    apply (Hlist (PList [PInt 1; PInt 2]));
      [vm_compute; reflexivity | reflexivity | discriminate].
Defined.

(** X12.  Data that parses to a dictionary holding, under 'traceback', a
    list of strings: one body is posted, with the fields source, level and
    env, then one field for each other key in the order of the dictionary,
    and the lines of the traceback joined by newlines between code fences as
    the text of the message. *)
Theorem slack_posts_structured_payload `{Runtime World} (env_name : string)
    (cfg : SlackAlertSystem.config) (klass level title raw color : string)
    (d : list (string * pyval)) (lines : list string) (w : World) :
  raw <> EmptyString ->
  json_loads raw = Ok (PDict d) ->
  NoDup d.*1 ->
  dict_get d "traceback" = Some (PList (PStr <$> lines)) ->
  dict_get SlackAlertSystem.colors level = Some color ->
  (SlackAlertSystem.send_alert_internal env_name cfg klass level title raw w).1.1 =
    [Post (SlackAlertSystem.endpoint cfg)
       (SlackAlertSystem.message env_name cfg klass level title color d lines)].
Proof.
  apply slack_structured_payload.
Qed.

Lemma slack_posts_structured_payload_witness :
  (SlackAlertSystem.send_alert_internal "prod" Sim.slack "NightlyLoad" "FAILURE"
     "CronBase processing: Failure during Job"
     (Sim.dumps (PDict [("type", PStr "X"); ("traceback", PList [PStr "l1"; PStr "l2"]);
                        ("host", PStr "cron01")]))
     Sim.healthy).1.1 =
    [Post "https://hooks.example/T0"
       (SlackAlertSystem.message "prod" Sim.slack "NightlyLoad" "FAILURE"
          "CronBase processing: Failure during Job" "danger"
          [("type", PStr "X"); ("traceback", PList [PStr "l1"; PStr "l2"]);
           ("host", PStr "cron01")]
          ["l1"; "l2"])].
Proof.
  apply (slack_posts_structured_payload "prod" Sim.slack "NightlyLoad" "FAILURE"
           "CronBase processing: Failure during Job" _ "danger"
           [("type", PStr "X"); ("traceback", PList [PStr "l1"; PStr "l2"]);
            ("host", PStr "cron01")]
           ["l1"; "l2"] Sim.healthy).
  - vm_compute. discriminate.
  - vm_compute. reflexivity.
  - by_evaluation.
  - reflexivity.
  - reflexivity.
Defined.

(** ** The database channel, in general *)

(** X13.  Called for a level it has no status code for, the database
    channel raises [KeyError] before it connects: nothing is sent to the
    database. *)
Theorem dataloop_unknown_level `{Runtime World} (env_name : string)
    (cfg : DataLoopAlertSystem.config) (klass level title data : string) (w : World) :
  level ∉ AlertSystem.default_levels ->
  DataLoopAlertSystem.send_alert_internal env_name cfg klass level title data w
    = ([], w, Raise (KeyError level)).
Proof.
  intros Hnot. unfold AlertSystem.default_levels in Hnot.
  rewrite !not_elem_of_cons in Hnot. destruct Hnot as (H1 & H2 & H3 & _).
  unfold DataLoopAlertSystem.send_alert_internal, DataLoopAlertSystem.status_codes.
  simpl. rewrite !bool_decide_eq_false_2 by congruence. reflexivity.
Qed.

Lemma dataloop_unknown_level_witness :
  DataLoopAlertSystem.send_alert_internal "prod" Sim.bi_alerts "NightlyLoad" "INFO"
    "CronBase processing: Rows loaded" "null" Sim.healthy
    = ([], Sim.healthy, Raise (KeyError "INFO")).
Proof.
  apply (dataloop_unknown_level "prod" Sim.bi_alerts "NightlyLoad" "INFO"
           "CronBase processing: Rows loaded" "null" Sim.healthy).
  by_evaluation.
Defined.

(** X14.  The database channel stops at the first call that raises and
    lets the exception through: no statement is executed on a connection
    that failed, nothing is committed after a statement that failed.  When
    the three calls succeed it returns the row count [cursor.execute]
    gave. *)
Theorem dataloop_stops_at_first_failure `{Runtime World} (env_name : string)
    (cfg : DataLoopAlertSystem.config) (klass level title data : string)
    (code : Z) (w : World) :
  dict_get DataLoopAlertSystem.status_codes level = Some code ->
  (forall w1 e,
     pymysql_connect (DataLoopAlertSystem.host cfg) (DataLoopAlertSystem.user cfg)
       (DataLoopAlertSystem.db cfg) (DataLoopAlertSystem.password cfg) w
       = (w1, Raise e) ->
     DataLoopAlertSystem.send_alert_internal env_name cfg klass level title data w
       = (take 1 (DataLoopAlertSystem.calls env_name cfg klass title data code),
          w1, Raise e)) /\
  (forall w1 w2 e,
     pymysql_connect (DataLoopAlertSystem.host cfg) (DataLoopAlertSystem.user cfg)
       (DataLoopAlertSystem.db cfg) (DataLoopAlertSystem.password cfg) w
       = (w1, Ok tt) ->
     cursor_execute (DataLoopAlertSystem.query (DataLoopAlertSystem.tablename cfg))
       [PStr klass; PInt code; PStr title; PStr data; PStr env_name] w1
       = (w2, Raise e) ->
     DataLoopAlertSystem.send_alert_internal env_name cfg klass level title data w
       = (take 2 (DataLoopAlertSystem.calls env_name cfg klass title data code),
          w2, Raise e)) /\
  (forall w1 w2 w3 n r,
     pymysql_connect (DataLoopAlertSystem.host cfg) (DataLoopAlertSystem.user cfg)
       (DataLoopAlertSystem.db cfg) (DataLoopAlertSystem.password cfg) w
       = (w1, Ok tt) ->
     cursor_execute (DataLoopAlertSystem.query (DataLoopAlertSystem.tablename cfg))
       [PStr klass; PInt code; PStr title; PStr data; PStr env_name] w1
       = (w2, Ok n) ->
     connection_commit w2 = (w3, r) ->
     DataLoopAlertSystem.send_alert_internal env_name cfg klass level title data w
       = (DataLoopAlertSystem.calls env_name cfg klass title data code, w3,
          match r with Ok _ => Ok (PInt n) | Raise e => Raise e end)).
Proof.
  intros Hcode.
  unfold DataLoopAlertSystem.send_alert_internal. rewrite Hcode.
  unfold DataLoopAlertSystem.connect_to_database, DataLoopAlertSystem.calls.
  unfold bind, tell, call, ret. simpl.
  split; [|split].
  - intros w1 e ->. reflexivity.
  - intros w1 w2 e -> ->. reflexivity.
  - intros w1 w2 w3 n r -> -> ->. destruct r as [[]|e]; reflexivity.
Qed.

Lemma dataloop_stops_at_first_failure_witness :
  DataLoopAlertSystem.send_alert_internal "prod" Sim.bi_alerts "NightlyLoad" "FAILURE"
    "CronBase processing: Failure during Job" "null" (Sim.lose_database Sim.healthy)
    = ([Connect "db.internal" "cron" "bi" "secret"],
       Sim.lose_database Sim.healthy, Raise Sim.OperationalError).
Proof.
  apply (dataloop_stops_at_first_failure "prod" Sim.bi_alerts "NightlyLoad" "FAILURE"
           "CronBase processing: Failure during Job" "null" 2
           (Sim.lose_database Sim.healthy)).
  - reflexivity.
  - reflexivity.
Defined.

(** ** The job object, in general *)

Section RegistryFacts.
Context {V : Type}.

Lemma dict_get_set (d : list (string * V)) key v key' :
  dict_get (dict_set d key v) key' =
  if bool_decide (key = key') then Some v else dict_get d key'.
Proof.
  induction d as [|[k x] d IH]; simpl.
  - destruct (bool_decide (key = key')); reflexivity.
  - destruct (bool_decide (k = key)) eqn:E1; simpl.
    + apply bool_decide_eq_true in E1. subst k.
      destruct (bool_decide (key = key')); reflexivity.
    + apply bool_decide_eq_false in E1.
      destruct (bool_decide (k = key')) eqn:E2; [|exact IH].
      apply bool_decide_eq_true in E2. subst k.
      rewrite bool_decide_eq_false_2 by congruence. reflexivity.
Qed.

Lemma dict_set_keys_present (d : list (string * V)) key v :
  key ∈ d.*1 -> (dict_set d key v).*1 = d.*1.
Proof.
  induction d as [|[k x] d IH]; intros Hin; [inversion Hin|].
  simpl. destruct (bool_decide (k = key)) eqn:E; [reflexivity|].
  apply bool_decide_eq_false in E.
  rewrite fmap_cons in Hin. apply elem_of_cons in Hin as [Heq|Hin];
    [simpl in Heq; congruence|].
  rewrite fmap_cons, IH by exact Hin. reflexivity.
Qed.

Lemma dict_set_keys_NoDup (d : list (string * V)) key v :
  NoDup d.*1 -> NoDup (dict_set d key v).*1.
Proof.
  intros Hnd. destruct (decide (key ∈ d.*1)) as [Hin|Hnot].
  - rewrite dict_set_keys_present by exact Hin. exact Hnd.
  - rewrite dict_set_new by exact Hnot. rewrite fmap_app.
    apply NoDup_app. split; [exact Hnd|]. split.
    + intros x Hx Hx'. apply list_elem_of_singleton in Hx'. simpl in Hx'.
      subst x. contradiction.
    + apply NoDup_singleton.
Qed.
End RegistryFacts.

(** X15.  Registering an alert system makes it the one found under its
    name, and leaves every other name as it was.  A new name goes after the
    others; a name already there keeps its place, its system replaced; and
    no name ever occurs twice. *)
Theorem add_alert_system_registers `{Runtime World} (self : CronBase.t World)
    (system_name : string) (alert_obj : AlertSystem.t World) :
  (forall name,
     dict_get (CronBase.alert_systems
                 (CronBase.add_alert_system self system_name alert_obj)) name =
     if bool_decide (system_name = name) then Some alert_obj
     else dict_get (CronBase.alert_systems self) name) /\
  (system_name ∈ (CronBase.alert_systems self).*1 ->
   (CronBase.alert_systems (CronBase.add_alert_system self system_name alert_obj)).*1
   = (CronBase.alert_systems self).*1) /\
  (system_name ∉ (CronBase.alert_systems self).*1 ->
   (CronBase.alert_systems (CronBase.add_alert_system self system_name alert_obj)).*1
   = (CronBase.alert_systems self).*1 ++ [system_name]) /\
  (NoDup (CronBase.alert_systems self).*1 ->
   NoDup (CronBase.alert_systems
            (CronBase.add_alert_system self system_name alert_obj)).*1).
Proof.
  split; [|split; [|split]]; simpl.
  - intros name. apply dict_get_set.
  - apply dict_set_keys_present.
  - intros Hnot. rewrite dict_set_new by exact Hnot. rewrite fmap_app. reflexivity.
  - apply dict_set_keys_NoDup.
Qed.

Lemma add_alert_system_registers_witness :
  (CronBase.alert_systems
     (CronBase.add_alert_system Sim.job "bi_alerts"
        (SlackAlertSystem.init "prod" Sim.slack))).*1
  = ["bi_alerts"; "slack"] /\
  (CronBase.alert_systems
     (CronBase.add_alert_system Sim.job "pager"
        (SlackAlertSystem.init "prod" Sim.slack))).*1
  = ["bi_alerts"; "slack"] ++ ["pager"].
Proof.
  split.
  - apply (add_alert_system_registers Sim.job "bi_alerts"
             (SlackAlertSystem.init "prod" Sim.slack)).
    by_evaluation.
  - apply (add_alert_system_registers Sim.job "pager"
             (SlackAlertSystem.init "prod" Sim.slack)).
    by_evaluation.
Defined.

(** X16.  [run] never returns: whatever the body and the alert systems do,
    it ends by an exception, [SystemExit] or another one. *)
Theorem run_never_returns `{Runtime World}
    (body : @M (CronBase.state World) CronBase.event unit)
    (st : CronBase.state World) :
  exists e, (CronBase.run body st).2 = Raise e.
Proof.
  assert (Hexc : forall l st0 e0, exists e,
            (CronBase.except_Exception l st0 e0).2 = Raise e).
  { intros l st0 e0. unfold CronBase.except_Exception.
    destruct (isinstance_any e0 ["Exception"]); [|eexists; reflexivity].
    rewrite on_exception_unfold.
    destruct (CronBase.send_alert _ _ _ st0) as [[l' st'] [[]|e']];
      eexists; reflexivity. }
  rewrite run_unfold.
  destruct (CronBase.send_alert "SUCCESS" "Job START" PNone st)
    as [[l1 st1] [[]|e]]; [|apply Hexc].
  destruct (body st1) as [[lb st2] [[]|e]]; [|apply Hexc].
  destruct (CronBase.send_alert "SUCCESS" "Job FINAL" PNone st2)
    as [[l3 st3] [[]|e]]; [eexists; reflexivity | apply Hexc].
Qed.

(** X17.  An exception of the body that is not an [Exception] (a
    [SystemExit], a [KeyboardInterrupt]) is not handled by [run]: it leaves
    [run] as it is, and [run] sends no FAILURE alert: the alerts of the run
    are "Job START" and those the body sent itself before it raised.  A
    body calling [sys.exit(3)] thus ends the process with status 3. *)
Theorem run_lets_base_exceptions_through `{Runtime World}
    (body : @M (CronBase.state World) CronBase.event unit)
    (st st1 st2 : CronBase.state World) (l1 lb : list CronBase.event) (e : exn) :
  CronBase.send_alert "SUCCESS" "Job START" PNone st = (l1, st1, Ok tt) ->
  body st1 = (lb, st2, Raise e) ->
  isinstance e "Exception" = false ->
  CronBase.run body st = (l1 ++ CronBase.CronProcess :: lb, st2, Raise e) /\
  CronBase.dispatched (CronBase.run body st).1.1
    = ("SUCCESS", "Job START", PNone) :: CronBase.dispatched lb.
Proof.
  intros Hstart Hbody Hexc.
  pose proof (send_alert_dispatched "SUCCESS" "Job START" PNone st) as [Hd1 _].
  rewrite Hstart in Hd1. simpl in Hd1.
  rewrite run_unfold, Hstart, Hbody. unfold CronBase.except_Exception.
  assert (isinstance_any e ["Exception"] = false) as ->
    by (simpl; rewrite Hexc; reflexivity).
  split; [reflexivity|]. simpl.
  change (l1 ++ CronBase.CronProcess :: lb) with (l1 ++ [CronBase.CronProcess] ++ lb).
  rewrite !dispatched_app, Hd1. reflexivity.
Qed.

Lemma run_lets_base_exceptions_through_witness :
  CronBase.exit_status (CronBase.run Jobs.work_exiting (Sim.job, Sim.healthy)).2
    = Some 3%Z /\
  CronBase.dispatched (CronBase.run Jobs.work_exiting (Sim.job, Sim.healthy)).1.1
    = [("SUCCESS", "Job START", PNone); ("WARNING", "Nothing to load", PNone)].
Proof.
  destruct (run_lets_base_exceptions_through Jobs.work_exiting (Sim.job, Sim.healthy)
              (CronBase.send_alert "SUCCESS" "Job START" PNone (Sim.job, Sim.healthy)).1.2
              (Jobs.work_exiting
                 (CronBase.send_alert "SUCCESS" "Job START" PNone
                    (Sim.job, Sim.healthy)).1.2).1.2
              (CronBase.send_alert "SUCCESS" "Job START" PNone (Sim.job, Sim.healthy)).1.1
              (Jobs.work_exiting
                 (CronBase.send_alert "SUCCESS" "Job START" PNone
                    (Sim.job, Sim.healthy)).1.2).1.1
              (SystemExit 3) eq_refl eq_refl eq_refl) as [Hrun Hd].
  split; [rewrite Hrun; reflexivity | rewrite Hd; reflexivity].
Defined.

Section OnlyAlerts.
Context `{Runtime World}.

(** The loop over the systems logs what the systems do, nothing else. *)
Lemma for_each_system_channels systems klass level title data (w : World) :
  Forall (fun ev => exists n a, ev = CronBase.Channel n a)
    (CronBase.for_each_system systems klass level title data w).1.1.
Proof.
  revert w. induction systems as [|[name system] systems IH]; intros w; [constructor|].
  rewrite for_each_system_cons.
  assert (Hch : forall l : list AlertSystem.event,
            Forall (fun ev => exists n a, ev = CronBase.Channel n a)
              (CronBase.Channel name <$> l)).
  { intros l. apply Forall_fmap, Forall_forall. intros a _. exists name, a. reflexivity. }
  destruct (AlertSystem.send_alert system klass level title data w)
    as [[l1 w1] [v|e]]; simpl.
  - specialize (IH w1).
    destruct (CronBase.for_each_system systems klass level title data w1)
      as [[l2 w2] r]. simpl in *.
    apply Forall_app. split; [apply Hch | exact IH].
  - apply Hch.
Qed.

(** Sending an alert does not run the body of the job. *)
Lemma send_alert_only_alerts level title data (st : CronBase.state World) :
  CronBase.CronProcess ∉ (CronBase.send_alert level title data st).1.1.
Proof.
  destruct st as [self w]. rewrite send_alert_unfold.
  pose proof (for_each_system_channels (CronBase.alert_systems self)
                (CronBase.class_name self) level ("CronBase processing: " +:+ title)
                (CronBase.ensure_string data) w) as Hch.
  destruct (CronBase.for_each_system _ _ _ _ _ w) as [[l w'] r]. simpl in *.
  apply not_elem_of_cons. split; [discriminate|].
  intros Hin. rewrite Forall_forall in Hch. destruct (Hch _ Hin) as (n & a & Hev).
  discriminate Hev.
Qed.
End OnlyAlerts.

(** X18.  When sending "Job START" raises an [Exception], the body is not
    run at all: [run] goes straight to its [except] clause, sends the
    FAILURE alert with the error output of that exception, and ends the
    same way whatever the body is. *)
Theorem run_skips_body_when_start_fails `{Runtime World}
    (body body' : @M (CronBase.state World) CronBase.event unit)
    (st st1 : CronBase.state World) (l1 : list CronBase.event) (e : exn) :
  CronBase.send_alert "SUCCESS" "Job START" PNone st = (l1, st1, Raise e) ->
  isinstance e "Exception" = true ->
  CronBase.run body st = CronBase.run body' st /\
  CronBase.dispatched (CronBase.run body st).1.1 =
    [("SUCCESS", "Job START", PNone);
     ("FAILURE", "Failure during Job", CronBase.error_output e st1.2)] /\
  CronBase.CronProcess ∉ (CronBase.run body st).1.1.
Proof.
  intros Hstart Hexc.
  pose proof (send_alert_dispatched "SUCCESS" "Job START" PNone st) as [Hd1 _].
  rewrite Hstart in Hd1. simpl in Hd1.
  pose proof (send_alert_only_alerts "SUCCESS" "Job START" PNone st) as Hno1.
  rewrite Hstart in Hno1. simpl in Hno1.
  split; [rewrite !run_unfold, Hstart; reflexivity|].
  rewrite run_unfold, Hstart. unfold CronBase.except_Exception.
  assert (isinstance_any e ["Exception"] = true) as ->
    by (simpl; rewrite Hexc; reflexivity).
  rewrite on_exception_unfold.
  pose proof (send_alert_dispatched "FAILURE" "Failure during Job"
                (CronBase.error_output e st1.2) st1) as [Hd2 _].
  pose proof (send_alert_only_alerts "FAILURE" "Failure during Job"
                (CronBase.error_output e st1.2) st1) as Hno2.
  destruct (CronBase.send_alert "FAILURE" "Failure during Job"
              (CronBase.error_output e st1.2) st1) as [[l2 st2] [[]|e2]];
    simpl in *; rewrite dispatched_app, Hd1, Hd2;
    (split; [reflexivity|]); rewrite not_elem_of_app; split; assumption.
Qed.

Lemma run_skips_body_when_start_fails_witness :
  CronBase.run Sim.work (Sim.job, Sim.lose_database Sim.healthy)
    = CronBase.run Sim.work_failing (Sim.job, Sim.lose_database Sim.healthy) /\
  CronBase.dispatched
    (CronBase.run Sim.work (Sim.job, Sim.lose_database Sim.healthy)).1.1 =
    [("SUCCESS", "Job START", PNone);
     ("FAILURE", "Failure during Job",
      CronBase.error_output Sim.OperationalError (Sim.lose_database Sim.healthy))].
Proof.
  destruct (run_skips_body_when_start_fails Sim.work Sim.work_failing
              (Sim.job, Sim.lose_database Sim.healthy)
              (Sim.job, Sim.lose_database Sim.healthy)
              (CronBase.send_alert "SUCCESS" "Job START" PNone
                 (Sim.job, Sim.lose_database Sim.healthy)).1.1
              Sim.OperationalError eq_refl eq_refl) as (Hsame & Hd & _).
  split; [exact Hsame | exact Hd].
Defined.

(** X19.  Data given as a string goes to the systems as it is, not as
    JSON.  So an alert at a level the webhook channel monitors, sent with a
    plain sentence for data on a job that has this channel only, makes
    [send_alert] raise the exception of [json.loads]; the delivery function
    has been called and nothing has been posted. *)
Theorem plain_text_detail_breaks_webhook `{Runtime World}
    (class_name env_name : string) (cfg : SlackAlertSystem.config)
    (level title text : string) (e : exn) (w : World) :
  level ∈ ["WARNING"; "FAILURE"] ->
  text <> EmptyString ->
  json_loads text = Raise e ->
  CronBase.send_alert level title (PStr text)
    (CronBase.init class_name env_name None (Some cfg), w) =
    ([CronBase.Dispatch level title (PStr text);
      CronBase.Channel "slack"
        (AlertSystem.Internal
           (AlertSystem.Delivery class_name level ("CronBase processing: " +:+ title)
              text))],
     (CronBase.init class_name env_name None (Some cfg), w), Raise e).
Proof.
  intros Hlevel Htext Hloads.
  assert (Hcases : level = "WARNING" \/ level = "FAILURE").
  { rewrite !elem_of_cons in Hlevel. rewrite elem_of_nil in Hlevel. tauto. }
  assert (Hwatch : AlertSystem.watches (SlackAlertSystem.init env_name cfg) level = true).
  { destruct Hcases as [-> | ->]; reflexivity. }
  assert (Hcolor : exists color, dict_get SlackAlertSystem.colors level = Some color).
  { destruct Hcases as [-> | ->]; eexists; reflexivity. }
  destruct Hcolor as [color Hcolor].
  rewrite send_alert_unfold. simpl CronBase.alert_systems.
  rewrite for_each_system_cons, send_alert_delivers by exact Hwatch.
  simpl AlertSystem.send_alert_internal.
  unfold SlackAlertSystem.send_alert_internal. rewrite Hcolor.
  unfold SlackAlertSystem.add_additional_data. simpl CronBase.ensure_string.
  rewrite bool_decide_eq_false_2 by exact Htext. cbn [negb].
  unfold bind, call. rewrite Hloads. reflexivity.
Qed.

Lemma plain_text_detail_breaks_webhook_witness :
  CronBase.send_alert "WARNING" "Disk almost full" (PStr "disk is full")
    (Jobs.slack_only, Sim.healthy) =
    ([CronBase.Dispatch "WARNING" "Disk almost full" (PStr "disk is full");
      CronBase.Channel "slack"
        (AlertSystem.Internal
           (AlertSystem.Delivery "NightlyLoad" "WARNING"
              ("CronBase processing: " +:+ "Disk almost full") "disk is full"))],
     (Jobs.slack_only, Sim.healthy), Raise Sim.JSONDecodeError).
Proof.
  apply (plain_text_detail_breaks_webhook "NightlyLoad" "prod" Sim.slack
           "WARNING" "Disk almost full" "disk is full" Sim.JSONDecodeError Sim.healthy).
  - by_evaluation.
  - discriminate.
  - vm_compute. reflexivity.
Defined.

(** ** Email *)

Section MailFacts.

Lemma dict_get_is_Some {V} (d : list (string * V)) key :
  key ∈ d.*1 <-> exists v, dict_get d key = Some v.
Proof.
  split.
  - induction d as [|[k x] d IH]; intros Hin; [inversion Hin|].
    simpl. case_bool_decide as E; [eexists; reflexivity|].
    rewrite fmap_cons in Hin. apply elem_of_cons in Hin as [Heq|Hin];
      [simpl in Heq; congruence|].
    apply IH. exact Hin.
  - intros [v Hget]. induction d as [|[k x] d IH]; [discriminate Hget|].
    simpl in Hget. rewrite fmap_cons. case_bool_decide as E.
    + subst k. left.
    + right. apply IH. exact Hget.
Qed.

Lemma has_key_true kwargs key :
  Mail.has_key kwargs key = true <-> key ∈ kwargs.*1.
Proof. unfold Mail.has_key. apply bool_decide_eq_true. Qed.

Lemma has_key_false kwargs key :
  Mail.has_key kwargs key = false <-> key ∉ kwargs.*1.
Proof. unfold Mail.has_key. apply bool_decide_eq_false. Qed.

Lemma has_key_get kwargs key :
  Mail.has_key kwargs key = true -> exists v, dict_get kwargs key = Some v.
Proof. intros Hk. apply dict_get_is_Some, has_key_true. exact Hk. Qed.

Lemma no_key_get kwargs key :
  Mail.has_key kwargs key = false -> dict_get kwargs key = None.
Proof.
  intros Hk. apply has_key_false in Hk.
  destruct (dict_get kwargs key) as [v|] eqn:E; [|reflexivity].
  exfalso. apply Hk, dict_get_is_Some. exists v. exact E.
Qed.
End MailFacts.

(** X20.  [build_email_content] checks its arguments in a fixed order: a
    missing 'to' is reported first, then a missing 'subject', then the
    absence of both 'text_body' and 'html_body', each by a [ValueError];
    with 'to', 'subject' and at least one body given it succeeds. *)
Theorem build_email_content_validates (mozmail_config : Mail.config)
    (kwargs : list (string * pyval)) :
  ("to" ∉ kwargs.*1 ->
   Mail.build_email_content mozmail_config kwargs = Raise (Mail.not_provided "to")) /\
  ("to" ∈ kwargs.*1 -> "subject" ∉ kwargs.*1 ->
   Mail.build_email_content mozmail_config kwargs
     = Raise (Mail.not_provided "subject")) /\
  ("to" ∈ kwargs.*1 -> "subject" ∈ kwargs.*1 ->
   "text_body" ∉ kwargs.*1 -> "html_body" ∉ kwargs.*1 ->
   Mail.build_email_content mozmail_config kwargs = Raise Mail.no_body) /\
  ("to" ∈ kwargs.*1 -> "subject" ∈ kwargs.*1 ->
   "text_body" ∈ kwargs.*1 \/ "html_body" ∈ kwargs.*1 ->
   exists content, Mail.build_email_content mozmail_config kwargs = Ok content).
Proof.
  unfold Mail.build_email_content, Mail.first_missing.
  split; [|split; [|split]].
  - intros Hto. apply has_key_false in Hto. rewrite Hto. reflexivity.
  - intros Hto Hsub. apply has_key_true in Hto. apply has_key_false in Hsub.
    rewrite Hto, Hsub. reflexivity.
  - intros Hto Hsub Ht Hh. apply has_key_true in Hto, Hsub.
    apply has_key_false in Ht, Hh. rewrite Hto, Hsub, Ht, Hh. reflexivity.
  - intros Hto Hsub Hbody. apply has_key_true in Hto, Hsub.
    rewrite Hto, Hsub. cbn [negb].
    destruct (has_key_get _ _ Hto) as [vto Eto].
    destruct (has_key_get _ _ Hsub) as [vsub Esub].
    unfold Mail.copy_item. rewrite Eto, Esub.
    destruct (Mail.has_key kwargs "text_body") eqn:Ht;
      destruct (Mail.has_key kwargs "html_body") eqn:Hh; cbn [negb].
    + destruct (has_key_get _ _ Ht) as [vt Et]. destruct (has_key_get _ _ Hh) as [vh Eh].
      rewrite Et, Eh. eexists. reflexivity.
    + destruct (has_key_get _ _ Ht) as [vt Et]. rewrite Et. eexists. reflexivity.
    + destruct (has_key_get _ _ Hh) as [vh Eh]. rewrite Eh. eexists. reflexivity.
    + exfalso. apply has_key_false in Ht, Hh. tauto.
Qed.

Lemma build_email_content_validates_witness :
  Mail.build_email_content Mails.mozmail Mails.no_body = Raise Mail.no_body /\
  exists content, Mail.build_email_content Mails.mozmail Mails.report = Ok content.
Proof.
  split.
  - apply (build_email_content_validates Mails.mozmail Mails.no_body); by_evaluation.
  - apply (build_email_content_validates Mails.mozmail Mails.report);
      [by_evaluation | by_evaluation | left; by_evaluation].
Defined.

(** X21.  In the content [build_email_content] returns, the sender and the
    type are those of the configuration, whatever the caller passed under
    'user_id' or 'type'; 'to_address' and 'subject' are the caller's 'to'
    and 'subject'; 'plaintext' and 'html' are the bodies given; and every
    other argument of the caller is passed on unchanged. *)
Theorem build_email_content_fields (mozmail_config : Mail.config)
    (kwargs content : list (string * pyval)) :
  Mail.build_email_content mozmail_config kwargs = Ok content ->
  dict_get content "user_id" = Some (Mail.from_user_id mozmail_config) /\
  dict_get content "type" = Some (Mail.email_type mozmail_config) /\
  dict_get content "to_address" = dict_get kwargs "to" /\
  dict_get content "subject" = dict_get kwargs "subject" /\
  ("text_body" ∈ kwargs.*1 ->
   dict_get content "plaintext" = dict_get kwargs "text_body") /\
  ("html_body" ∈ kwargs.*1 ->
   dict_get content "html" = dict_get kwargs "html_body") /\
  (forall key, key ∉ Mail.written -> dict_get content key = dict_get kwargs key).
Proof.
  unfold Mail.build_email_content, Mail.first_missing, Mail.copy_item.
  destruct (Mail.has_key kwargs "to") eqn:Hto; [|discriminate].
  destruct (Mail.has_key kwargs "subject") eqn:Hsub; [|discriminate].
  cbn [negb].
  destruct (has_key_get _ _ Hto) as [vto Eto].
  destruct (has_key_get _ _ Hsub) as [vsub Esub].
  rewrite Eto, Esub.
  assert (Hother : forall key v (c : list (string * pyval)) k,
            key ∉ Mail.written -> k ∈ Mail.written ->
            dict_get (dict_set c k v) key = dict_get c key).
  { intros key v c k Hkey Hk. rewrite dict_get_set.
    rewrite bool_decide_eq_false_2; [reflexivity|]. intros ->. contradiction. }
  assert (Hw : forall k, bool_decide (k ∈ Mail.written) = true -> k ∈ Mail.written)
    by (intros k; apply bool_decide_eq_true).
  destruct (Mail.has_key kwargs "text_body") eqn:Ht;
    destruct (Mail.has_key kwargs "html_body") eqn:Hh; cbn [negb];
    try discriminate.
  - destruct (has_key_get _ _ Ht) as [vt Et]. destruct (has_key_get _ _ Hh) as [vh Eh].
    rewrite Et, Eh. intros [= <-].
    rewrite !dict_get_set. simpl.
    repeat split; try reflexivity.
    intros key Hkey. rewrite !Hother by (try exact Hkey; apply Hw; reflexivity).
    reflexivity.
  - destruct (has_key_get _ _ Ht) as [vt Et]. rewrite Et. intros [= <-].
    rewrite !dict_get_set. simpl.
    repeat split; try reflexivity.
    + intros Hin. apply has_key_false in Hh. contradiction.
    + intros key Hkey. rewrite !Hother by (try exact Hkey; apply Hw; reflexivity).
      reflexivity.
  - destruct (has_key_get _ _ Hh) as [vh Eh]. rewrite Eh. intros [= <-].
    rewrite !dict_get_set. simpl.
    repeat split; try reflexivity.
    + intros Hin. apply has_key_false in Ht. contradiction.
    + intros key Hkey. rewrite !Hother by (try exact Hkey; apply Hw; reflexivity).
      reflexivity.
Qed.

Lemma build_email_content_fields_witness :
  exists content,
    Mail.build_email_content Mails.mozmail Mails.report = Ok content /\
    dict_get content "user_id" = Some (PInt 42) /\
    dict_get content "campaign" = Some (PStr "nightly").
Proof.
  eexists. split; [reflexivity|].
  destruct (build_email_content_fields Mails.mozmail Mails.report _ eq_refl)
    as (Huser & _ & _ & _ & _ & _ & Hrest).
  split; [exact Huser|].
  rewrite (Hrest "campaign"); [reflexivity | by_evaluation].
Defined.

(** X22.  [send_email] posts nothing when its arguments are refused: the
    [ValueError] of [build_email_content] leaves it.  Otherwise it posts
    one request, holding the content as the only message, the access id and
    the time, signed in the X-Mozmail header.  On an answer that is a JSON
    object it returns the answer when there is no 'messages' entry or when
    the first message is 'ok', and raises [CronException] quoting the first
    message otherwise. *)
Theorem send_email_outcome `{Runtime World} `{MailRuntime World}
    (mozmail_config : Mail.config) (kwargs : list (string * pyval)) (w : World) :
  (forall e,
     Mail.build_email_content mozmail_config kwargs = Raise e ->
     Mailer.send_email mozmail_config kwargs w = ([], w, Raise e)) /\
  (forall content w1 now signature w2 d,
     Mail.build_email_content mozmail_config kwargs = Ok content ->
     time_time w = (w1, now) ->
     Mailer.build_email_signature
       (json_dumps (Mailer.payload mozmail_config content now))
       (Mail.secret mozmail_config) true = Ok signature ->
     post_and_decode (Mail.endpoint mozmail_config)
       (Mailer.payload mozmail_config content now) (Mailer.headers signature) w1
       = (w2, Ok (PDict d)) ->
     Mailer.send_email mozmail_config kwargs w =
       ([Mailer.MailPost (Mail.endpoint mozmail_config)
           (Mailer.payload mozmail_config content now) (Mailer.headers signature)],
        w2, Mailer.checked d)).
Proof.
  split.
  - intros e Hbuild. unfold Mailer.send_email, Mailer.pure, bind, call.
    rewrite Hbuild. reflexivity.
  - intros content w1 now signature w2 d Hbuild Htime Hsign Hpost.
    unfold Mailer.payload, Mailer.headers in *.
    unfold Mailer.send_email, Mailer.pure, bind, call, tell, ret, raise.
    rewrite Hbuild, Htime. simpl. rewrite Hsign. simpl. rewrite Hpost.
    unfold Mailer.checked, Mailer.py_contains, Mailer.py_item.
    destruct (dict_get d "messages") as [messages|] eqn:Hget.
    + rewrite bool_decide_eq_true_2
        by (apply dict_get_is_Some; exists messages; exact Hget).
      destruct (Mailer.py_first messages) as [first|e]; [|reflexivity].
      destruct (Mailer.not_ok first); reflexivity.
    + rewrite bool_decide_eq_false_2; [reflexivity|].
      intros Hin. apply dict_get_is_Some in Hin as [v Hv]. congruence.
Qed.

Lemma send_email_outcome_witness :
  Mailer.send_email Mails.mozmail Mails.no_body Sim.healthy
    = ([], Sim.healthy, Raise Mail.no_body) /\
  (Mailer.send_email Mails.mozmail Mails.report Mails.refusing).2
    = Raise (CronException "Unable to send email: quota exceeded") /\
  (Mailer.send_email Mails.mozmail Mails.report Sim.healthy).2
    = Ok (PDict [("messages", PList [PStr "ok"])]).
Proof.
  split; [|split].
  - apply (send_email_outcome Mails.mozmail Mails.no_body Sim.healthy). reflexivity.
  - destruct (send_email_outcome Mails.mozmail Mails.report Mails.refusing) as [_ Hsent].
    rewrite (Hsent _ _ _ _ _ _ eq_refl eq_refl eq_refl eq_refl). reflexivity.
  - destruct (send_email_outcome Mails.mozmail Mails.report Sim.healthy) as [_ Hsent].
    rewrite (Hsent _ _ _ _ _ _ eq_refl eq_refl eq_refl eq_refl). reflexivity.
Defined.

(** ** Connections to databases *)

Section DatabaseFacts.
Context {V : Type}.

Lemma dict_get_del (d : list (string * V)) key key' :
  NoDup d.*1 ->
  dict_get (Database.dict_del d key) key' =
  if bool_decide (key = key') then None else dict_get d key'.
Proof.
  induction d as [|[k x] d IH]; intros Hnd; simpl.
  - destruct (bool_decide (key = key')); reflexivity.
  - rewrite fmap_cons in Hnd. apply NoDup_cons in Hnd as [Hnotin Hnd].
    destruct (bool_decide (k = key)) eqn:E1.
    + apply bool_decide_eq_true in E1. subst k.
      destruct (bool_decide (key = key')) eqn:E2; [|reflexivity].
      apply bool_decide_eq_true in E2. subst key'.
      destruct (dict_get d key) as [v|] eqn:Hget; [|reflexivity].
      exfalso. apply Hnotin. simpl. apply dict_get_is_Some. exists v. exact Hget.
    + apply bool_decide_eq_false in E1. simpl.
      destruct (bool_decide (k = key')) eqn:E2.
      * apply bool_decide_eq_true in E2. subst k.
        rewrite bool_decide_eq_false_2 by congruence. reflexivity.
      * apply IH. exact Hnd.
Qed.
End DatabaseFacts.

(** X23.  A database name that is not known stops every method before the
    database is touched: [connect_to_database] raises [KeyError] for a name
    without configuration; [close_db_connection], [db_execute] and
    [db_query] raise [KeyError] for a name without an open connection. *)
Theorem database_unknown_name `{DbRuntime World} (self : Database.t)
    (database_name statement : string) (params : list pyval) (w : World) :
  (database_name ∉ (Database.config_mysql self).*1 ->
   Database.connect_to_database self database_name w
     = ([], w, Raise (KeyError database_name))) /\
  (database_name ∉ (Database.connections self).*1 ->
   Database.close_db_connection self database_name w
     = ([], w, Raise (KeyError database_name)) /\
   Database.db_execute self database_name statement params w
     = ([], w, Raise (KeyError database_name)) /\
   Database.db_query self database_name statement params w
     = ([], w, Raise (KeyError database_name))).
Proof.
  assert (Hnone : forall {A} (d : list (string * A)),
            database_name ∉ d.*1 -> dict_get d database_name = None).
  { intros A d Hnot. destruct (dict_get d database_name) as [v|] eqn:E; [|reflexivity].
    exfalso. apply Hnot, dict_get_is_Some. exists v. exact E. }
  split.
  - intros Hnot. unfold Database.connect_to_database.
    rewrite (Hnone _ _ Hnot). reflexivity.
  - intros Hnot.
    unfold Database.close_db_connection, Database.db_execute, Database.db_query,
      Database.db_create_cursor.
    rewrite (Hnone _ _ Hnot). repeat split; reflexivity.
Qed.

Lemma database_unknown_name_witness :
  Database.connect_to_database Databases.job "reporting" 0%nat
    = ([], 0%nat, Raise (KeyError "reporting")) /\
  Database.db_execute Databases.job "warehouse" "DELETE FROM staging" [] 0%nat
    = ([], 0%nat, Raise (KeyError "warehouse")).
Proof.
  split.
  - apply (database_unknown_name Databases.job "reporting" "DELETE FROM staging" [] 0%nat).
    by_evaluation.
  - apply (database_unknown_name Databases.job "warehouse" "DELETE FROM staging" [] 0%nat).
    by_evaluation.
Defined.

(** X24.  Once [connect_to_database] has succeeded for a name, statements
    for that name run on the connection it opened.  Connecting again under
    the same name opens a new connection without closing the one
    registered before.  Once [close_db_connection] has succeeded, the name
    has no connection any more, and the connections under other names are
    as they were. *)
Theorem database_connect_then_close `{DbRuntime World} (self : Database.t)
    (database_name : string) (to : Database.settings) (connection : nat) (w w1 : World) :
  dict_get (Database.config_mysql self) database_name = Some to ->
  db_connect (Database.host to) (Database.user to) (Database.db to)
    (Database.password to) w = (w1, Ok connection) ->
  exists self1,
    Database.connect_to_database self database_name w
      = ([Database.Connected to], w1, Ok (self1, connection)) /\
    (forall statement params w',
       Database.db_execute self1 database_name statement params w' =
       match db_run connection statement params w' with
       | (w2, r) => ([Database.Ran connection statement params], w2, r)
       end) /\
    (forall w' w2,
       NoDup (Database.connections self).*1 ->
       db_close connection w' = (w2, Ok tt) ->
       exists self2,
         Database.close_db_connection self1 database_name w'
           = ([Database.Closed connection], w2, Ok (self2, tt)) /\
         dict_get (Database.connections self2) database_name = None /\
         (forall other, other <> database_name ->
            dict_get (Database.connections self2) other
            = dict_get (Database.connections self) other)).
Proof.
  intros Hcfg Hconnect. eexists. split; [|split].
  - unfold Database.connect_to_database. rewrite Hcfg.
    unfold bind, tell, call, ret. rewrite Hconnect. reflexivity.
  - intros statement params w'.
    unfold Database.db_execute, Database.db_create_cursor. simpl.
    rewrite dict_get_set, bool_decide_eq_true_2 by reflexivity.
    unfold bind, tell, call, ret. simpl.
    destruct (db_run connection statement params w') as [w2 r]. reflexivity.
  - intros w' w2 Hnd Hclose. eexists. split; [|split].
    + unfold Database.close_db_connection. simpl.
      rewrite dict_get_set, bool_decide_eq_true_2 by reflexivity.
      unfold bind, tell, call, ret. rewrite Hclose. reflexivity.
    + simpl. rewrite dict_get_del by (apply dict_set_keys_NoDup; exact Hnd).
      rewrite bool_decide_eq_true_2 by reflexivity. reflexivity.
    + intros other Hother. simpl.
      rewrite dict_get_del by (apply dict_set_keys_NoDup; exact Hnd).
      rewrite bool_decide_eq_false_2 by congruence.
      rewrite dict_get_set, bool_decide_eq_false_2 by congruence. reflexivity.
Qed.

Lemma database_connect_then_close_witness :
  exists self1,
    Database.connect_to_database Databases.job "warehouse" 0%nat
      = ([Database.Connected (Database.Settings "db.internal" "cron" "dw" "secret")],
         1%nat, Ok (self1, 0%nat)) /\
    Database.db_execute self1 "warehouse" "DELETE FROM staging" [] 1%nat
      = ([Database.Ran 0 "DELETE FROM staging" []], 1%nat, Ok 1%Z).
Proof.
  destruct (database_connect_then_close Databases.job "warehouse"
              (Database.Settings "db.internal" "cron" "dw" "secret") 0%nat 0%nat 1%nat)
    as (self1 & Hconnect & Hrun & _); [reflexivity | reflexivity |].
  exists self1. split; [exact Hconnect|].
  rewrite Hrun. reflexivity.
Defined.

(** ** Checks on the file system *)

(** X25.  [ensure_symlink_exists] accepts every path that is a symbolic
    link, wherever the link points.  For a path that is not a link it
    raises exactly when the real path of that path is the real path of the
    file: handed the file itself it raises, handed an unrelated regular
    file it does not. *)
Theorem ensure_symlink_exists_accepts `{FsRuntime World}
    (symlink_path file_path : string) (w : World) :
  (os_path_islink symlink_path w = true ->
   Files.ensure_symlink_exists symlink_path file_path w = ([], w, Ok tt)) /\
  (os_path_islink symlink_path w = false ->
   os_path_realpath symlink_path w <> os_path_realpath file_path w ->
   Files.ensure_symlink_exists symlink_path file_path w = ([], w, Ok tt)) /\
  (os_path_islink symlink_path w = false ->
   os_path_realpath symlink_path w = os_path_realpath file_path w ->
   Files.ensure_symlink_exists symlink_path file_path w =
     ([], w,
      Raise (CronException
               ("Path " +:+ symlink_path
                +:+ " is not a symlink or does not point where expected.")))).
Proof.
  unfold Files.ensure_symlink_exists. split; [|split].
  - intros ->. reflexivity.
  - intros -> Hne. rewrite bool_decide_eq_false_2 by exact Hne. reflexivity.
  - intros -> Heq. rewrite bool_decide_eq_true_2 by exact Heq. reflexivity.
Qed.

Lemma ensure_symlink_exists_accepts_witness :
  Files.ensure_symlink_exists "/data/current" "/data/2019-12-31" tt = ([], tt, Ok tt) /\
  Files.ensure_symlink_exists "/data/2019-12-31" "/data/2019-12-31" tt =
    ([], tt,
     Raise (CronException
              ("Path " +:+ "/data/2019-12-31"
               +:+ " is not a symlink or does not point where expected."))).
Proof.
  destruct (ensure_symlink_exists_accepts "/data/current" "/data/2019-12-31" tt)
    as (Hlink & _ & _).
  destruct (ensure_symlink_exists_accepts "/data/2019-12-31" "/data/2019-12-31" tt)
    as (_ & _ & Hsame).
  split; [apply Hlink; reflexivity | apply Hsame; reflexivity].
Defined.

(** ** The CSV cleaner *)

Section CSVFacts.

Lemma split_slash_nonempty s : CSVCleaner.split_slash s <> [].
Proof.
  destruct s as [|c s]; simpl; [discriminate|].
  destruct (bool_decide (c = CSVCleaner.slash)); [discriminate|].
  destruct (CSVCleaner.split_slash s); discriminate.
Qed.

Lemma split_slash_free s :
  CSVCleaner.slash_free s = true -> CSVCleaner.split_slash s = [s].
Proof.
  induction s as [|c s IH]; simpl; [reflexivity|].
  destruct (bool_decide (c = CSVCleaner.slash)); simpl; [discriminate|].
  intros Hfree. rewrite (IH Hfree). reflexivity.
Qed.

(** Splitting what is on both sides of a slash splits the whole. *)
Lemma split_slash_app a b :
  CSVCleaner.split_slash (a +:+ String CSVCleaner.slash b) =
  CSVCleaner.split_slash a ++ CSVCleaner.split_slash b.
Proof.
  induction a as [|c a IH]; simpl.
  - reflexivity.
  - destruct (bool_decide (c = CSVCleaner.slash)).
    + rewrite IH. reflexivity.
    + rewrite IH. pose proof (split_slash_nonempty a) as Hne.
      destruct (CSVCleaner.split_slash a) as [|part parts]; [contradiction|].
      reflexivity.
Qed.

(** Joining the parts with slashes gives the string back. *)
Lemma join_split_slash s : join "/" (CSVCleaner.split_slash s) = s.
Proof.
  induction s as [|c s IH]; [reflexivity|]. simpl.
  pose proof (split_slash_nonempty s) as Hne.
  destruct (bool_decide (c = CSVCleaner.slash)) eqn:E.
  - apply bool_decide_eq_true in E. subst c.
    destruct (CSVCleaner.split_slash s) as [|part parts]; [contradiction|].
    simpl in *. rewrite IH. reflexivity.
  - destruct (CSVCleaner.split_slash s) as [|part parts]; [contradiction|].
    destruct parts as [|part' parts]; simpl in *; rewrite <- IH; reflexivity.
Qed.

Lemma string_app_assoc (a b c : string) : (a +:+ b) +:+ c = a +:+ (b +:+ c).
Proof.
  induction a as [|x a IH]; [reflexivity|].
  change (String x ((a +:+ b) +:+ c) = String x (a +:+ (b +:+ c))).
  f_equal. exact IH.
Qed.

(** The directory and the name the cleaner keeps for [dir/name]. *)
Lemma init_of_path dir name fieldnames header :
  CSVCleaner.slash_free name = true ->
  CSVCleaner.working_dir
    (CSVCleaner.init (dir +:+ "/" +:+ name) fieldnames header) = dir +:+ "/" /\
  CSVCleaner.file_name
    (CSVCleaner.init (dir +:+ "/" +:+ name) fieldnames header) = name.
Proof.
  intros Hfree. unfold CSVCleaner.init.
  cbn [CSVCleaner.working_dir CSVCleaner.file_name].
  change (dir +:+ "/" +:+ name) with (dir +:+ String CSVCleaner.slash name).
  rewrite split_slash_app, (split_slash_free name Hfree).
  rewrite removelast_last, last_last, join_split_slash. split; reflexivity.
Qed.

(** The directory and the name the cleaner keeps for a bare name. *)
Lemma init_of_name name fieldnames header :
  CSVCleaner.slash_free name = true ->
  CSVCleaner.working_dir (CSVCleaner.init name fieldnames header) = "/" /\
  CSVCleaner.file_name (CSVCleaner.init name fieldnames header) = name.
Proof.
  intros Hfree. unfold CSVCleaner.init.
  cbn [CSVCleaner.working_dir CSVCleaner.file_name].
  rewrite (split_slash_free name Hfree). split; reflexivity.
Qed.
End CSVFacts.

(** X26.  For a path [dir/name], where [name] has no slash, the cleaner
    works in [dir/], on the file [name], and writes to
    [dir/CSVCleaners_temp.csv]; directory and name put together give the
    path back.  For a bare file name, without any slash, the working
    directory is the root: the temporary file is [/CSVCleaners_temp.csv],
    not a file next to the input. *)
Theorem csv_cleaner_paths (dir name : string) (fieldnames : list string)
    (header : bool) :
  CSVCleaner.slash_free name = true ->
  (CSVCleaner.working_dir (CSVCleaner.init (dir +:+ "/" +:+ name) fieldnames header)
     = dir +:+ "/" /\
   CSVCleaner.file_name (CSVCleaner.init (dir +:+ "/" +:+ name) fieldnames header)
     = name /\
   CSVCleaner.temp_filename (CSVCleaner.init (dir +:+ "/" +:+ name) fieldnames header)
     = dir +:+ "/" +:+ "CSVCleaners_temp.csv" /\
   CSVCleaner.working_dir (CSVCleaner.init (dir +:+ "/" +:+ name) fieldnames header)
     +:+ CSVCleaner.file_name (CSVCleaner.init (dir +:+ "/" +:+ name) fieldnames header)
     = dir +:+ "/" +:+ name) /\
  (CSVCleaner.working_dir (CSVCleaner.init name fieldnames header) = "/" /\
   CSVCleaner.file_name (CSVCleaner.init name fieldnames header) = name /\
   CSVCleaner.temp_filename (CSVCleaner.init name fieldnames header)
     = "/CSVCleaners_temp.csv").
Proof.
  intros Hfree.
  destruct (init_of_path dir name fieldnames header Hfree) as [Hdir Hname].
  destruct (init_of_name name fieldnames header Hfree) as [Hdir' Hname'].
  split.
  - split; [exact Hdir|]. split; [exact Hname|]. split.
    + change (CSVCleaner.temp_filename
                (CSVCleaner.init (dir +:+ "/" +:+ name) fieldnames header))
        with (CSVCleaner.working_dir
                (CSVCleaner.init (dir +:+ "/" +:+ name) fieldnames header)
              +:+ "CSVCleaners_temp.csv").
      rewrite Hdir, string_app_assoc. reflexivity.
    + rewrite Hdir, Hname, string_app_assoc. reflexivity.
  - split; [exact Hdir'|]. split; [exact Hname'|].
    change (CSVCleaner.temp_filename (CSVCleaner.init name fieldnames header))
      with (CSVCleaner.working_dir (CSVCleaner.init name fieldnames header)
            +:+ "CSVCleaners_temp.csv").
    rewrite Hdir'. reflexivity.
Qed.

Lemma csv_cleaner_paths_witness :
  CSVCleaner.temp_filename
    (CSVCleaner.init ("/data/in" +:+ "/" +:+ "orders.csv") ["id"; "shipped"] true)
    = "/data/in" +:+ "/" +:+ "CSVCleaners_temp.csv" /\
  CSVCleaner.temp_filename (CSVCleaner.init "orders.csv" ["id"; "shipped"] true)
    = "/CSVCleaners_temp.csv".
Proof.
  destruct (csv_cleaner_paths "/data/in" "orders.csv" ["id"; "shipped"] true eq_refl)
    as [(_ & _ & Htemp & _) (_ & _ & Htemp')].
  split; [exact Htemp | exact Htemp'].
Defined.

(** X27.  [clean_up] makes one call of [os.rename], from
    [working_dir + temp_filename] to [working_dir + file_name], and ends as
    that call does.  [temp_filename] starts with the working directory
    already: for a path [dir/name], where [name] has no slash, the call
    renames [dir/dir/CSVCleaners_temp.csv] to [dir/name], the path given;
    for a bare file name it renames [//CSVCleaners_temp.csv] to [/name]. *)
Theorem csv_clean_up_rename `{FsRuntime World}
    (dir name : string) (fieldnames : list string) (header : bool) (w : World) :
  CSVCleaner.slash_free name = true ->
  CSVCleaner.clean_up (CSVCleaner.init (dir +:+ "/" +:+ name) fieldnames header) w =
    (match os_rename (dir +:+ "/" +:+ dir +:+ "/" +:+ "CSVCleaners_temp.csv")
             (dir +:+ "/" +:+ name) w with
     | (w1, r) =>
         ([Files.Renamed (dir +:+ "/" +:+ dir +:+ "/" +:+ "CSVCleaners_temp.csv")
             (dir +:+ "/" +:+ name)], w1, r)
     end) /\
  CSVCleaner.clean_up (CSVCleaner.init name fieldnames header) w =
    (match os_rename "//CSVCleaners_temp.csv" ("/" +:+ name) w with
     | (w1, r) =>
         ([Files.Renamed "//CSVCleaners_temp.csv" ("/" +:+ name)], w1, r)
     end).
Proof.
  intros Hfree.
  assert (Hrun : forall self : CSVCleaner.t,
    CSVCleaner.clean_up self w =
      match os_rename (CSVCleaner.working_dir self +:+ CSVCleaner.temp_filename self)
              (CSVCleaner.working_dir self +:+ CSVCleaner.file_name self) w with
      | (w1, r) =>
          ([Files.Renamed
              (CSVCleaner.working_dir self +:+ CSVCleaner.temp_filename self)
              (CSVCleaner.working_dir self +:+ CSVCleaner.file_name self)], w1, r)
      end).
  { intros self. unfold CSVCleaner.clean_up, bind, tell, call.
    destruct (os_rename _ _ w) as [w1 r]. reflexivity. }
  destruct (init_of_path dir name fieldnames header Hfree) as [Hdir Hname].
  destruct (init_of_name name fieldnames header Hfree) as [Hdir' Hname'].
  split.
  - rewrite Hrun.
    change (CSVCleaner.temp_filename
              (CSVCleaner.init (dir +:+ "/" +:+ name) fieldnames header))
      with (CSVCleaner.working_dir
              (CSVCleaner.init (dir +:+ "/" +:+ name) fieldnames header)
            +:+ "CSVCleaners_temp.csv").
    rewrite Hdir, Hname, !string_app_assoc. reflexivity.
  - rewrite Hrun.
    change (CSVCleaner.temp_filename (CSVCleaner.init name fieldnames header))
      with (CSVCleaner.working_dir (CSVCleaner.init name fieldnames header)
            +:+ "CSVCleaners_temp.csv").
    rewrite Hdir', Hname'. reflexivity.
Qed.

Lemma csv_clean_up_rename_witness :
  CSVCleaner.clean_up
    (CSVCleaner.init ("/data/in" +:+ "/" +:+ "orders.csv") ["id"; "shipped"] true) tt
  = ([Files.Renamed
        ("/data/in" +:+ "/" +:+ "/data/in" +:+ "/" +:+ "CSVCleaners_temp.csv")
        ("/data/in" +:+ "/" +:+ "orders.csv")], tt, Ok tt).
Proof.
  destruct (csv_clean_up_rename "/data/in" "orders.csv" ["id"; "shipped"] true tt
              eq_refl) as [Hpath _].
  rewrite Hpath. reflexivity.
Defined.

(** X28.  [process_date_field] raises [KeyError] for a row without the
    field, and returns the row as it is when the field holds [None] or a
    text that casefolds to 'null'.  Otherwise it converts the date: the
    field holds the converted text, the row has the same columns in the
    same order, and every other column keeps its value; a date that does
    not match the format makes it raise the error of the conversion. *)
Theorem process_date_field_cases `{TextRuntime} (input_dict : list (string * pyval))
    (field input_format output_format : string) :
  (field ∉ input_dict.*1 ->
   CSVCleaner.process_date_field input_dict field input_format output_format
     = Raise (KeyError field)) /\
  (dict_get input_dict field = Some PNone ->
   CSVCleaner.process_date_field input_dict field input_format output_format
     = Ok input_dict) /\
  (forall date,
     dict_get input_dict field = Some (PStr date) ->
     str_casefold date = "null" ->
     CSVCleaner.process_date_field input_dict field input_format output_format
       = Ok input_dict) /\
  (forall date,
     dict_get input_dict field = Some (PStr date) ->
     str_casefold date <> "null" ->
     match datetime_reformat date input_format output_format with
     | Ok converted =>
         exists output_dict,
           CSVCleaner.process_date_field input_dict field input_format output_format
             = Ok output_dict /\
           dict_get output_dict field = Some (PStr converted) /\
           output_dict.*1 = input_dict.*1 /\
           (forall other, other <> field ->
              dict_get output_dict other = dict_get input_dict other)
     | Raise e =>
         CSVCleaner.process_date_field input_dict field input_format output_format
           = Raise e
     end).
Proof.
  unfold CSVCleaner.process_date_field, CSVCleaner.convert_datetime.
  split; [|split; [|split]].
  - intros Hnot.
    destruct (dict_get input_dict field) as [v|] eqn:E; [|reflexivity].
    exfalso. apply Hnot, dict_get_is_Some. exists v. exact E.
  - intros ->. reflexivity.
  - intros date -> Hnull. rewrite bool_decide_eq_true_2 by exact Hnull. reflexivity.
  - intros date Hget Hnot. rewrite Hget.
    rewrite bool_decide_eq_false_2 by exact Hnot.
    destruct (datetime_reformat date input_format output_format) as [converted|e];
      [|reflexivity].
    eexists. split; [reflexivity|]. split; [|split].
    + rewrite dict_get_set, bool_decide_eq_true_2 by reflexivity. reflexivity.
    + apply dict_set_keys_present. apply dict_get_is_Some. eexists. exact Hget.
    + intros other Hother. rewrite dict_get_set, bool_decide_eq_false_2 by congruence.
      reflexivity.
Qed.

Lemma process_date_field_cases_witness :
  CSVCleaner.process_date_field Disk.row "returned" "%d/%m/%Y" "%Y-%m-%d" = Ok Disk.row /\
  CSVCleaner.process_date_field Disk.row "delivered" "%d/%m/%Y" "%Y-%m-%d"
    = Raise (KeyError "delivered") /\
  exists output_dict,
    CSVCleaner.process_date_field Disk.row "shipped" "%d/%m/%Y" "%Y-%m-%d"
      = Ok output_dict /\
    dict_get output_dict "shipped" = Some (PStr "2019-12-31").
Proof.
  destruct (process_date_field_cases Disk.row "returned" "%d/%m/%Y" "%Y-%m-%d")
    as (_ & _ & Hnull & _).
  destruct (process_date_field_cases Disk.row "delivered" "%d/%m/%Y" "%Y-%m-%d")
    as (Hmissing & _).
  destruct (process_date_field_cases Disk.row "shipped" "%d/%m/%Y" "%Y-%m-%d")
    as (_ & _ & _ & Hdate).
  split; [apply (Hnull "NULL"); reflexivity|].
  split; [apply Hmissing; by_evaluation|].
  specialize (Hdate "31/12/2019" eq_refl ltac:(discriminate)).
  destruct Hdate as (output_dict & Hrun & Hfield & _).
  exists output_dict. split; [exact Hrun | exact Hfield].
Defined.
